(** * ai-code-sandbox: sandbox lifecycle, container pool and worker loop

    A shallow embedding of
      - [src/ai_code_sandbox/container_pool.py]  (module [Pool]),
      - [src/ai_code_sandbox/sandbox.py]         (module [Sandbox]),
      - [src/scripts/persistent_worker.py]       (module [Worker]),
    together with a model of POSIX shell quoting (module [Shell]) used to
    state what the command line built by [run_code] means, and a small
    deterministic container engine (module [RefDocker]) on which the
    programs are run on concrete inputs.  The definitions come first; the
    facts about them follow in [PoolFacts], [ShellFacts], [SandboxFacts]
    and [WorkerFacts].

    Conventions.
      - A Python [str] is a Rocq [string] holding its UTF-8 encoding; a
        Python [bytes] is a [string] as well, and [decode('utf-8')] is the
        identity on well-formed input and raises otherwise.
      - Every call that leaves the Python process (Docker SDK, subprocess,
        clock, uuid, standard output) is a constructor of [call]; a program
        is a tree of calls ([prog]) and is run against an arbitrary
        [runtime].  Statements quantified over [runtime] hold whatever the
        collaborators answer.
      - Exceptions are values of [exn]; only instances of Python's
        [Exception] are modelled (asynchronous interrupts are not).
      - Diagnostics written to the error stream never influence control
        flow and are left out; everything written to standard output is
        kept. *)

From Stdlib Require Import ZArith String Ascii List Lia Bool.
From stdpp Require Import base tactics option list gmap strings pretty.
Import ListNotations.

Set Warnings "-register-all,-clear-no-such-hyp".

Local Open Scope string_scope.
Local Open Scope Z_scope.

(** ** Python values shared by the three modules *)

Inductive exn_class :=
| NotFound            (* docker.errors.NotFound *)
| APIError            (* any other error of the Docker SDK *)
| TypeError
| AttributeError
| UnicodeDecodeError
| RuntimeError
| UnboundLocalError
| ImportError
| JSONDecodeError     (* json.JSONDecodeError *)
| PlainException.     (* raise Exception(...) *)

Record exn := Exn { exn_cls : exn_class; exn_msg : string }.

Inductive res (A : Type) :=
| Return (a : A)
| Raise (e : exn).
Arguments Return {A} a.
Arguments Raise {A} e.

Definition is_not_found (e : exn) : bool :=
  match exn_cls e with NotFound => true | _ => false end.

(** JSON documents, as [json.loads] produces them and [json.dumps] takes
    them.  A float is kept as its IEEE-754 bit pattern; no arithmetic is
    done on floats. *)
Inductive json :=
| JNull
| JBool (b : bool)
| JInt (n : Z)
| JFloat (bits : Z)
| JStr (s : string)
| JArr (l : list json)
| JObj (kvs : list (string * json)).

(** A line written to standard output: [print(json.dumps(d))] or
    [print(text)]. *)
Inductive out_line :=
| Dumps (d : json)
| Text (s : string).

(** ** The collaborators: Docker SDK, subprocess, clock, uuid, stdout *)

Record Container := MkContainer { cid : string; cname : string }.

Record run_args := RunArgs {
  ra_image : string;
  ra_name : string;
  ra_command : string;
  ra_detach : bool;
  ra_network_mode : string;
  ra_dns : list string;
  ra_mem_limit : string;
  ra_cpu_period : Z;
  ra_cpu_quota : Z;
  ra_remove : bool }.

(** [exec_run(..., demux=True)]: exit code and the two streams, each [None]
    when nothing was written to it. *)
Record exec_result := ExecResult {
  exit_code : Z;
  out_stream : option string;
  err_stream : option string }.

(** What [subprocess.run(..., timeout=30)] does. *)
Inductive timeout_stdout :=
| NoPartial                    (* e.stdout is None or empty *)
| PartialStr (s : string)
| PartialBytes (b : string).

Inductive proc_outcome :=
| Completed (stdout stderr : string) (returncode : Z)
| TimeoutExpired (partial : timeout_stdout)
| ProcError (e : exn).

Inductive call :=
| FromEnv                                            (* docker.from_env() *)
| ContainersGet (name : string)                      (* client.containers.get *)
| ContainerReload (c : Container)                    (* c.reload(); c.status *)
| ContainerStart (c : Container)
| ContainerStop (c : Container) (timeout : option Z)
| ContainerRemove (c : Container) (force : bool)
| ContainersRun (a : run_args)                       (* client.containers.run *)
| ImagesBuild (dockerfile : string)                  (* client.images.build(...)[0].id *)
| ImagesRemove (image_id : string) (force : bool)
| ExecRun (c : Container) (cmd : list string)        (* c.exec_run(cmd, demux=True) *)
| SubprocessRun (code : string) (timeout : Z)        (* subprocess.run(code, shell=True, ...) *)
| ImportModule (name : string)                       (* from name import ... *)
| Uuid4Hex                                           (* uuid.uuid4().hex *)
| Sleep (ms : Z)                                     (* time.sleep *)
| PerfCounter                                        (* time.perf_counter(), in ms *)
| Stdout (l : out_line).                             (* print(..., flush=True) *)

Definition reply (c : call) : Type :=
  match c with
  | FromEnv => res unit
  | ContainersGet _ => res Container
  | ContainerReload _ => res string
  | ContainerStart _ => res unit
  | ContainerStop _ _ => res unit
  | ContainerRemove _ _ => res unit
  | ContainersRun _ => res Container
  | ImagesBuild _ => res string
  | ImagesRemove _ _ => res unit
  | ExecRun _ _ => res exec_result
  | SubprocessRun _ _ => proc_outcome
  | ImportModule _ => res unit
  | Uuid4Hex => string
  | Sleep _ => unit
  | PerfCounter => Z
  | Stdout _ => unit
  end.

(** Programs: finite trees of calls. *)
Inductive prog (R : Type) : Type :=
| Ret (r : R)
| Vis (c : call) (k : reply c -> prog R).
Arguments Ret {R} r.
Arguments Vis {R} c k.

Fixpoint pbind {A B : Type} (p : prog A) (f : A -> prog B) : prog B :=
  match p with
  | Ret a => f a
  | Vis c k => Vis c (fun x => pbind (k x) f)
  end.

(** A runtime answers every call, threading its own world. *)
Record runtime := Runtime {
  world : Type;
  answer : forall c : call, world -> reply c * world }.

Fixpoint run {R : Type} (rt : runtime) (p : prog R) (w : world rt)
  : R * list call * world rt :=
  match p with
  | Ret r => (r, [], w)
  | Vis c k =>
      let '(x, w1) := answer rt c w in
      let '(r, tr, w2) := run rt (k x) w1 in
      (r, c :: tr, w2)
  end.

Definition result_of {R W : Type} (x : R * list call * W) : R := fst (fst x).
Definition trace_of {R W : Type} (x : R * list call * W) : list call := snd (fst x).
Definition world_of {R W : Type} (x : R * list call * W) : W := snd x.

(** Every call the program can issue, whatever the replies, satisfies [P]. *)
Fixpoint all_calls {R : Type} (P : call -> Prop) (p : prog R) : Prop :=
  match p with
  | Ret _ => True
  | Vis c k => P c /\ forall x, all_calls P (k x)
  end.

(** Every value the program can return, whatever the replies, satisfies [Q]. *)
Fixpoint all_results {R : Type} (Q : R -> Prop) (p : prog R) : Prop :=
  match p with
  | Ret r => Q r
  | Vis c k => forall x, all_results Q (k x)
  end.

(** Every value the program can return along the paths on which each reply
    satisfies the guard [G]. *)
Fixpoint all_results_when {R : Type} (G : forall c : call, reply c -> Prop)
    (Q : R -> Prop) (p : prog R) : Prop :=
  match p with
  | Ret r => Q r
  | Vis c k => forall x, G c x -> all_results_when G Q (k x)
  end.

(** The paths on which [subprocess.run] ends as [o]. *)
Definition subprocess_ends (o : proc_outcome) (c : call) : reply c -> Prop :=
  match c as c0 return reply c0 -> Prop with
  | SubprocessRun _ _ => fun x => x = o
  | _ => fun _ => True
  end.

(** ** State-and-exception monad over programs

    [M S A] is a method body: it reads and updates the fields [S] of [self],
    issues calls, and either returns an [A] or raises.  The fields survive a
    raise, as they do in Python. *)
Definition M (S A : Type) : Type := S -> prog (res A * S).

Definition ret {S A} (a : A) : M S A := fun s => Ret (Return a, s).
Definition raise {S A} (e : exn) : M S A := fun s => Ret (Raise e, s).

Definition bind {S A B} (m : M S A) (f : A -> M S B) : M S B :=
  fun s => pbind (m s) (fun rs =>
    match fst rs with
    | Return a => f a (snd rs)
    | Raise e => Ret (Raise e, snd rs)
    end).

(** [try: m  except Exception as e: h e] *)
Definition try_except {S A} (m : M S A) (h : exn -> M S A) : M S A :=
  fun s => pbind (m s) (fun rs =>
    match fst rs with
    | Return a => Ret (Return a, snd rs)
    | Raise e => h e (snd rs)
    end).

(** [try: m  finally: f]; an exception raised by [f] replaces the outcome
    of [m]. *)
Definition try_finally {S A} (m : M S A) (f : M S unit) : M S A :=
  fun s => pbind (m s) (fun rs =>
    pbind (f (snd rs)) (fun rs' =>
      match fst rs' with
      | Return _ => Ret (fst rs, snd rs')
      | Raise e => Ret (Raise e, snd rs')
      end)).

Definition get {S} : M S S := fun s => Ret (Return s, s).
Definition put {S} (s : S) : M S unit := fun _ => Ret (Return tt, s).
Definition modify {S} (f : S -> S) : M S unit := fun s => Ret (Return tt, f s).

(** A call whose reply may be an exception. *)
Definition invoke {S A} (c : call) (cast : reply c -> res A) : M S A :=
  fun s => Vis c (fun x => Ret (cast x, s)).

(** A call that always answers. *)
Definition perform {S A} (c : call) (cast : reply c -> A) : M S A :=
  fun s => Vis c (fun x => Ret (Return (cast x), s)).

Declare Scope py_scope.
Delimit Scope py_scope with py.
Notation "x <- m ;; k" := (bind m (fun x => k))
  (at level 100, m at next level, right associativity) : py_scope.
Notation "m ;;; k" := (bind m (fun _ => k))
  (at level 100, right associativity) : py_scope.
Local Open Scope py_scope.

Definition containers_get {S} (name : string) : M S Container :=
  invoke (ContainersGet name) (fun x => x).
Definition container_reload {S} (c : Container) : M S string :=
  invoke (ContainerReload c) (fun x => x).
Definition container_start {S} (c : Container) : M S unit :=
  invoke (ContainerStart c) (fun x => x).
Definition container_stop {S} (c : Container) (t : option Z) : M S unit :=
  invoke (ContainerStop c t) (fun x => x).
Definition container_remove {S} (c : Container) (force : bool) : M S unit :=
  invoke (ContainerRemove c force) (fun x => x).
Definition containers_run {S} (a : run_args) : M S Container :=
  invoke (ContainersRun a) (fun x => x).
Definition images_build {S} (dockerfile : string) : M S string :=
  invoke (ImagesBuild dockerfile) (fun x => x).
Definition images_remove {S} (id : string) (force : bool) : M S unit :=
  invoke (ImagesRemove id force) (fun x => x).
Definition exec_run {S} (c : Container) (cmd : list string) : M S exec_result :=
  invoke (ExecRun c cmd) (fun x => x).
Definition from_env {S} : M S unit :=
  invoke FromEnv (fun x => x).
Definition subprocess_run {S} (code : string) (timeout : Z) : M S proc_outcome :=
  perform (SubprocessRun code timeout) (fun x => x).
Definition import_module {S} (name : string) : M S unit :=
  invoke (ImportModule name) (fun x => x).
Definition uuid4_hex {S} : M S string := perform Uuid4Hex (fun x => x).
Definition sleep {S} (ms : Z) : M S unit := perform (Sleep ms) (fun x => x).
Definition perf_counter {S} : M S Z := perform PerfCounter (fun x => x).
Definition print {S} (l : out_line) : M S unit := perform (Stdout l) (fun x => x).

(** [s[:8]] *)
Definition hex8 (s : string) : string := substring 0 8 s.


(** * A reference runtime

    A small deterministic Docker engine used to run the programs on concrete
    inputs.  [faulty] marks the calls the engine refuses (with an
    [APIError]); [exec] and [proc] say what executed code does. *)
Module RefDocker.

Record engine := Engine {
  e_containers : list (Container * string);   (* handle, status *)
  e_images : list string;
  e_next : N;                                  (* source of ids *)
  e_clock : Z;
  e_stdout : list out_line }.

Record behaviour := Behaviour {
  faulty : call -> bool;
  exec : list string -> exec_result;
  proc : string -> proc_outcome }.

Definition api_error (what : string) : exn := Exn APIError what.
Definition not_found (what : string) : exn := Exn NotFound ("No such " ++ what).

Fixpoint find_by (key : Container -> string) (k : string)
    (cs : list (Container * string)) : option (Container * string) :=
  match cs with
  | [] => None
  | (c, st) :: cs' => if String.eqb (key c) k then Some (c, st) else find_by key k cs'
  end.

Fixpoint set_status (id st : string) (cs : list (Container * string))
  : list (Container * string) :=
  match cs with
  | [] => []
  | (c, st0) :: cs' =>
      if String.eqb (cid c) id then (c, st) :: cs' else (c, st0) :: set_status id st cs'
  end.

Fixpoint drop_id (id : string) (cs : list (Container * string))
  : list (Container * string) :=
  match cs with
  | [] => []
  | (c, st) :: cs' => if String.eqb (cid c) id then cs' else (c, st) :: drop_id id cs'
  end.

Definition with_containers (cs : list (Container * string)) (e : engine) : engine :=
  Engine cs (e_images e) (e_next e) (e_clock e) (e_stdout e).

Definition fresh (e : engine) : engine :=
  Engine (e_containers e) (e_images e) (N.succ (e_next e)) (e_clock e) (e_stdout e).

(** 32 characters, the first eight of which identify [n] below 10^8. *)
Definition uuid_of (n : N) : string :=
  substring 0 32 (pretty n ++ "abcdefabcdefabcdefabcdefabcdefab").

Definition answer_ok (b : behaviour) (c : call) (e : engine) : reply c * engine :=
  match c return reply c * engine with
  | FromEnv => (Return tt, e)
  | ContainersGet name =>
      match find_by cname name (e_containers e) with
      | Some (h, _) => (Return h, e)
      | None => (Raise (not_found ("container: " ++ name)), e)
      end
  | ContainerReload h =>
      match find_by cid (cid h) (e_containers e) with
      | Some (_, st) => (Return st, e)
      | None => (Raise (not_found ("container: " ++ cid h)), e)
      end
  | ContainerStart h =>
      match find_by cid (cid h) (e_containers e) with
      | Some _ => (Return tt, with_containers (set_status (cid h) "running" (e_containers e)) e)
      | None => (Raise (not_found ("container: " ++ cid h)), e)
      end
  | ContainerStop h _ =>
      match find_by cid (cid h) (e_containers e) with
      | Some _ => (Return tt, with_containers (set_status (cid h) "exited" (e_containers e)) e)
      | None => (Raise (not_found ("container: " ++ cid h)), e)
      end
  | ContainerRemove h force =>
      match find_by cid (cid h) (e_containers e) with
      | Some (_, st) =>
          if String.eqb st "running" && negb force
          then (Raise (api_error "cannot remove a running container"), e)
          else (Return tt, with_containers (drop_id (cid h) (e_containers e)) e)
      | None => (Raise (not_found ("container: " ++ cid h)), e)
      end
  | ContainersRun a =>
      match find_by cname (ra_name a) (e_containers e) with
      | Some _ => (Raise (api_error ("Conflict. The container name is already in use: " ++ ra_name a)), e)
      | None =>
          let h := MkContainer ("c" ++ pretty (e_next e)) (ra_name a) in
          (Return h, fresh (with_containers (e_containers e ++ [(h, "running")])%list e))
      end
  | ImagesBuild _ =>
      let id := "sha256:" ++ pretty (e_next e) in
      (Return id, fresh (Engine (e_containers e) (e_images e ++ [id])%list
                                (e_next e) (e_clock e) (e_stdout e)))
  | ImagesRemove id _ =>
      if existsb (String.eqb id) (e_images e)
      then (Return tt, Engine (e_containers e)
                              (List.filter (fun i => negb (String.eqb id i)) (e_images e))
                              (e_next e) (e_clock e) (e_stdout e))
      else (Raise (not_found ("image: " ++ id)), e)
  | ExecRun h cmd =>
      match find_by cid (cid h) (e_containers e) with
      | Some (_, st) =>
          if String.eqb st "running" then (Return (exec b cmd), e)
          else (Raise (api_error "container is not running"), e)
      | None => (Raise (not_found ("container: " ++ cid h)), e)
      end
  | SubprocessRun code _ => (proc b code, e)
  | ImportModule _ => (Return tt, e)
  | Uuid4Hex => (uuid_of (e_next e), fresh e)
  | Sleep ms =>
      (tt, Engine (e_containers e) (e_images e) (e_next e) (e_clock e + ms) (e_stdout e))
  | PerfCounter =>
      (e_clock e, Engine (e_containers e) (e_images e) (e_next e) (e_clock e + 1) (e_stdout e))
  | Stdout l =>
      (tt, Engine (e_containers e) (e_images e) (e_next e) (e_clock e) (e_stdout e ++ [l])%list)
  end.

(** A refused call raises and leaves the engine alone; calls that cannot
    raise are never refused. *)
Definition answer_with (b : behaviour) (c : call) (e : engine) : reply c * engine :=
  if faulty b c then
    match c return reply c * engine with
    | FromEnv => (Raise (api_error "refused"), e)
    | ContainersGet _ => (Raise (api_error "refused"), e)
    | ContainerReload _ => (Raise (api_error "refused"), e)
    | ContainerStart _ => (Raise (api_error "refused"), e)
    | ContainerStop _ _ => (Raise (api_error "refused"), e)
    | ContainerRemove _ _ => (Raise (api_error "refused"), e)
    | ContainersRun _ => (Raise (api_error "refused"), e)
    | ImagesBuild _ => (Raise (api_error "refused"), e)
    | ImagesRemove _ _ => (Raise (api_error "refused"), e)
    | ExecRun _ _ => (Raise (api_error "refused"), e)
    | ImportModule name => (Raise (Exn ImportError ("No module named '" ++ name ++ "'")), e)
    | c' => answer_ok b c' e
    end
  else answer_ok b c e.

Definition docker (b : behaviour) : runtime := Runtime engine (answer_with b).

Definition empty_engine : engine := Engine [] [] 0 0 [].

Definition silent : exec_result := ExecResult 0 None None.

(** No call is refused; executed code prints nothing and exits 0. *)
Definition reliable : behaviour :=
  Behaviour (fun _ => false) (fun _ => silent) (fun _ => Completed "" "" 0).

End RefDocker.

(** * container_pool.py *)
Module Pool.

Record ContainerPool := MkPool {
  pool_size : Z;
  image_name : string;
  containers : list Container;
  in_use : gset string }.

Definition append_container (c : Container) (p : ContainerPool) : ContainerPool :=
  MkPool (pool_size p) (image_name p) (containers p ++ [c])%list (in_use p).

Definition set_in_use (u : gset string) (p : ContainerPool) : ContainerPool :=
  MkPool (pool_size p) (image_name p) (containers p) u.

Definition warm_args (image name : string) : run_args :=
  {| ra_image := image;
     ra_name := name;
     ra_command := "tail -f /dev/null";
     ra_detach := true;
     ra_network_mode := "none";
     ra_dns := [];
     ra_mem_limit := "100m";
     ra_cpu_period := 100000;
     ra_cpu_quota := 50000;
     ra_remove := true |}.

(** One iteration of the loop of [_init_pool]: a failed creation is
    logged and skipped. *)
Definition create_member : M ContainerPool unit :=
  try_except
    (p <- get ;;
     u <- uuid4_hex ;;
     c <- containers_run (warm_args (image_name p) ("sandbox_pool_" ++ hex8 u)) ;;
     modify (append_container c))
    (fun _ => ret tt).

Fixpoint repeat_m {S} (n : nat) (m : M S unit) : M S unit :=
  match n with
  | O => ret tt
  | S n' => m ;;; repeat_m n' m
  end.

(** [for i in range(self.pool_size): ...] *)
Definition _init_pool : M ContainerPool unit :=
  p <- get ;; repeat_m (Z.to_nat (pool_size p)) create_member.

(** [ContainerPool(pool_size, image_name)] *)
Definition __init__ (pool_size : Z) (image_name : string) : prog (res ContainerPool) :=
  pbind (from_env tt) (fun r =>
    match fst r with
    | Raise e => Ret (Raise e)
    | Return _ =>
        pbind (_init_pool (MkPool pool_size image_name [] ∅)) (fun rs =>
          Ret (match fst rs with
               | Return _ => Return (snd rs)
               | Raise e => Raise e
               end))
    end).

(** [for c in self.containers: if c.id not in self.in_use: ...] *)
Fixpoint first_free (cs : list Container) (used : gset string) : option Container :=
  match cs with
  | [] => None
  | c :: cs' => if decide (cid c ∈ used) then first_free cs' used else Some c
  end.

Definition exhausted : exn := Exn RuntimeError "No containers available in pool".

(** The polling interval [time.sleep(0.1)], in milliseconds. *)
Definition poll_ms : Z := 100.

(** The [while] loop of [acquire].  Time is kept in milliseconds: reading
    [time.time()] yields [now], and [time.sleep(0.1)] moves it on by
    [poll_ms].  No other caller touches the pool between two polls. *)
Fixpoint acquire_loop (fuel : nat) (timeout start : Z) (p : ContainerPool) (now : Z)
  : option (res Container * ContainerPool * Z) :=
  match fuel with
  | O => None
  | S fuel' =>
      if decide (now - start < timeout) then
        match first_free (containers p) (in_use p) with
        | Some c => Some (Return c, set_in_use ({[cid c]} ∪ in_use p) p, now)
        | None => acquire_loop fuel' timeout start p (now + poll_ms)
        end
      else Some (Raise exhausted, p, now)
  end.

(** Enough rounds for the deadline to pass. *)
Definition rounds (timeout : Z) : nat := S (Z.to_nat (timeout / poll_ms + 1)).

Definition acquire (timeout : Z) (p : ContainerPool) (now : Z)
  : option (res Container * ContainerPool * Z) :=
  acquire_loop (rounds timeout) timeout now p now.

Definition release (p : ContainerPool) (c : Container) : ContainerPool :=
  set_in_use (in_use p ∖ {[cid c]}) p.

(** [try: c.stop(); c.remove()  except: pass], for every member. *)
Fixpoint cleanup_members (cs : list Container) : M ContainerPool unit :=
  match cs with
  | [] => ret tt
  | c :: cs' =>
      try_except (container_stop c None ;;; container_remove c false) (fun _ => ret tt) ;;;
      cleanup_members cs'
  end.

Definition cleanup : M ContainerPool unit :=
  p <- get ;; cleanup_members (containers p).

(** The module-level [_pool] is the state; [get_pool] hands out that very
    object. *)
Definition get_pool (pool_size : Z) : M (option ContainerPool) ContainerPool :=
  g <- get ;;
  match g with
  | None =>
      fun s => pbind (__init__ pool_size "python:3.9-slim") (fun r =>
        match r with
        | Return p => Ret (Return p, Some p)
        | Raise e => Ret (Raise e, s)
        end)
  | Some p => ret p
  end.


(** What a client does with the process-wide pool: every operation goes
    through the one object stored in [_pool]. *)
Inductive op :=
| OpGetPool (pool_size : Z)
| OpAcquire (timeout : Z)
| OpRelease (c : Container).

Definition step (rt : runtime) (st : option ContainerPool * Z * world rt) (o : op)
  : option ContainerPool * Z * world rt :=
  let '(g, now, w) := st in
  match o with
  | OpGetPool n =>
      let '((_, g'), _, w') := run rt (get_pool n g) w in (g', now, w')
  | OpAcquire t =>
      match g with
      | Some p =>
          match acquire t p now with
          | Some (_, p', now') => (Some p', now', w)
          | None => st
          end
      | None => st
      end
  | OpRelease c =>
      match g with
      | Some p => (Some (release p c), now, w)
      | None => st
      end
  end.

(** The pool after [j] members have been handed out. *)
Definition handed_out (j : nat) (p : ContainerPool) : ContainerPool :=
  set_in_use (list_to_set (cid <$> take j (containers p))) p.

(** The pool a constructor call for two members leaves on the reference
    runtime. *)
Definition two_members : ContainerPool :=
  MkPool 2 "python:3.9-slim"
         [MkContainer "c1" "sandbox_pool_0abcdefa"; MkContainer "c3" "sandbox_pool_2abcdefa"]
         ∅.

(** The calls the constructor may issue for a pool on [image]. *)
Definition warm_creation (image : string) (c : call) : Prop :=
  match c with
  | FromEnv => True
  | Uuid4Hex => True
  | ContainersRun a => exists u, a = warm_args image ("sandbox_pool_" ++ hex8 u)
  | _ => False
  end.

(** The ids of the members. *)
Definition member_ids (p : ContainerPool) : gset string :=
  list_to_set (cid <$> containers p).

(** An engine on which [docker.from_env()] fails. *)
Definition no_daemon : RefDocker.behaviour :=
  RefDocker.Behaviour (fun c => match c with FromEnv => true | _ => false end)
                      (fun _ => RefDocker.silent) (fun _ => Completed "" "" 0).

(** An engine that refuses to stop the container with id [c1]. *)
Definition stop_refused : RefDocker.behaviour :=
  RefDocker.Behaviour
    (fun c => match c with
              | ContainerStop h _ => String.eqb (cid h) "c1"
              | _ => false
              end)
    (fun _ => RefDocker.silent) (fun _ => Completed "" "" 0).


(** An engine whose daemon is down at the first [docker.from_env()] and up
    from then on; the flag says whether it has been asked before. *)
Definition late_daemon : runtime :=
  Runtime (bool * RefDocker.engine)
    (fun c w =>
       match c as c0 return reply c0 * (bool * RefDocker.engine) with
       | FromEnv =>
           if fst w then (Return tt, w)
           else (Raise (RefDocker.api_error "daemon is not running"), (true, snd w))
       | c0 =>
           let xe := RefDocker.answer_with RefDocker.reliable c0 (snd w) in
           (fst xe, (fst w, snd xe))
       end).

(** What [get_pool] stores after a constructor call that ended as [r]. *)
Definition stored (r : res ContainerPool) : option ContainerPool :=
  match r with
  | Return p => Some p
  | Raise _ => None
  end.

End Pool.


(** * Strings, UTF-8 and the POSIX shell's quoting *)
Module Shell.

Definition squote : ascii := "'"%char.
Definition dquote : ascii := "034"%char.
Definition backslash : ascii := "\"%char.
Definition dollar : ascii := "$"%char.
Definition backquote : ascii := "`"%char.
Definition space : ascii := " "%char.
Definition tab : ascii := "009"%char.

(** [s.replace(old, new)] for a one-character [old]. *)
Fixpoint str_replace (old : ascii) (new : string) (s : string) : string :=
  match s with
  | EmptyString => EmptyString
  | String c s' =>
      if Ascii.eqb c old then new ++ str_replace old new s'
      else String c (str_replace old new s')
  end.

(** The five characters that stand for one single quote inside a
    single-quoted shell word: close, a double-quoted quote, reopen. *)
Definition quote_escape : string :=
  String squote (String dquote (String squote (String dquote (String squote EmptyString)))).

(** [" ".join(parts)] *)
Fixpoint join_spaces (parts : list string) : string :=
  match parts with
  | [] => ""
  | [p] => p
  | p :: ps => p ++ " " ++ join_spaces ps
  end.

Definition in_range (lo hi : N) (c : ascii) : bool :=
  ((lo <=? N_of_ascii c) && (N_of_ascii c <=? hi))%N.

(** The characters [shlex] leaves alone: [\w@%+=:,./-] under [re.ASCII]. *)
Definition safe_char (c : ascii) : bool :=
  in_range 97 122 c || in_range 65 90 c || in_range 48 57 c ||
  existsb (Ascii.eqb c) (list_ascii_of_string "_@%+=:,./-").

Fixpoint all_safe (s : string) : bool :=
  match s with
  | EmptyString => true
  | String c s' => safe_char c && all_safe s'
  end.

(** [shlex.quote] *)
Definition shlex_quote (s : string) : string :=
  match s with
  | EmptyString => "''"
  | _ =>
      if all_safe s then s
      else String squote (str_replace squote quote_escape s) ++ "'"
  end.

(** Splitting a command line into words, the way [sh -c] does for a simple
    command made of literal and quoted text (POSIX Shell Command Language,
    2.2 Quoting and 2.3 Token Recognition).  Outside quotes only blanks,
    quotes and the characters of [safe_char] are accepted; inside double
    quotes [$], the backquote and the backslash are not; anything else the
    lexer gives up on ([None]) rather than guess at expansions, operators
    or globbing. *)
Inductive mode := Bare | InSingle | InDouble.

Definition snoc (w : string) (c : ascii) : string := w ++ String c EmptyString.

Definition open_word (cur : option string) : option string :=
  match cur with
  | Some w => Some w
  | None => Some ""
  end.

Definition add_char (cur : option string) (c : ascii) : option string :=
  match cur with
  | Some w => Some (snoc w c)
  | None => Some (String c EmptyString)
  end.

Definition close_word (cur : option string) (acc : list string) : list string :=
  match cur with
  | Some w => w :: acc
  | None => acc
  end.

Fixpoint lex (s : string) (m : mode) (cur : option string) (acc : list string)
  : option (list string) :=
  match s with
  | EmptyString =>
      match m with
      | Bare => Some (rev (close_word cur acc))
      | _ => None
      end
  | String c s' =>
      match m with
      | Bare =>
          if Ascii.eqb c space || Ascii.eqb c tab then lex s' Bare None (close_word cur acc)
          else if Ascii.eqb c squote then lex s' InSingle (open_word cur) acc
          else if Ascii.eqb c dquote then lex s' InDouble (open_word cur) acc
          else if safe_char c then lex s' Bare (add_char cur c) acc
          else None
      | InSingle =>
          if Ascii.eqb c squote then lex s' Bare cur acc
          else lex s' InSingle (add_char cur c) acc
      | InDouble =>
          if Ascii.eqb c dquote then lex s' Bare cur acc
          else if Ascii.eqb c dollar || Ascii.eqb c backquote || Ascii.eqb c backslash
               then None
          else lex s' InDouble (add_char cur c) acc
      end
  end.

Definition sh_words (command : string) : option (list string) :=
  lex command Bare None [].

(** Well-formed UTF-8 (RFC 3629), which is what the strict
    [bytes.decode('utf-8')] accepts. *)
Definition cont (c : ascii) : bool := in_range 128 191 c.

Fixpoint valid_utf8 (b : string) : bool :=
  match b with
  | EmptyString => true
  | String c0 r0 =>
      if in_range 0 127 c0 then valid_utf8 r0
      else
        match r0 with
        | EmptyString => false
        | String c1 r1 =>
            if in_range 194 223 c0 then cont c1 && valid_utf8 r1
            else
              match r1 with
              | EmptyString => false
              | String c2 r2 =>
                  if in_range 224 239 c0 then
                    (if in_range 224 224 c0 then in_range 160 191 c1
                     else if in_range 237 237 c0 then in_range 128 159 c1
                     else cont c1)
                    && cont c2 && valid_utf8 r2
                  else
                    match r2 with
                    | EmptyString => false
                    | String c3 r3 =>
                        if in_range 240 244 c0 then
                          (if in_range 240 240 c0 then in_range 144 191 c1
                           else if in_range 244 244 c0 then in_range 128 143 c1
                           else cont c1)
                          && cont c2 && cont c3 && valid_utf8 r3
                        else false
                    end
              end
        end
  end.

(** [b.decode('utf-8')] *)
Definition decode_utf8 (b : string) : res string :=
  if valid_utf8 b then Return b
  else Raise (Exn UnicodeDecodeError "'utf-8' codec can't decode bytes").

End Shell.


(** * sandbox.py *)
Module Sandbox.
Import Shell.

(** The fields of an [AICodeSandbox] that its methods assign.  An image is
    identified with its id. *)
Record AICodeSandbox := MkSandbox {
  container : option Container;
  temp_image : option string }.

Definition set_container (c : option Container) (s : AICodeSandbox) : AICodeSandbox :=
  MkSandbox c (temp_image s).

Definition set_temp_image (i : option string) (s : AICodeSandbox) : AICodeSandbox :=
  MkSandbox (container s) i.

Definition persistent_name : string := "sandbox_persistent".

Definition default_packages : list string :=
  ["requests"; "numpy"; "pandas"; "matplotlib"; "scipy";
   "beautifulsoup4"; "fastapi"; "pillow"; "opencv-python"; "regex"].

Record setup_args := SetupArgs {
  custom_image : option string;
  packages : option (list string);
  network_mode : string;
  mem_limit : string;
  cpu_period : Z;
  cpu_quota : Z }.

(** The defaults of [__init__]. *)
Definition default_args (custom_image : option string) (packages : option (list string))
  : setup_args :=
  SetupArgs custom_image packages "bridge" "512m" 100000 50000.

Definition is_running (status : string) : bool := String.eqb status "running".

(** [for _ in range(n): reload; if running: break; sleep(0.5)], yielding
    the status seen last. *)
Fixpoint wait_running (n : nat) (c : Container) (last : string) : M AICodeSandbox string :=
  match n with
  | O => ret last
  | S n' =>
      st <- container_reload c ;;
      if is_running st then ret st
      else sleep 500 ;;; wait_running n' c st
  end.

(** The body of the [try] that looks for the persistent container. *)
Definition attach_persistent : M AICodeSandbox unit :=
  c <- containers_get persistent_name ;;
  modify (set_container (Some c)) ;;;
  st <- container_reload c ;;
  if is_running st then ret tt
  else
    container_start c ;;;
    st' <- wait_running 10 c st ;;
    if is_running st' then ret tt
    else raise (Exn PlainException ("Failed to start container, status: " ++ st')).

(** [except Exception]: "Try to remove broken container". *)
Definition remove_broken : M AICodeSandbox unit :=
  try_except
    (old <- containers_get persistent_name ;; container_remove old true)
    (fun _ => ret tt).

(** [true] when the method returns from inside the [try]. *)
Definition try_persistent : M AICodeSandbox bool :=
  try_except
    (attach_persistent ;;; ret true)
    (fun e => if is_not_found e then ret false
              else remove_broken ;;; ret false).

Definition newline : string := String "010"%char EmptyString.

Definition dockerfile_for (image_name : string) (packages : list string) : string :=
  "FROM " ++ image_name ++ newline ++ "RUN pip install " ++ join_spaces packages.

(** [set(a) == set(b)] *)
Definition same_set (a b : list string) : bool :=
  bool_decide (list_to_set a =@{gset string} list_to_set b).

Definition sandbox_run_args (a : setup_args) (image_name container_name : string) : run_args :=
  {| ra_image := image_name;
     ra_name := container_name;
     ra_command := "tail -f /dev/null";
     ra_detach := true;
     ra_network_mode := network_mode a;
     ra_dns := ["8.8.8.8"; "8.8.4.4"];
     ra_mem_limit := mem_limit a;
     ra_cpu_period := cpu_period a;
     ra_cpu_quota := cpu_quota a;
     ra_remove := false |}.

(** [is_default_setup] of line 94. *)
Definition is_default_setup (custom_image : option string) (packages : option (list string))
  : bool :=
  match custom_image, packages with
  | None, Some ps => same_set ps default_packages
  | _, _ => false
  end.

(** [custom_image or "python:3.9-slim"] *)
Definition base_image (custom_image : option string) : string :=
  match custom_image with
  | Some i => if String.eqb i "" then "python:3.9-slim" else i
  | None => "python:3.9-slim"
  end.

(** Lines 84-106: build an image when there are packages, then run a
    container. *)
Definition build_and_run (a : setup_args) (packages : option (list string))
  : M AICodeSandbox unit :=
  let base := base_image (custom_image a) in
  image_name <-
    match packages with
    | Some (p :: ps) =>
        id <- images_build (dockerfile_for base (p :: ps)) ;;
        modify (set_temp_image (Some id)) ;;;
        ret id
    | _ => ret base
    end ;;
  container_name <-
    (if is_default_setup (custom_image a) packages then ret persistent_name
     else u <- uuid4_hex ;; ret ("python_sandbox_" ++ hex8 u)) ;;
  c <- containers_run (sandbox_run_args a image_name container_name) ;;
  modify (set_container (Some c)).

Definition _setup_sandbox (a : setup_args) : M AICodeSandbox unit :=
  match custom_image a, packages a with
  | None, None =>
      attached <- try_persistent ;;
      if attached then ret tt
      else build_and_run a (Some default_packages)
  | _, _ => build_and_run a (packages a)
  end.

(** [__init__], run on the fields as the interpreter leaves them before the
    first assignment; [docker.from_env()] comes first. *)
Definition __init__ (a : setup_args) : M AICodeSandbox unit :=
  from_env ;;;
  put (MkSandbox None None) ;;;
  _setup_sandbox a.

(** The loop [for _ in range(n): try: remove; break  except: print; sleep(2)]
    with its [else] branch. *)
Fixpoint remove_image_attempts (n : nat) (id : string) : M AICodeSandbox unit :=
  match n with
  | O => print (Text "Failed to remove temporary image after multiple attempts")
  | S n' =>
      removed <- try_except
                   (images_remove id true ;;; ret true)
                   (fun e => print (Text ("Attempt to remove image failed: " ++ exn_msg e)) ;;;
                             sleep 2000 ;;; ret false) ;;
      if removed then ret tt else remove_image_attempts n' id
  end.

Definition close_container : M AICodeSandbox unit :=
  s <- get ;;
  match container s with
  | Some c =>
      (if String.eqb (cname c) persistent_name then ret tt
       else try_except
              (container_stop c (Some 10) ;;; container_remove c true)
              (fun e => print (Text ("Error stopping/removing container: " ++ exn_msg e)))) ;;;
      modify (set_container None)
  | None => ret tt
  end.

Definition close_image : M AICodeSandbox unit :=
  s <- get ;;
  match temp_image s with
  | Some id =>
      try_finally
        (try_except
           (remove_image_attempts 3 id)
           (fun e => print (Text ("Error removing temporary image: " ++ exn_msg e))))
        (modify (set_temp_image None))
  | None => ret tt
  end.

Definition close : M AICodeSandbox unit :=
  close_container ;;; close_image.

Definition __del__ : M AICodeSandbox unit := close.

(** [stream.decode('utf-8') if stream else ''] *)
Definition stream_text {S} (stream : option string) : M S string :=
  match stream with
  | None => ret ""
  | Some b => if String.eqb b "" then ret ""
              else fun s => Ret (decode_utf8 b, s)
  end.

Section RunCode.

(** [textwrap.dedent] *)
Variable dedent : string -> string.

(** [" ".join(f"{k}={shlex.quote(v)}" for k, v in env_vars.items())] *)
Definition env_str (env_vars : list (string * string)) : string :=
  join_spaces (map (fun kv => fst kv ++ "=" ++ shlex_quote (snd kv)) env_vars).

Definition exec_command (code : string) (env_vars : list (string * string)) : string :=
  "env " ++ env_str env_vars ++ " python -c '" ++
  str_replace squote quote_escape (dedent code) ++ "'".

(** The classification of lines 219-254. *)
Definition classify (exit_code : Z) (stdout_text stderr_text : string) : string :=
  if negb (exit_code =? 0)%Z then
    "Error (exit code " ++ pretty exit_code ++ "): " ++ stderr_text
  else if negb (String.eqb stdout_text "") then stdout_text
  else if negb (String.eqb stderr_text "") then "Error: " ++ stderr_text
  else "No output".

Definition run_code (code : string) (env_vars : option (list (string * string)))
  : M AICodeSandbox string :=
  let env_vars := match env_vars with Some e => e | None => [] end in
  s <- get ;;
  match container s with
  | None => raise (Exn AttributeError "'NoneType' object has no attribute 'exec_run'")
  | Some c =>
      exec_result <- exec_run c ["sh"; "-c"; exec_command code env_vars] ;;
      stdout_text <- stream_text (out_stream exec_result) ;;
      stderr_text <- stream_text (err_stream exec_result) ;;
      ret (classify (exit_code exec_result) stdout_text stderr_text)
  end.

End RunCode.

(** What the shell makes of one [k=quote(v)] of the environment prefix. *)
Definition env_word (kv : string * string) : string := fst kv ++ "=" ++ snd kv.

(** The text of a stream and whether the strict decoder accepts it. *)
Definition text_of (stream : option string) : string :=
  match stream with
  | Some b => b
  | None => ""
  end.

Definition decodable (stream : option string) : bool :=
  match stream with
  | Some b => valid_utf8 b
  | None => true
  end.


Definition is_stop (c : call) : bool :=
  match c with
  | ContainerStop _ _ => true
  | _ => false
  end.

Definition is_remove (c : call) : bool :=
  match c with
  | ContainerRemove _ _ => true
  | _ => false
  end.

Definition is_build (c : call) : bool :=
  match c with
  | ImagesBuild _ => true
  | _ => false
  end.

(** Calls that change the engine's containers or images. *)
Definition is_teardown (c : call) : bool :=
  match c with
  | ContainerStop _ _ => true
  | ContainerRemove _ _ => true
  | ImagesRemove _ _ => true
  | _ => false
  end.

(** [if packages:] *)
Definition nonempty (packages : option (list string)) : bool :=
  match packages with
  | Some (_ :: _) => true
  | _ => false
  end.



(** The first-time image: the base image with the default packages. *)
Definition default_dockerfile : string :=
  dockerfile_for "python:3.9-slim" default_packages.

(** An engine that refuses to run containers. *)
Definition run_refused : RefDocker.behaviour :=
  RefDocker.Behaviour
    (fun c => match c with ContainersRun _ => true | _ => false end)
    (fun _ => RefDocker.silent) (fun _ => Completed "" "" 0).

(** An engine that refuses to stop containers. *)
Definition stop_refused : RefDocker.behaviour :=
  RefDocker.Behaviour
    (fun c => match c with ContainerStop _ _ => true | _ => false end)
    (fun _ => RefDocker.silent) (fun _ => Completed "" "" 0).

(** Concrete sandboxes and engines for the examples. *)
Definition persistent_handle : Container := MkContainer "c0" persistent_name.

Definition attached : AICodeSandbox := MkSandbox (Some persistent_handle) None.

Definition engine_with (status : string) : RefDocker.engine :=
  RefDocker.Engine [(persistent_handle, status)] [] 1 0 [].

(** Code that writes the single byte 0xFF to standard output and exits 0,
    as [sys.stdout.buffer.write(b'\xff')] does. *)
Definition writes_ff : RefDocker.behaviour :=
  RefDocker.Behaviour (fun _ => false)
    (fun _ => ExecResult 0 (Some (String "255"%char EmptyString)) None)
    (fun _ => Completed "" "" 0).

(** Code that fails with exit status 1 and a message on standard error. *)
Definition fails_with_boom : RefDocker.behaviour :=
  RefDocker.Behaviour (fun _ => false)
    (fun _ => ExecResult 1 None (Some "boom"))
    (fun _ => Completed "" "" 0).


(** The calls [close] may issue on behalf of the sandbox [s]: stopping and
    removing the container it holds (unless it is the persistent one),
    removing the image it holds, printing a message and pausing two
    seconds. *)
Definition own_resources (s : AICodeSandbox) (c : call) : Prop :=
  match c with
  | ContainerStop h t =>
      container s = Some h /\ cname h <> persistent_name /\ t = Some 10
  | ContainerRemove h force =>
      container s = Some h /\ cname h <> persistent_name /\ force = true
  | ImagesRemove id force => temp_image s = Some id /\ force = true
  | Stdout (Text _) => True
  | Sleep ms => ms = 2000
  | _ => False
  end.

End Sandbox.


(** * persistent_worker.py *)
Module Worker.
Import Shell Sandbox.

(** Library functions the worker relies on and that are not part of the
    repository. *)
Record pylib := PyLib {
  loads : string -> res json;          (* json.loads *)
  strip : string -> string;            (* str.strip *)
  dedent : string -> string;           (* textwrap.dedent *)
  format_exc : exn -> string;          (* traceback.format_exc, while handling the exception *)
  decode_ignore : string -> string }.  (* bytes.decode('utf-8', errors='ignore') *)

(** [timings]: a dict from stage to elapsed milliseconds. *)
Definition timings := list (string * Z).

Fixpoint dict_set {V} (k : string) (v : V) (d : list (string * V)) : list (string * V) :=
  match d with
  | [] => [(k, v)]
  | (k', v') :: d' => if String.eqb k' k then (k, v) :: d' else (k', v') :: dict_set k v d'
  end.

(** [d.get(k)] on a dict; a [JObj] holds each key once. *)
Fixpoint dict_get (k : string) (d : list (string * json)) : option json :=
  match d with
  | [] => None
  | (k', v) :: d' => if String.eqb k' k then Some v else dict_get k d'
  end.

(** [d.get(k, default)] *)
Definition get_or (k : string) (default : json) (d : list (string * json)) : json :=
  match dict_get k d with
  | Some v => v
  | None => default
  end.

(** Truth value of a decoded JSON document. *)
Definition truthy (j : json) : bool :=
  match j with
  | JNull => false
  | JBool b => b
  | JInt n => negb (n =? 0)
  | JFloat bits => negb ((bits =? 0) || (bits =? 2 ^ 63))
  | JStr s => negb (String.eqb s "")
  | JArr l => match l with [] => false | _ => true end
  | JObj d => match d with [] => false | _ => true end
  end.

Definition timings_json (t : timings) : json :=
  JObj (map (fun kv => (fst kv, JInt (snd kv))) t).

(** One character of a UTF-8 string per element, as iterating a [str]
    gives. *)
Fixpoint utf8_chars (s : string) (cur : option string) : list string :=
  match s with
  | EmptyString => match cur with Some c => [c] | None => [] end
  | String b s' =>
      if cont b then utf8_chars s' (Some (match cur with Some c => snoc c b | None => String b "" end))
      else match cur with
           | Some c => c :: utf8_chars s' (Some (String b ""))
           | None => utf8_chars s' (Some (String b ""))
           end
  end.

Fixpoint all_strings (l : list json) : option (list string) :=
  match l with
  | [] => Some []
  | JStr s :: l' => match all_strings l' with Some r => Some (s :: r) | None => None end
  | _ :: _ => None
  end.

(** What [AICodeSandbox(packages=p)] makes of a decoded [packages] value:
    [None] when it is falsy (the worker passes [None] on), the strings that
    [' '.join(p)] iterates over, or the [TypeError] that [join] raises. *)
Definition packages_arg (p : json) : option (res (list string)) :=
  if truthy p then
    match p with
    | JArr l =>
        match all_strings l with
        | Some ps => Some (Return ps)
        | None => Some (Raise (Exn TypeError "sequence item: expected str instance"))
        end
    | JStr s => Some (Return (utf8_chars s None))
    | JObj d => Some (Return (map fst d))
    | _ => Some (Raise (Exn TypeError "can only join an iterable"))
    end
  else None.

(** [AICodeSandbox(packages=p)]: the constructor of sandbox.py, with the
    package list as the request carries it. *)
Definition construct (p : json) : M AICodeSandbox unit :=
  from_env ;;;
  put (MkSandbox None None) ;;;
  match packages_arg p with
  | None => _setup_sandbox (default_args None None)
  | Some (Return ps) => _setup_sandbox (default_args None (Some ps))
  | Some (Raise e) => raise e
  end.

(** Run a method of the sandbox object [o] from within the worker; the
    outcome and the object's fields are handed back. *)
Definition on_object {A} (m : M AICodeSandbox A) (o : AICodeSandbox)
  : M timings (res A * AICodeSandbox) :=
  fun tm => pbind (m o) (fun rs => Ret (Return rs, tm)).

Definition timeout_message : string := "Bash execution timed out (30s)".

Section WithLib.

Variable lib : pylib.

(** The text kept from [e.stdout] of a [TimeoutExpired]. *)
Definition partial_text (partial : timeout_stdout) : string :=
  match partial with
  | NoPartial => ""
  | PartialStr s => s
  | PartialBytes b => if String.eqb b "" then "" else decode_ignore lib b
  end.

Definition execute_bash {S} (code : string) : M S (string * string * Z) :=
  outcome <- subprocess_run code 30 ;;
  match outcome with
  | Completed stdout stderr returncode => ret (stdout, stderr, returncode)
  | TimeoutExpired partial => ret (partial_text partial, timeout_message, 124)
  | ProcError e => ret ("", exn_msg e, 1)
  end.

Definition stamp (key : string) (since : Z) : M timings unit :=
  t <- perf_counter ;; modify (dict_set key (t - since)).

Definition missing_code (request_id : json) : M timings json :=
  tm <- get ;;
  ret (JObj [("id", request_id); ("success", JBool false);
             ("error", JStr "missing or empty code"); ("timings", timings_json tm)]).

(** Lines 51-77. *)
Definition bash_request (request_id : json) (code : string) (t_start : Z) : M timings json :=
  t_exec <- perf_counter ;;
  r <- execute_bash code ;;
  stamp "code_exec_ms" t_exec ;;;
  stamp "total_ms" t_start ;;;
  tm <- get ;;
  let '(stdout, stderr, returncode) := r in
  if negb (returncode =? 0) then
    ret (JObj [("id", request_id); ("success", JBool false);
               ("error", JStr (if String.eqb stderr ""
                               then "Bash exited with code " ++ pretty returncode
                               else stderr));
               ("stdout", JStr stdout); ("stderr", JStr stderr);
               ("timings", timings_json tm)])
  else
    ret (JObj [("id", request_id); ("success", JBool true);
               ("result", JStr stdout); ("timings", timings_json tm)]).

(** The handler of lines 115-123. *)
Definition report_failure (request_id : json) (t_start : Z) (e : exn) : M timings json :=
  stamp "total_ms" t_start ;;;
  tm <- get ;;
  ret (JObj [("id", request_id); ("success", JBool false);
             ("error", JStr (exn_msg e)); ("traceback", JStr (format_exc lib e));
             ("timings", timings_json tm)]).

(** Lines 91-129: the [try] around construction and execution, its handler
    and its [finally].  A sandbox whose constructor raised is never bound to
    [sandbox]; it is discarded once the handler is done, which runs
    [__del__].  After [close] in the [finally], the later [__del__] finds
    both fields cleared and does nothing. *)
Definition python_attempt (request_id : json) (code : string) (packages : json)
    (t_start : Z) : M timings json :=
  t_sandbox <- perf_counter ;;
  imported <- try_except (import_module "ai_code_sandbox" ;;; ret None)
                         (fun e => ret (Some e)) ;;
  match imported with
  | Some e => report_failure request_id t_start e
  | None =>
      built <- on_object (construct packages) (MkSandbox None None) ;;
      match fst built with
      | Raise e =>
          response <- report_failure request_id t_start e ;;
          on_object __del__ (snd built) ;;;
          ret response
      | Return _ =>
          stamp "sandbox_init_ms" t_sandbox ;;;
          t_exec <- perf_counter ;;
          ran <- on_object (run_code (dedent lib) code None) (snd built) ;;
          match fst ran with
          | Raise e =>
              response <- report_failure request_id t_start e ;;
              on_object close (snd ran) ;;;
              ret response
          | Return out =>
              stamp "code_exec_ms" t_exec ;;;
              stamp "total_ms" t_start ;;;
              tm <- get ;;
              on_object close (snd ran) ;;;
              ret (JObj [("id", request_id); ("success", JBool true);
                         ("result", JStr out); ("timings", timings_json tm)])
          end
      end
  end.

(** Lines 79-89 and on. *)
Definition python_request (request_id : json) (code : string) (packages : json)
    (t_start : Z) : M timings json :=
  t_import <- perf_counter ;;
  imported <- try_except (import_module "ai_code_sandbox" ;;; ret None)
                         (fun e => ret (Some e)) ;;
  match imported with
  | Some e =>
      tm <- get ;;
      ret (JObj [("id", request_id); ("success", JBool false);
                 ("error", JStr ("failed to import: " ++ exn_msg e));
                 ("timings", timings_json tm)])
  | None =>
      stamp "import_ms" t_import ;;;
      python_attempt request_id code packages t_start
  end.

Definition unbound_request_id : exn :=
  Exn UnboundLocalError
      "cannot access local variable 'request_id' where it is not associated with a value".

Definition process_request (request_data : json) : M timings json :=
  put [] ;;;
  t_start <- perf_counter ;;
  match request_data with
  | JObj d =>
      let code := get_or "code" JNull d in
      let language := get_or "language" (JStr "python") d in
      let packages :=
        let p := get_or "packages" JNull d in
        if truthy p then p else JNull in
      let request_id := get_or "id" (JStr "unknown") d in
      match code with
      | JStr c =>
          if String.eqb (strip lib c) "" then missing_code request_id
          else
            match language with
            | JStr l =>
                if String.eqb l "bash" then bash_request request_id c t_start
                else python_request request_id c packages t_start
            | _ => python_request request_id c packages t_start
            end
      | _ => missing_code request_id
      end
  | _ =>
      (* [request_data.get] raises; the handler of line 131 stamps the time
         and then fails on [request_id], which was never assigned. *)
      stamp "total_ms" t_start ;;;
      raise unbound_request_id
  end.

Definition protocol_error (message : string) : out_line :=
  Dumps (JObj [("success", JBool false); ("error", JStr message)]).

(** One iteration of the loop of [main]. *)
Definition handle_line (raw : string) : M unit unit :=
  let line := strip lib raw in
  if String.eqb line "" then ret tt
  else
    t_recv <- perf_counter ;;
    match loads lib line with
    | Raise e =>
        match exn_cls e with
        | JSONDecodeError => print (protocol_error ("invalid json: " ++ exn_msg e))
        | _ => print (protocol_error (exn_msg e))
        end
    | Return request =>
        t_parse <- perf_counter ;;
        processed <- (fun _ => pbind (process_request request [])
                                     (fun rs => Ret (Return (fst rs), tt))) ;;
        match processed with
        | Raise e => print (protocol_error (exn_msg e))
        | Return response =>
            t_process <- perf_counter ;;
            t_serialize <- perf_counter ;;
            print (Dumps response) ;;;
            t_output <- perf_counter ;;
            ret tt
        end
    end.

(** [for line in sys.stdin: ...]  The [input] is what the iterator of
    [sys.stdin] yields, one item per step: a line of text, or the exception
    it raises instead (a [UnicodeDecodeError] when the bytes read are not
    valid in the stream's encoding).  The iterator is stepped outside the
    [try] of the loop body, and the [try] around the loop handles
    [KeyboardInterrupt] only, so such an exception leaves [main]. *)
Fixpoint main (input : list (res string)) : M unit unit :=
  match input with
  | [] => ret tt
  | Return raw :: rest => handle_line raw ;;; main rest
  | Raise e :: _ => raise e
  end.

End WithLib.

(** The responses written to standard output, in order. *)
Fixpoint responses (tr : list call) : list json :=
  match tr with
  | [] => []
  | Stdout (Dumps d) :: tr' => d :: responses tr'
  | _ :: tr' => responses tr'
  end.

Definition is_response (c : call) : bool :=
  match c with
  | Stdout (Dumps _) => true
  | _ => false
  end.

(** The sandbox never writes a response; only [main] does. *)
Definition quiet (c : call) : Prop := is_response c = false.

(** [success] and [id] of a response. *)
Definition success_of (response : json) : option json :=
  match response with
  | JObj d => dict_get "success" d
  | _ => None
  end.

Definition id_of (response : json) : option json :=
  match response with
  | JObj d => dict_get "id" d
  | _ => None
  end.

(** [error] and [result] of a response. *)
Definition error_of (response : json) : option json :=
  match response with
  | JObj d => dict_get "error" d
  | _ => None
  end.

Definition result_field (response : json) : option json :=
  match response with
  | JObj d => dict_get "result" d
  | _ => None
  end.

(** What the loop writes for one non-blank line [raw]. *)
Definition answers (lib : pylib) (raw : string) (d : json) : Prop :=
  match loads lib (strip lib raw) with
  | Raise e =>
      d = JObj [("success", JBool false);
                ("error", JStr (match exn_cls e with
                                | JSONDecodeError => "invalid json: " ++ exn_msg e
                                | _ => exn_msg e
                                end))]
  | Return (JObj request) =>
      id_of d = Some (get_or "id" (JStr "unknown") request) /\
      exists b, success_of d = Some (JBool b)
  | Return _ => success_of d = Some (JBool false)
  end.


(** Library behaviour for the examples: [json.loads] as a table of the
    lines it accepts (anything else is rejected), [strip] for ASCII blanks,
    and code that needs no dedenting. *)
Definition is_blank (c : ascii) : bool :=
  in_range 9 13 c || in_range 28 32 c.

Fixpoint lstrip (s : string) : string :=
  match s with
  | String c s' => if is_blank c then lstrip s' else s
  | EmptyString => EmptyString
  end.

Definition strip_ascii (s : string) : string :=
  String.rev (lstrip (String.rev (lstrip s))).

Fixpoint loads_table (table : list (string * json)) (s : string) : res json :=
  match table with
  | [] => Raise (Exn JSONDecodeError "Expecting value: line 1 column 1 (char 0)")
  | (text, d) :: table' => if String.eqb text s then Return d else loads_table table' s
  end.

Definition example_lib (table : list (string * json)) : pylib :=
  PyLib (loads_table table) strip_ascii (fun code => code) exn_msg (fun b => b).

(** A shell command that outlives the timeout. *)
Definition never_ends : RefDocker.behaviour :=
  RefDocker.Behaviour (fun _ => false) (fun _ => RefDocker.silent)
                      (fun _ => TimeoutExpired NoPartial).

(** Four input lines: not JSON, an object without [code], a bash request
    and a Python request; and what [json.loads] makes of the last three. *)
Definition q (s : string) : string := String dquote (s ++ String dquote EmptyString).

Definition line_not_json : string := "not json".
Definition line_no_code : string := "{" ++ q "id" ++ ": 2}".
Definition line_bash : string :=
  "{" ++ q "id" ++ ": 3, " ++ q "code" ++ ": " ++ q "echo hi" ++ ", "
      ++ q "language" ++ ": " ++ q "bash" ++ "}".
Definition line_python : string :=
  "{" ++ q "id" ++ ": 4, " ++ q "code" ++ ": " ++ q "x = 1" ++ "}".

Definition four_lines : list string :=
  [line_not_json; "   "; line_no_code; line_bash; line_python].

Definition four_lines_decoded : list (string * json) :=
  [(line_no_code, JObj [("id", JInt 2)]);
   (line_bash, JObj [("id", JInt 3); ("code", JStr "echo hi"); ("language", JStr "bash")]);
   (line_python, JObj [("id", JInt 4); ("code", JStr "x = 1")])].

(** [echo hi] prints and succeeds; Python code prints nothing. *)
Definition echo_hi : RefDocker.behaviour :=
  RefDocker.Behaviour (fun _ => false) (fun _ => RefDocker.silent)
                      (fun _ => Completed ("hi" ++ newline) "" 0).

(** A bash request that sleeps for a minute. *)
Definition sleep_request : list (string * json) :=
  [("id", JInt 7); ("code", JStr "sleep 60"); ("language", JStr "bash")].


(** A host on which the [ai_code_sandbox] package is not installed. *)
Definition not_installed : RefDocker.behaviour :=
  RefDocker.Behaviour
    (fun c => match c with ImportModule _ => true | _ => false end)
    (fun _ => RefDocker.silent) (fun _ => Completed "" "" 0).

(** A line of three bytes that no UTF-8 decoder accepts, as the stream's
    iterator reports it. *)
Definition undecodable : exn :=
  Exn UnicodeDecodeError "'utf-8' codec can't decode byte 0xff in position 0: invalid start byte".


(** An engine that refuses to remove images. *)
Definition image_kept : RefDocker.behaviour :=
  RefDocker.Behaviour
    (fun c => match c with ImagesRemove _ _ => true | _ => false end)
    (fun _ => RefDocker.silent) (fun _ => Completed "" "" 0).

(** A Python request with a package list of its own. *)
Definition line_numpy : string :=
  "{" ++ q "id" ++ ": 5, " ++ q "code" ++ ": " ++ q "x = 1" ++ ", "
      ++ q "packages" ++ ": [" ++ q "numpy" ++ "]}".

Definition line_numpy_decoded : list (string * json) :=
  [(line_numpy, JObj [("id", JInt 5); ("code", JStr "x = 1");
                      ("packages", JArr [JStr "numpy"])])].

End Worker.

(** * sandbox.py: [write_file] and [read_file] *)
Module Files.
Import Shell Sandbox.

(** One member of a tar archive: [TarInfo.name], [TarInfo.size] and the
    bytes added with it. *)
Record tar_entry := TarEntry {
  te_name : string;
  te_size : nat;
  te_data : string }.

(** [content (str or bytes)] *)
Inductive file_content :=
| Str (s : string)
| Bytes (b : string).

(** The two container methods used here: [exec_run] without [demux], which
    answers an exit code and the combined output, and [put_archive]. *)
Inductive fcall :=
| ExecOutput (c : Container) (cmd : list string)
| PutArchive (c : Container) (path : string) (archive : list tar_entry).

Definition freply (c : fcall) : Type :=
  match c with
  | ExecOutput _ _ => res (Z * string)
  | PutArchive _ _ _ => res bool
  end.

Inductive fprog (R : Type) : Type :=
| FRet (r : R)
| FVis (c : fcall) (k : freply c -> fprog R).
Arguments FRet {R} r.
Arguments FVis {R} c k.

Fixpoint fpbind {A B} (p : fprog A) (f : A -> fprog B) : fprog B :=
  match p with
  | FRet a => f a
  | FVis c k => FVis c (fun x => fpbind (k x) f)
  end.

Record fruntime := FRuntime {
  fworld : Type;
  fanswer : forall c : fcall, fworld -> freply c * fworld }.

(** The outcome, the calls issued in order, and the final state of the
    engine. *)
Fixpoint frun {R} (rt : fruntime) (p : fprog R) (w : fworld rt)
  : R * list fcall * fworld rt :=
  match p with
  | FRet r => (r, [], w)
  | FVis c k =>
      let '(x, w1) := fanswer rt c w in
      let '(r, tr, w2) := frun rt (k x) w1 in
      (r, c :: tr, w2)
  end.

(** Neither method assigns a field, so a method is a program that returns
    or raises. *)
Definition F (A : Type) : Type := fprog (res A).

Definition fret {A} (a : A) : F A := FRet (Return a).
Definition fraise {A} (e : exn) : F A := FRet (Raise e).

Definition fbind {A B} (m : F A) (f : A -> F B) : F B :=
  fpbind m (fun r => match r with
                     | Return a => f a
                     | Raise e => FRet (Raise e)
                     end).

(** [try: m  except Exception as e: h e] *)
Definition ftry_except {A} (m : F A) (h : exn -> F A) : F A :=
  fpbind m (fun r => match r with
                     | Return a => FRet (Return a)
                     | Raise e => h e
                     end).

Declare Scope files_scope.
Delimit Scope files_scope with files.
Notation "x <- m ;; k" := (fbind m (fun x => k))
  (at level 100, m at next level, right associativity) : files_scope.
Notation "m ;;; k" := (fbind m (fun _ => k))
  (at level 100, right associativity) : files_scope.

Definition exec_output (c : Container) (cmd : list string) : F (Z * string) :=
  FVis (ExecOutput c cmd) (fun x => FRet x).

Definition put_archive (c : Container) (path : string) (archive : list tar_entry) : F bool :=
  FVis (PutArchive c path archive) (fun x => FRet x).

(** [self.container.exec_run(cmd)] and [self.container.put_archive(...)] on
    whatever the field holds. *)
Definition container_exec_run (s : AICodeSandbox) (cmd : list string) : F (Z * string) :=
  match container s with
  | Some h => exec_output h cmd
  | None => fraise (Exn AttributeError "'NoneType' object has no attribute 'exec_run'")
  end.

Definition container_put_archive (s : AICodeSandbox) (path : string)
    (archive : list tar_entry) : F bool :=
  match container s with
  | Some h => put_archive h path archive
  | None => fraise (Exn AttributeError "'NoneType' object has no attribute 'put_archive'")
  end.

(** [os.path.dirname] of [posixpath]: the text before the last slash, less
    its trailing slashes unless it is made of slashes only. *)
Definition slash : ascii := "/"%char.

(** [p.rfind('/') + 1] *)
Fixpoint after_last_slash (p : string) : nat :=
  match p with
  | EmptyString => 0
  | String c p' =>
      match after_last_slash p' with
      | S i => S (S i)
      | O => if Ascii.eqb c slash then 1 else 0
      end
  end.

Fixpoint all_slashes (s : string) : bool :=
  match s with
  | EmptyString => true
  | String c s' => Ascii.eqb c slash && all_slashes s'
  end.

(** [head.rstrip('/')] *)
Fixpoint rstrip_slashes (s : string) : string :=
  match s with
  | EmptyString => EmptyString
  | String c s' =>
      match rstrip_slashes s' with
      | EmptyString => if Ascii.eqb c slash then EmptyString else String c EmptyString
      | r => String c r
      end
  end.

Definition dirname (p : string) : string :=
  let head := substring 0 (after_last_slash p) p in
  if negb (String.eqb head "") && negb (all_slashes head) then rstrip_slashes head
  else head.

Definition mkdir_command (directory : string) : string :=
  "mkdir -p " ++ shlex_quote directory.

Definition check_command (filename : string) : string :=
  "test -f " ++ shlex_quote filename.

(** [content.encode('utf-8')] for text, the bytes themselves otherwise; a
    [string] holds the UTF-8 bytes either way. *)
Definition file_data (content : file_content) : string :=
  match content with
  | Str s => s
  | Bytes b => b
  end.

(** The archive built in memory: one member, named after the file, with the
    length of the data as its size. *)
Definition tar_stream (filename : string) (content : file_content) : list tar_entry :=
  [TarEntry filename (String.length (file_data content)) (file_data content)].

Definition decode (b : string) : F string := FRet (decode_utf8 b).

Open Scope files_scope.

Definition write_file (s : AICodeSandbox) (filename : string) (content : file_content)
  : F unit :=
  let directory := dirname filename in
  (if negb (String.eqb directory "") then
     mkdir_result <- container_exec_run s ["sh"; "-c"; mkdir_command directory] ;;
     if negb (fst mkdir_result =? 0)%Z then
       output <- decode (snd mkdir_result) ;;
       fraise (Exn PlainException ("Failed to create directory: " ++ output))
     else fret tt
   else fret tt) ;;;
  ftry_except
    (container_put_archive s "/" (tar_stream filename content) ;;; fret tt)
    (fun e => fraise (Exn PlainException ("Failed to write file: " ++ exn_msg e))) ;;;
  check_result <- container_exec_run s ["sh"; "-c"; check_command filename] ;;
  if negb (fst check_result =? 0)%Z then
    fraise (Exn PlainException ("Failed to write file: " ++ filename))
  else fret tt.

Definition read_file (s : AICodeSandbox) (filename : string) : F string :=
  result <- container_exec_run s ["cat"; filename] ;;
  if negb (fst result =? 0)%Z then
    output <- decode (snd result) ;;
    fraise (Exn PlainException ("Failed to read file: " ++ output))
  else decode (snd result).

Close Scope files_scope.

(** A container whose commands and transfers answer as scripted. *)
Definition scripted (exec : list string -> res (Z * string)) (put : res bool) : fruntime :=
  FRuntime unit
    (fun c w =>
       match c return freply c * unit with
       | ExecOutput _ cmd => (exec cmd, w)
       | PutArchive _ _ _ => (put, w)
       end).

(** Every command succeeds silently. *)
Definition obliging : list string -> res (Z * string) := fun _ => Return (0%Z, "").

(** [mkdir] fails as it does below a read-only directory; everything else
    succeeds. *)
Definition mkdir_denied : list string -> res (Z * string) :=
  fun cmd =>
    match cmd with
    | [_; _; command] =>
        if String.prefix "mkdir" command
        then Return (1%Z, "mkdir: cannot create directory: Permission denied")
        else Return (0%Z, "")
    | _ => Return (0%Z, "")
    end.

(** [cat] finds no such file. *)
Definition cat_fails : list string -> res (Z * string) :=
  fun _ => Return (1%Z, "cat: notes.txt: No such file or directory").

End Files.

(** * run_in_sandbox.py *)
Module Runner.
Import Shell Sandbox Worker.

(** [timings]: elapsed milliseconds per stage and, after a failure, the
    error text under [error]. *)
Definition timings := list (string * json).

(** Run a method of the sandbox object [o] from within [main]; the outcome
    and the object's fields are handed back. *)
Definition on_object {A} (m : M AICodeSandbox A) (o : AICodeSandbox)
  : M timings (res A * AICodeSandbox) :=
  fun tm => pbind (m o) (fun rs => Ret (Return rs, tm)).

(** [type(x).__name__] of a decoded JSON document. *)
Definition type_name (j : json) : string :=
  match j with
  | JNull => "NoneType"
  | JBool _ => "bool"
  | JInt _ => "int"
  | JFloat _ => "float"
  | JStr _ => "str"
  | JArr _ => "list"
  | JObj _ => "dict"
  end.

(** What [data.get] raises on a document that is not an object. *)
Definition no_get (data : json) : exn :=
  Exn AttributeError ("'" ++ type_name data ++ "' object has no attribute 'get'").

Definition rejection (message : string) : out_line :=
  Dumps (JObj [("success", JBool false); ("error", JStr message)]).

Section WithLib.

Variable lib : pylib.

(** [timings[key] = log_time(label, start_time)]; the line on standard
    error is left out. *)
Definition log_time (key : string) (start_time : Z) : M timings unit :=
  t <- perf_counter ;; modify (dict_set key (JInt (t - start_time))).

(** The handlers of lines 92-96 and 106-110. *)
Definition report_failure (e : exn) (t_main_start : Z) : M timings unit :=
  modify (dict_set "error" (JStr (exn_msg e))) ;;;
  log_time "total_ms" t_main_start ;;;
  tm <- get ;;
  print (Dumps (JObj [("success", JBool false); ("error", JStr (exn_msg e));
                      ("traceback", JStr (format_exc lib e)); ("timings", JObj tm)])).

(** Lines 67-104: the [try] around construction and execution, its handler
    and its [finally].  A sandbox whose constructor raised is never bound to
    [sandbox]; it is discarded once the handler is done, which runs
    [__del__]. *)
Definition attempt (code : string) (packages : json) (t_main_start : Z) : M timings unit :=
  t_sandbox_init <- perf_counter ;;
  built <- on_object (construct packages) (MkSandbox None None) ;;
  match fst built with
  | Raise e =>
      report_failure e t_main_start ;;;
      on_object __del__ (snd built) ;;;
      ret tt
  | Return _ =>
      log_time "sandbox_init_ms" t_sandbox_init ;;;
      t_code_exec <- perf_counter ;;
      ran <- on_object (run_code (dedent lib) code None) (snd built) ;;
      match fst ran with
      | Raise e => report_failure e t_main_start
      | Return out =>
          log_time "code_exec_ms" t_code_exec ;;;
          t_serialize_start <- perf_counter ;;
          log_time "serialize_ms" t_serialize_start ;;;
          log_time "total_ms" t_main_start ;;;
          tm <- get ;;
          print (Dumps (JObj [("success", JBool true); ("result", JStr out);
                              ("timings", JObj tm)]))
      end ;;;
      t_close <- perf_counter ;;
      on_object close (snd ran) ;;;
      log_time "sandbox_close_ms" t_close
  end.

(** [main], given what [sys.stdin.read()] returned. *)
Definition main (raw : string) : M timings unit :=
  put [] ;;;
  t_main_start <- perf_counter ;;
  try_except
    (t_read_start <- perf_counter ;;
     log_time "stdin_read_ms" t_read_start ;;;
     if String.eqb raw "" then print (rejection "no input")
     else
       t_parse_start <- perf_counter ;;
       match loads lib raw with
       | Raise e => raise e
       | Return data =>
           log_time "json_parse_ms" t_parse_start ;;;
           match data with
           | JObj d =>
               let code := get_or "code" JNull d in
               let packages :=
                 let p := get_or "packages" JNull d in
                 if truthy p then p else JNull in
               match code with
               | JStr c =>
                   if String.eqb (strip lib c) ""
                   then print (rejection "missing or empty 'code'")
                   else
                     t_import_start <- perf_counter ;;
                     imported <- try_except
                                   (import_module "ai_code_sandbox" ;;;
                                    log_time "import_ms" t_import_start ;;;
                                    ret None)
                                   (fun e => ret (Some e)) ;;
                     match imported with
                     | Some e =>
                         print (rejection ("failed to import ai_code_sandbox: " ++ exn_msg e))
                     | None => attempt c packages t_main_start
                     end
               | _ => print (rejection "missing or empty 'code'")
               end
           | _ => raise (no_get data)
           end
       end)
    (fun e => report_failure e t_main_start).

End WithLib.

(** Why [main] turns an input down before it imports anything, if it
    does. *)
Definition turned_down (lib : pylib) (raw : string) : option string :=
  if String.eqb raw "" then Some "no input"
  else
    match loads lib raw with
    | Raise e => Some (exn_msg e)
    | Return (JObj d) =>
        match get_or "code" JNull d with
        | JStr c => if String.eqb (strip lib c) "" then Some "missing or empty 'code'"
                    else None
        | _ => Some "missing or empty 'code'"
        end
    | Return data => Some (exn_msg (no_get data))
    end.

(** Input for the examples: a request for one line of Python. *)
Definition request_line : string :=
  "{" ++ q "code" ++ ": " ++ q "print(1)" ++ "}".

Definition request_decoded : list (string * json) :=
  [(request_line, JObj [("code", JStr "print(1)")]);
   ("[1]", JArr [JInt 1])].

End Runner.

(** * Following a quantity along a run *)
Module Ghost.
Import Sandbox Worker.

Section Track.

Context {G : Type}.

(** How one call and its reply change the quantity. *)
Variable step : forall c : call, reply c -> G -> G.

(** The quantity at the end of the run of [p] from [w]. *)
Fixpoint observe {R} (rt : runtime) (p : prog R) (w : world rt) (g : G) : G :=
  match p with
  | Ret _ => g
  | Vis c k =>
      let '(x, w1) := answer rt c w in
      observe rt (k x) w1 (step c x g)
  end.

(** Whatever the replies, [p] ends with a result and a quantity that
    satisfy [Q]. *)
Fixpoint tracks {R} (p : prog R) (g : G) (Q : R -> G -> Prop) : Prop :=
  match p with
  | Ret r => Q r g
  | Vis c k => forall x, tracks (k x) (step c x g) Q
  end.

(** A call that leaves the quantity alone, whatever it answers. *)
Definition unchanged_by (c : call) : Prop := forall x g, step c x g = g.

End Track.

(** The images built so far and not yet handed to [images.remove]. *)
Definition image_step (c : call) : reply c -> list string -> list string :=
  match c as c0 return reply c0 -> list string -> list string with
  | ImagesBuild _ =>
      fun x built => match x with
                     | Return id => id :: built
                     | Raise _ => built
                     end
  | ImagesRemove id _ => fun _ built => List.filter (fun i => negb (String.eqb i id)) built
  | _ => fun _ built => built
  end.

Definition unremoved {R} (rt : runtime) (p : prog R) (w : world rt) : list string :=
  observe image_step rt p w [].

(** The lines written to standard output, in order. *)
Fixpoint stdout_lines (tr : list call) : list out_line :=
  match tr with
  | [] => []
  | Stdout l :: tr' => l :: stdout_lines tr'
  | _ :: tr' => stdout_lines tr'
  end.

Definition line_step (c : call) : reply c -> list out_line -> list out_line :=
  match c as c0 return reply c0 -> list out_line -> list out_line with
  | Stdout l => fun _ said => (said ++ [l])%list
  | _ => fun _ said => said
  end.

(** The image a sandbox object still holds. *)
Definition held (s : AICodeSandbox) : list string :=
  match temp_image s with
  | Some id => [id]
  | None => []
  end.

(** Standard output holds one JSON document with a boolean [success],
    written first, and nothing after it but lines of text. *)
Definition one_document (said : list out_line) : Prop :=
  exists d texts,
    said = Dumps d :: map Text texts /\
    exists b, success_of d = Some (JBool b).

(** A reading of the clock, or the document that turns a request down with
    the message [msg]. *)
Definition clock_or_rejection (msg : string) (c : call) : Prop :=
  c = PerfCounter \/
  exists d, c = Stdout (Dumps d) /\
            success_of d = Some (JBool false) /\ error_of d = Some (JStr msg).

End Ghost.


(** * Counting calls *)
Module Measures.

Definition is_run (c : call) : bool :=
  match c with
  | ContainersRun _ => true
  | _ => false
  end.

Definition is_reload (c : call) : bool :=
  match c with
  | ContainerReload _ => true
  | _ => false
  end.

Definition is_sleep (c : call) : bool :=
  match c with
  | Sleep _ => true
  | _ => false
  end.

Definition is_image_remove (c : call) : bool :=
  match c with
  | ImagesRemove _ _ => true
  | _ => false
  end.

Definition is_docker (c : call) : bool :=
  match c with
  | FromEnv | ContainersGet _ | ContainerReload _ | ContainerStart _
  | ContainerStop _ _ | ContainerRemove _ _ | ContainersRun _
  | ImagesBuild _ | ImagesRemove _ _ | ExecRun _ _ => true
  | _ => false
  end.

Definition is_subprocess (c : call) : bool :=
  match c with
  | SubprocessRun _ _ => true
  | _ => false
  end.

(** How many calls of a trace are of the kind [f]. *)
Definition count_calls (f : call -> bool) (tr : list call) : nat :=
  length (List.filter f tr).

(** Whatever the replies, the program issues at most [n] calls of the kind
    [f]. *)
Fixpoint at_most {R : Type} (f : call -> bool) (n : nat) (p : prog R) : Prop :=
  match p with
  | Ret _ => True
  | Vis c k =>
      if f c then
        match n with
        | O => False
        | S n' => forall x, at_most f n' (k x)
        end
      else forall x, at_most f n (k x)
  end.

(** The time slept along a trace, in milliseconds. *)
Fixpoint slept (tr : list call) : Z :=
  match tr with
  | [] => 0
  | Sleep ms :: tr' => ms + slept tr'
  | _ :: tr' => slept tr'
  end.

End Measures.

(** ** Generic facts about programs *)

Lemma run_pbind {A B : Type} (rt : runtime) (p : prog A) (f : A -> prog B) w :
  run rt (pbind p f) w =
  let '(a, tr1, w1) := run rt p w in
  let '(b, tr2, w2) := run rt (f a) w1 in
  (b, (tr1 ++ tr2)%list, w2).
Proof.
  revert w. induction p as [a | c k IH]; intros w; simpl.
  - destruct (run rt (f a) w) as [[b tr2] w2]. reflexivity.
  - destruct (answer rt c w) as [x w1]. rewrite IH.
    destruct (run rt (k x) w1) as [[a tr1] w1'].
    destruct (run rt (f a) w1') as [[b tr2] w2]. reflexivity.
Qed.

Lemma all_calls_run {R : Type} (P : call -> Prop) (rt : runtime) (p : prog R) w :
  all_calls P p -> Forall P (trace_of (run rt p w)).
Proof.
  revert w. induction p as [r | c k IH]; intros w Hp; simpl.
  - constructor.
  - destruct Hp as [Hc Hk]. destruct (answer rt c w) as [x w1].
    specialize (IH x w1 (Hk x)).
    destruct (run rt (k x) w1) as [[r tr] w2]. simpl in *.
    constructor; assumption.
Qed.

Lemma all_results_run {R : Type} (Q : R -> Prop) (rt : runtime) (p : prog R) w :
  all_results Q p -> Q (result_of (run rt p w)).
Proof.
  revert w. induction p as [r | c k IH]; intros w Hp; simpl.
  - exact Hp.
  - destruct (answer rt c w) as [x w1].
    specialize (IH x w1 (Hp x)).
    destruct (run rt (k x) w1) as [[r tr] w2]. exact IH.
Qed.

Lemma all_calls_pbind {A B : Type} (P : call -> Prop) (p : prog A) (f : A -> prog B) :
  all_calls P p -> (forall a, all_calls P (f a)) -> all_calls P (pbind p f).
Proof.
  intros Hp Hf. induction p as [a | c k IH]; simpl in *.
  - apply Hf.
  - destruct Hp as [Hc Hk]. split; [exact Hc | intros x; apply IH, Hk].
Qed.

Lemma all_results_pbind {A B : Type} (Q1 : A -> Prop) (Q : B -> Prop)
      (p : prog A) (f : A -> prog B) :
  all_results Q1 p -> (forall a, Q1 a -> all_results Q (f a)) ->
  all_results Q (pbind p f).
Proof.
  intros Hp Hf. induction p as [a | c k IH]; simpl in *.
  - by apply Hf.
  - intros x. apply IH, Hp.
Qed.

Lemma all_results_impl {R : Type} (Q Q' : R -> Prop) (p : prog R) :
  (forall r, Q r -> Q' r) -> all_results Q p -> all_results Q' p.
Proof.
  intros HQ. induction p as [r | c k IH]; simpl; [auto |].
  intros Hk x. apply IH, Hk.
Qed.

Lemma all_calls_impl {R : Type} (P P' : call -> Prop) (p : prog R) :
  (forall c, P c -> P' c) -> all_calls P p -> all_calls P' p.
Proof.
  intros HP. induction p as [r | c k IH]; simpl; [trivial |].
  intros [Hc Hk]. split; [auto | intros x; apply IH, Hk].
Qed.


(** Method bodies. *)
Lemma run_bind {S A B : Type} (rt : runtime) (m : M S A) (f : A -> M S B) s w :
  run rt (bind m f s) w =
  let '(rs, tr1, w1) := run rt (m s) w in
  match fst rs with
  | Return a =>
      let '(rs', tr2, w2) := run rt (f a (snd rs)) w1 in (rs', (tr1 ++ tr2)%list, w2)
  | Raise e => ((Raise e, snd rs), tr1, w1)
  end.
Proof.
  unfold bind. rewrite run_pbind.
  destruct (run rt (m s) w) as [[[r s1] tr1] w1]. simpl.
  destruct r as [a | e]; simpl.
  - by destruct (run rt (f a s1) w1) as [[rs' tr2] w2].
  - by rewrite app_nil_r.
Qed.


Lemma all_calls_bind {S A B : Type} (P : call -> Prop) (m : M S A) (f : A -> M S B) s :
  all_calls P (m s) -> (forall a s', all_calls P (f a s')) ->
  all_calls P (bind m f s).
Proof.
  intros Hm Hf. unfold bind. apply all_calls_pbind; [exact Hm |].
  intros [[a | e] s']; simpl; [apply Hf | exact I].
Qed.

Lemma all_calls_try_except {S A : Type} (P : call -> Prop)
      (m : M S A) (h : exn -> M S A) s :
  all_calls P (m s) -> (forall e s', all_calls P (h e s')) ->
  all_calls P (try_except m h s).
Proof.
  intros Hm Hh. unfold try_except. apply all_calls_pbind; [exact Hm |].
  intros [[a | e] s']; simpl; [exact I | apply Hh].
Qed.

(** Walk a finite program tree, one reply at a time. *)
Ltac walk :=
  repeat (simpl;
          match goal with
          | |- True => exact I
          | |- _ /\ _ => split
          | |- forall x : res _, _ => intros [? | ?]
          | |- forall x : unit, _ => intros []
          | |- forall x, _ => intros ?
          end).

Lemma all_calls_invoke {S A : Type} (P : call -> Prop) (c : call)
      (cast : reply c -> res A) (s : S) :
  P c -> all_calls P (invoke c cast s).
Proof. intros Hc. simpl. auto. Qed.

Lemma all_calls_perform {S A : Type} (P : call -> Prop) (c : call)
      (cast : reply c -> A) (s : S) :
  P c -> all_calls P (perform c cast s).
Proof. intros Hc. simpl. auto. Qed.

Lemma all_calls_try_finally {S A : Type} (P : call -> Prop)
      (m : M S A) (f : M S unit) s :
  all_calls P (m s) -> (forall s', all_calls P (f s')) ->
  all_calls P (try_finally m f s).
Proof.
  intros Hm Hf. unfold try_finally. apply all_calls_pbind; [exact Hm |].
  intros [r s']. apply all_calls_pbind; [apply Hf |].
  intros [[[] | e] s'']; exact I.
Qed.

(** No call of the kind [f] is issued, so none is in the trace. *)
Lemma absent_from_trace {R : Type} (f : call -> bool) (rt : runtime) (p : prog R) w :
  all_calls (fun c => f c = false) p -> existsb f (trace_of (run rt p w)) = false.
Proof.
  intros Hp. pose proof (all_calls_run _ rt p w Hp) as Hall.
  induction Hall as [| c tr Hc _ IH]; [reflexivity |].
  simpl. by rewrite Hc, IH.
Qed.

(** Decompose a method body into its calls. *)
Ltac calls :=
  repeat first
    [ exact I
    | reflexivity
    | assumption
    | progress intros
    | apply all_calls_bind
    | apply all_calls_try_except
    | apply all_calls_try_finally
    | apply all_calls_invoke
    | apply all_calls_perform
    | match goal with
      | |- all_calls _ ((if ?b then _ else _) _) => destruct b
      | |- all_calls _ (match ?x with _ => _ end _) => destruct x
      end ].

Lemma and_rotate (A B C D : Prop) : C /\ D /\ A /\ B -> A /\ B /\ C /\ D.
Proof. tauto. Qed.

Lemma all_results_True {R : Type} (p : prog R) : all_results (fun _ => True) p.
Proof. induction p as [r | c k IH]; simpl; auto. Qed.

Lemma all_results_bind {S A B : Type} (Q1 : res A * S -> Prop) (Q : res B * S -> Prop)
      (m : M S A) (f : A -> M S B) s :
  all_results Q1 (m s) ->
  (forall a s', Q1 (Return a, s') -> all_results Q (f a s')) ->
  (forall e s', Q1 (Raise e, s') -> Q (Raise e, s')) ->
  all_results Q (bind m f s).
Proof.
  intros Hm Hf He. unfold bind. apply (all_results_pbind Q1); [exact Hm |].
  intros [[a | e] s'] H1; simpl; auto.
Qed.

Lemma run_perform {S A : Type} (rt : runtime) (c : call) (cast : reply c -> A) (s : S) w :
  run rt (perform c cast s) w =
  ((Return (cast (fst (answer rt c w))), s), [c], snd (answer rt c w)).
Proof. simpl. by destruct (answer rt c w). Qed.

Lemma all_results_when_pbind {A B : Type} (G : forall c : call, reply c -> Prop)
      (Q1 : A -> Prop) (Q : B -> Prop) (p : prog A) (f : A -> prog B) :
  all_results_when G Q1 p -> (forall a, Q1 a -> all_results_when G Q (f a)) ->
  all_results_when G Q (pbind p f).
Proof.
  intros Hp Hf. induction p as [a | c k IH]; simpl in *.
  - by apply Hf.
  - intros x Hx. apply IH, Hp, Hx.
Qed.

Lemma all_results_weaken {R : Type} (G : forall c : call, reply c -> Prop)
      (Q : R -> Prop) (p : prog R) :
  all_results Q p -> all_results_when G Q p.
Proof.
  induction p as [r | c k IH]; simpl; [auto |]. intros Hk x _. apply IH, Hk.
Qed.


(** * Facts about container_pool.py *)
Module PoolFacts.
Import Pool.

Lemma first_free_Some cs used c :
  first_free cs used = Some c -> c ∈ cs /\ cid c ∉ used.
Proof.
  induction cs as [| c0 cs IH]; simpl; [discriminate |].
  destruct (decide (cid c0 ∈ used)) as [Hin | Hout].
  - intros H. destruct (IH H) as [? ?]. split; [by right | done].
  - intros [= <-]. split; [by left | done].
Qed.

Lemma first_free_None cs used :
  first_free cs used = None <-> forall c, c ∈ cs -> cid c ∈ used.
Proof.
  induction cs as [| c0 cs IH]; simpl.
  - split; [intros _ c Hc; inversion Hc | done].
  - destruct (decide (cid c0 ∈ used)) as [Hin | Hout].
    + rewrite IH. split.
      * intros H c Hc. apply elem_of_cons in Hc as [-> | Hc]; auto.
      * intros H c Hc. apply H. by right.
    + split; [discriminate |]. intros H. exfalso. apply Hout, H. by left.
Qed.


Lemma rounds_pos timeout : (1 <= rounds timeout)%nat.
Proof. unfold rounds. lia. Qed.

Lemma rounds_enough timeout : timeout <= (Z.of_nat (rounds timeout) - 1) * poll_ms.
Proof. unfold rounds, poll_ms. Z.div_mod_to_equations. lia. Qed.

(** A free member is returned by the first poll, provided the deadline is
    in the future. *)
Lemma acquire_free timeout p now c :
  0 < timeout -> first_free (containers p) (in_use p) = Some c ->
  acquire timeout p now = Some (Return c, set_in_use ({[cid c]} ∪ in_use p) p, now).
Proof.
  intros Ht Hc. unfold acquire, rounds. simpl.
  rewrite decide_True by lia. by rewrite Hc.
Qed.

(** With every member in use the loop polls until the deadline has passed
    and then raises; it overshoots by less than one polling interval. *)
Lemma acquire_loop_exhausted fuel timeout start p now :
  first_free (containers p) (in_use p) = None ->
  (1 <= fuel)%nat ->
  timeout - (now - start) <= (Z.of_nat fuel - 1) * poll_ms ->
  exists now',
    acquire_loop fuel timeout start p now = Some (Raise exhausted, p, now') /\
    timeout <= now' - start /\ now <= now' /\
    (now' = now \/ now' - start < timeout + poll_ms).
Proof.
  intros Hfull. revert now.
  induction fuel as [| fuel IH]; intros now Hfuel Hbound; [lia |].
  simpl. destruct (decide (now - start < timeout)) as [Hlt | Hge].
  - rewrite Hfull.
    destruct (IH (now + poll_ms)) as (now' & Hrun & Hdead & Hmono & Hmargin).
    + unfold poll_ms in *. lia.
    + unfold poll_ms in *. lia.
    + exists now'. split; [exact Hrun |]. unfold poll_ms in *.
      repeat split; lia.
  - exists now. repeat split; lia.
Qed.

Lemma acquire_exhausted timeout p now :
  first_free (containers p) (in_use p) = None ->
  exists now',
    acquire timeout p now = Some (Raise exhausted, p, now') /\
    timeout <= now' - now /\ now <= now' /\
    (now' = now \/ now' - now < timeout + poll_ms).
Proof.
  intros Hfull. unfold acquire.
  apply acquire_loop_exhausted; [done | apply rounds_pos |].
  pose proof (rounds_enough timeout). lia.
Qed.

(** [acquire] always comes back: the fuel it is given suffices. *)
Lemma acquire_total timeout p now : is_Some (acquire timeout p now).
Proof.
  destruct (first_free (containers p) (in_use p)) as [c |] eqn:Hff.
  - unfold acquire, rounds. simpl.
    destruct (decide (now - now < timeout)); rewrite ?Hff; eauto.
  - destruct (acquire_exhausted timeout p now Hff) as (now' & -> & _). eauto.
Qed.



Lemma create_member_in_use (p : ContainerPool) :
  all_results (fun rs => fst rs = Return tt /\ in_use (snd rs) = in_use p)
              (create_member p).
Proof.
  unfold create_member, try_except, bind, get, uuid4_hex, containers_run,
    modify, perform, invoke, ret. simpl.
  intros u [c | e]; simpl; auto.
Qed.

Lemma repeat_create_in_use n (p : ContainerPool) :
  all_results (fun rs => fst rs = Return tt /\ in_use (snd rs) = in_use p)
              (repeat_m n create_member p).
Proof.
  revert p. induction n as [| n IH]; intros p; cbn [repeat_m]; [done |].
  unfold bind at 1.
  apply (all_results_pbind _ _ _ _ (create_member_in_use p)).
  intros [r p1] [Hr Hu]. simpl in *. subst r.
  eapply all_results_impl; [| apply IH]. intros rs [? ?]. split; congruence.
Qed.

(** What the constructor yields, whatever the runtime does: nothing is in
    use, the requested size and image are recorded, and no more members
    exist than were asked for. *)
Lemma repeat_create_fields n (p : ContainerPool) :
  all_results (fun rs => pool_size (snd rs) = pool_size p /\
                         image_name (snd rs) = image_name p /\
                         (length (containers (snd rs)) <= length (containers p) + n)%nat)
              (repeat_m n create_member p).
Proof.
  revert p. induction n as [| n IH]; intros p; cbn [repeat_m].
  - simpl. repeat split; lia.
  - unfold bind at 1.
    eapply (all_results_pbind
              (fun rs => pool_size (snd rs) = pool_size p /\
                         image_name (snd rs) = image_name p /\
                         (length (containers (snd rs)) <= S (length (containers p)))%nat)).
    + unfold create_member, try_except, bind, get, uuid4_hex, containers_run,
        modify, perform, invoke, ret. simpl.
      intros u [c | e]; simpl; repeat split; try lia.
      rewrite length_app. simpl. lia.
    + intros [r p1] (Hs & Hi & Hl). simpl in *.
      destruct r as [[] | e]; simpl.
      * eapply all_results_impl; [| apply IH]. intros rs (? & ? & ?).
        repeat split; try congruence. lia.
      * repeat split; try congruence. lia.
Qed.

Lemma init_fresh pool_size0 image :
  all_results (fun r => match r with
                        | Return p => in_use p = ∅ /\ pool_size p = pool_size0 /\
                                      image_name p = image /\
                                      (length (containers p) <= Z.to_nat pool_size0)%nat
                        | Raise _ => True
                        end)
              (__init__ pool_size0 image).
Proof.
  unfold __init__, from_env, invoke. simpl. intros [[] | e]; simpl; [| done].
  unfold _init_pool, bind at 1, get. simpl.
  pose proof (repeat_create_in_use (Z.to_nat pool_size0) (MkPool pool_size0 image [] ∅)) as H1.
  pose proof (repeat_create_fields (Z.to_nat pool_size0) (MkPool pool_size0 image [] ∅)) as H2.
  revert H1 H2.
  generalize (repeat_m (Z.to_nat pool_size0) create_member (MkPool pool_size0 image [] ∅)).
  intros q. induction q as [[r p] | c k IH]; simpl.
  - intros [-> Hu] (Hs & Hi & Hl). simpl in *. auto.
  - intros H1 H2 x. apply IH; auto.
Qed.




(** C6 (container_pool.py, [release]).  [release] is a total function: it
    removes the handle's id from the in-use set; a second release, or the
    release of a handle that is not in use, changes nothing, so whatever
    [acquire] does afterwards is the same as after a single release. *)
Theorem release_idempotent (p : ContainerPool) (c : Container) :
  in_use (release p c) = in_use p ∖ {[cid c]} /\
  (cid c ∉ in_use (release p c)) /\
  containers (release p c) = containers p /\
  release (release p c) c = release p c /\
  (cid c ∉ in_use p -> release p c = p) /\
  (forall timeout now,
     acquire timeout (release (release p c) c) now = acquire timeout (release p c) now).
Proof.
  assert (Htwice : release (release p c) c = release p c).
  { unfold release, set_in_use. simpl. f_equal. set_solver. }
  repeat split.
  - simpl. set_solver.
  - exact Htwice.
  - intros Hfree. unfold release, set_in_use. destruct p as [n i cs u]. simpl in *.
    f_equal. set_solver.
  - intros timeout now. by rewrite Htwice.
Qed.

Lemma release_idempotent_witness :
  release two_members (MkContainer "never-acquired" "x") = two_members.
Proof.
  apply (release_idempotent two_members (MkContainer "never-acquired" "x")).
  simpl. apply not_elem_of_empty.
Defined.

Lemma acquire_loop_keeps_fields fuel timeout start p now r p' now' :
  acquire_loop fuel timeout start p now = Some (r, p', now') ->
  pool_size p' = pool_size p /\ image_name p' = image_name p /\
  containers p' = containers p.
Proof.
  revert now. induction fuel as [| fuel IH]; intros now; simpl; [done |].
  destruct (decide (now - start < timeout)); [| by intros [= <- <- <-]].
  destruct (first_free (containers p) (in_use p)); [by intros [= <- <- <-] | apply IH].
Qed.

Lemma acquire_keeps_fields timeout p now r p' now' :
  acquire timeout p now = Some (r, p', now') ->
  pool_size p' = pool_size p /\ image_name p' = image_name p /\
  containers p' = containers p.
Proof. apply acquire_loop_keeps_fields. Qed.

(** The pool object is built once: no operation replaces it or changes
    its size, image or member list. *)
Lemma step_keeps_pool rt p now w o :
  exists q now' w',
    step rt (Some p, now, w) o = (Some q, now', w') /\
    pool_size q = pool_size p /\ image_name q = image_name p /\
    containers q = containers p.
Proof.
  destruct o as [n | t | c]; simpl.
  - exists p, now, w. auto.
  - destruct (acquire t p now) as [[[r p'] now'] |] eqn:Ha.
    + exists p', now', w. split; [done |]. eapply acquire_keeps_fields, Ha.
    + exists p, now, w. auto.
  - exists (release p c), now, w. auto.
Qed.

(** The claim of C10 as written fails: a first call that raises stores
    nothing, so it is the second call, with its own size, that constructs
    the pool. *)
Lemma failed_first_call_lets_second_win :
  let first := run late_daemon (get_pool 2 None) (false, RefDocker.empty_engine) in
  let second := run late_daemon (get_pool 3 (snd (result_of first))) (world_of first) in
  (exists e, result_of first = (Raise e, None)) /\
  exists p, result_of second = (Return p, Some p) /\
            pool_size p = 3 /\ length (containers p) = 3%nat.
Proof.
  split.
  - eexists. vm_compute. reflexivity.
  - eexists. split; [vm_compute; reflexivity |]. by split.
Qed.

(** C10 (container_pool.py, [get_pool] lines 63-70), amended.  While no
    pool is stored, a call of [get_pool] is a call of the constructor
    [ContainerPool(pool_size)] on the default image: it issues the
    constructor's calls, returns or raises what the constructor returns or
    raises, and stores the pool exactly when the constructor returned one.
    Once a pool is stored, every call, whatever size it passes, issues no
    runtime call, returns the stored object and leaves the store alone,
    also after any number of [get_pool]/[acquire]/[release] operations in
    between. *)
Theorem get_pool_first_call_wins (rt : runtime) (w : world rt) (n : Z) :
  let built := run rt (__init__ n "python:3.9-slim") w in
  run rt (get_pool n None) w =
    ((result_of built, stored (result_of built)), trace_of built, world_of built) /\
  (forall m q, get_pool m (Some q) = Ret (Return q, Some q)) /\
  (forall p, result_of built = Return p ->
     pool_size p = n /\ in_use p = ∅ /\
     forall ops now,
       exists q now' w',
         fold_left (step rt) ops (Some p, now, world_of built) = (Some q, now', w') /\
         pool_size q = n /\ containers q = containers p /\
         forall m, run rt (get_pool m (Some q)) w' = ((Return q, Some q), [], w')).
Proof.
  cbn zeta. split; [| split].
  - change (get_pool n None) with
      (pbind (__init__ n "python:3.9-slim") (fun r =>
         match r with
         | Return p => Ret (Return p, Some p)
         | Raise e => Ret (Raise e, @None ContainerPool)
         end)).
    rewrite run_pbind.
    destruct (run rt (__init__ n "python:3.9-slim") w) as [[r tr0] w0].
    unfold result_of, trace_of, world_of. cbn [fst snd].
    destruct r as [p0 | e]; cbn [run stored]; by rewrite app_nil_r.
  - reflexivity.
  - intros p Hp.
    pose proof (all_results_run _ rt _ w (init_fresh n "python:3.9-slim")) as Hf.
    rewrite Hp in Hf. destruct Hf as (Hempty & Hsize & _).
    split; [exact Hsize |]. split; [exact Hempty |].
    intros ops now.
    cut (forall q0 t0 w0, pool_size q0 = n -> containers q0 = containers p ->
           exists q now' w',
             fold_left (step rt) ops (Some q0, t0, w0) = (Some q, now', w') /\
             pool_size q = n /\ containers q = containers p /\
             forall m, run rt (get_pool m (Some q)) w' = ((Return q, Some q), [], w')).
    { intros Hcut. by apply Hcut. }
    induction ops as [| o ops IH]; intros q0 t0 w0 Hs Hc; cbn [fold_left].
    + exists q0, t0, w0. auto.
    + destruct (step_keeps_pool rt q0 t0 w0 o) as (q & t' & w' & -> & Hs' & _ & Hc').
      apply IH; congruence.
Qed.

Lemma get_pool_first_call_wins_witness :
  run (RefDocker.docker RefDocker.reliable) (get_pool 2 None) RefDocker.empty_engine =
    ((Return two_members, Some two_members),
     trace_of (run (RefDocker.docker RefDocker.reliable) (__init__ 2 "python:3.9-slim")
                   RefDocker.empty_engine),
     world_of (run (RefDocker.docker RefDocker.reliable) (__init__ 2 "python:3.9-slim")
                   RefDocker.empty_engine)) /\
  get_pool 5 (Some two_members) = Ret (Return two_members, Some two_members) /\
  pool_size two_members = 2 /\ in_use two_members = ∅.
Proof.
  destruct (get_pool_first_call_wins
              (RefDocker.docker RefDocker.reliable) RefDocker.empty_engine 2)
    as (Hfirst & Hagain & Hlater).
  destruct (Hlater two_members) as (Hsize & Hempty & _); [vm_compute; reflexivity |].
  split; [| split; [apply Hagain | split; [exact Hsize | exact Hempty]]].
  rewrite Hfirst.
  replace (result_of (run (RefDocker.docker RefDocker.reliable)
                          (__init__ 2 "python:3.9-slim") RefDocker.empty_engine))
    with (Return two_members) by (vm_compute; reflexivity).
  reflexivity.
Defined.

End PoolFacts.


(** * Facts about strings and shell quoting *)
Module ShellFacts.
Import Shell.

#[local] Arguments String.append !_ _ / : simpl nomatch.

Lemma append_nil_r (s : string) : s ++ "" = s.
Proof. induction s as [| c s IH]; [reflexivity | simpl; by f_equal]. Qed.

Lemma append_assoc (a b c : string) : (a ++ b) ++ c = a ++ (b ++ c).
Proof. induction a as [| x a IH]; [reflexivity | simpl; by f_equal]. Qed.

Lemma snoc_append (w : string) (c : ascii) (s : string) :
  snoc w c ++ s = w ++ String c s.
Proof. unfold snoc. by rewrite append_assoc. Qed.

(** A safe character is neither a blank nor a quote. *)
Lemma safe_char_plain (c : ascii) :
  safe_char c = true ->
  Ascii.eqb c space = false /\ Ascii.eqb c tab = false /\
  Ascii.eqb c squote = false /\ Ascii.eqb c dquote = false.
Proof.
  destruct c as [[] [] [] [] [] [] [] []]; vm_compute; intros H;
    first [discriminate H | repeat split].
Qed.

(** Inside single quotes, the five characters of [quote_escape] add one
    quote to the word and leave the lexer inside single quotes. *)
Lemma lex_quote_escape (rest : string) (w : string) (acc : list string) :
  lex (quote_escape ++ rest) InSingle (Some w) acc =
  lex rest InSingle (Some (snoc w squote)) acc.
Proof. reflexivity. Qed.

(** The escaped text, read inside single quotes, is the text. *)
Lemma lex_escaped (s rest w : string) (acc : list string) :
  lex (str_replace squote quote_escape s ++ rest) InSingle (Some w) acc =
  lex rest InSingle (Some (w ++ s)) acc.
Proof.
  revert w. induction s as [| c s IH]; intros w.
  - simpl. by rewrite append_nil_r.
  - cbn [str_replace]. destruct (Ascii.eqb c squote) eqn:Hc.
    + apply Ascii.eqb_eq in Hc as ->.
      by rewrite append_assoc, lex_quote_escape, IH, snoc_append.
    + cbn [String.append lex]. rewrite Hc. cbn [add_char].
      by rewrite IH, snoc_append.
Qed.

Lemma lex_safe (s rest w : string) (acc : list string) :
  all_safe s = true ->
  lex (s ++ rest) Bare (Some w) acc = lex rest Bare (Some (w ++ s)) acc.
Proof.
  revert w. induction s as [| c s IH]; intros w.
  - simpl. by rewrite append_nil_r.
  - cbn [all_safe]. intros [Hc Hs]%andb_prop.
    destruct (safe_char_plain c Hc) as (Hsp & Htab & Hsq & Hdq).
    cbn [String.append lex]. rewrite Hsp, Htab, Hsq, Hdq, Hc. cbn [orb add_char].
    by rewrite IH, snoc_append.
Qed.

(** A word quoted by [shlex.quote] is read back as it was. *)
Lemma lex_shlex_quote (v rest w : string) (acc : list string) :
  lex (shlex_quote v ++ rest) Bare (Some w) acc = lex rest Bare (Some (w ++ v)) acc.
Proof.
  destruct v as [| c v].
  - simpl. by rewrite append_nil_r.
  - unfold shlex_quote. destruct (all_safe (String c v)) eqn:Hsafe.
    + by apply lex_safe.
    + rewrite append_assoc.
      change (lex (str_replace squote quote_escape (String c v) ++ ("'" ++ rest))
                  InSingle (Some w) acc = lex rest Bare (Some (w ++ String c v)) acc).
      by rewrite lex_escaped.
Qed.

Lemma all_safe_app (a b : string) :
  all_safe (a ++ b) = all_safe a && all_safe b.
Proof.
  induction a as [| c a IH]; [reflexivity |].
  cbn [String.append all_safe]. by rewrite IH, andb_assoc.
Qed.

(** A run of safe characters starts a word when none is open. *)
Lemma lex_safe_start (c : ascii) (s rest : string) (acc : list string) :
  all_safe (String c s) = true ->
  lex (String c s ++ rest) Bare None acc = lex rest Bare (Some (String c s)) acc.
Proof.
  cbn [all_safe]. intros [Hc Hs]%andb_prop.
  destruct (safe_char_plain c Hc) as (Hsp & Htab & Hsq & Hdq).
  cbn [String.append lex]. rewrite Hsp, Htab, Hsq, Hdq, Hc. cbn [orb add_char].
  by rewrite lex_safe.
Qed.

Lemma lex_env_word (rest : string) :
  lex ("env " ++ rest) Bare None [] = lex rest Bare None ["env"].
Proof. reflexivity. Qed.

Lemma lex_python_word (rest : string) (acc : list string) :
  lex ("python -c '" ++ rest) Bare None acc =
  lex rest InSingle (Some "") ("-c" :: "python" :: acc).
Proof. reflexivity. Qed.

End ShellFacts.


(** * Facts about sandbox.py *)
Module SandboxFacts.
Import Shell ShellFacts Sandbox.

#[local] Arguments String.append !_ _ / : simpl nomatch.

Lemma lex_env_entry (k v rest : string) (acc : list string) :
  all_safe k = true ->
  lex ((k ++ "=" ++ shlex_quote v) ++ rest) Bare None acc =
  lex rest Bare (Some (k ++ "=" ++ v)) acc.
Proof.
  intros Hk.
  assert (Hhead : exists c s, k ++ "=" = String c s /\ all_safe (String c s) = true).
  { destruct k as [| c k]; [by exists "="%char, "" |].
    exists c, (k ++ "="). split; [reflexivity |].
    change (String c (k ++ "=")) with (String c k ++ "=").
    by rewrite all_safe_app, Hk. }
  destruct Hhead as (c & s & Heq & Hsafe).
  replace ((k ++ "=" ++ shlex_quote v) ++ rest)
    with (String c s ++ (shlex_quote v ++ rest))
    by (rewrite <- Heq; by rewrite !append_assoc).
  rewrite (lex_safe_start c s _ acc Hsafe), lex_shlex_quote.
  by rewrite <- Heq, append_assoc.
Qed.

Lemma lex_blank (rest : string) (cur : option string) (acc : list string) :
  lex (String space rest) Bare cur acc = lex rest Bare None (close_word cur acc).
Proof. reflexivity. Qed.

Lemma join_spaces_more (p q : string) (l : list string) :
  join_spaces (p :: q :: l) = p ++ String space (join_spaces (q :: l)).
Proof. reflexivity. Qed.

(** Parts joined by single blanks and followed by a blank are read one word
    per part. *)
Lemma lex_join_spaces (parts words : list string) (rest : string) (acc : list string) :
  Forall2 (fun p w => forall rest acc,
             lex (p ++ rest) Bare None acc = lex rest Bare (Some w) acc) parts words ->
  lex (join_spaces parts ++ String space rest) Bare None acc =
  lex rest Bare None (rev words ++ acc)%list.
Proof.
  intros Hparts. revert acc.
  induction Hparts as [| p w parts words Hp Hrest IH]; intros acc; [reflexivity |].
  destruct Hrest as [| q w' parts words Hq Hrest].
  - cbn [join_spaces]. by rewrite Hp, lex_blank.
  - rewrite join_spaces_more, append_assoc, Hp.
    change (String space (join_spaces (q :: parts)) ++ String space rest)
      with (String space (join_spaces (q :: parts) ++ String space rest)).
    rewrite lex_blank, IH. cbn [close_word rev].
    by rewrite <- !app_assoc.
Qed.

Lemma lex_env_str (env_vars : list (string * string)) (rest : string) (acc : list string) :
  Forall (fun kv => all_safe (fst kv) = true) env_vars ->
  lex (env_str env_vars ++ String space rest) Bare None acc =
  lex rest Bare None (rev (map env_word env_vars) ++ acc)%list.
Proof.
  intros Hkeys. unfold env_str. apply lex_join_spaces.
  induction Hkeys as [| [k v] env Hk Henv IH]; cbn [map]; constructor; [| exact IH].
  intros rest' acc'. by apply lex_env_entry.
Qed.

(** C4 (sandbox.py, [run_code] lines 192-198).  For every code string and
    every environment whose names are made of shell-safe characters, the
    command handed to [sh -c] splits into [env], one [name=value] word per
    variable, [python], [-c] and the dedented code as one word, unchanged;
    inside the single-quoted word each embedded quote is written as
    [quote_escape], which the shell reads as one quote before resuming the
    quoted word. *)
Theorem run_code_quoting
    (dedent : string -> string) (code : string)
    (env_vars : list (string * string)) (s : AICodeSandbox) (h : Container) :
  container s = Some h ->
  Forall (fun kv => all_safe (fst kv) = true) env_vars ->
  (exists k, run_code dedent code (Some env_vars) s =
             Vis (ExecRun h ["sh"; "-c"; exec_command dedent code env_vars]) k) /\
  sh_words (exec_command dedent code env_vars) =
    Some ("env" :: map env_word env_vars ++ ["python"; "-c"; dedent code])%list /\
  (exists k, run_code dedent code None s =
             Vis (ExecRun h ["sh"; "-c"; exec_command dedent code []]) k) /\
  sh_words (exec_command dedent code []) = Some ["env"; "python"; "-c"; dedent code] /\
  (forall rest w acc,
     lex (quote_escape ++ rest) InSingle (Some w) acc =
     lex rest InSingle (Some (snoc w squote)) acc).
Proof.
  intros Hc Hkeys.
  assert (Hwords : forall env, Forall (fun kv => all_safe (fst kv) = true) env ->
            sh_words (exec_command dedent code env) =
            Some ("env" :: map env_word env ++ ["python"; "-c"; dedent code])%list).
  { intros env Henv. unfold sh_words, exec_command.
    rewrite lex_env_word.
    change (" python -c '" ++ str_replace squote quote_escape (dedent code) ++ "'")
      with (String space ("python -c '" ++ str_replace squote quote_escape (dedent code) ++ "'")).
    rewrite (lex_env_str env _ _ Henv), lex_python_word, lex_escaped.
    cbn [lex String.append]. change (Ascii.eqb squote squote) with true.
    cbn [lex close_word]. f_equal. cbn [rev].
    rewrite rev_app_distr, rev_involutive. simpl. by rewrite <- !app_assoc. }
  repeat split.
  - unfold run_code, bind, get. simpl. rewrite Hc. simpl. eauto.
  - by apply Hwords.
  - unfold run_code, bind, get. simpl. rewrite Hc. simpl. eauto.
  - apply (Hwords []). constructor.
Qed.

Lemma run_code_quoting_witness :
  sh_words (exec_command (fun c => c) "print('it''s ok')" [("GREETING", "it's")]) =
  Some ["env"; "GREETING=it's"; "python"; "-c"; "print('it''s ok')"].
Proof.
  apply (run_code_quoting (fun c => c) "print('it''s ok')" [("GREETING", "it's")]
           (MkSandbox (Some (MkContainer "c1" "sandbox_persistent")) None)
           (MkContainer "c1" "sandbox_persistent")).
  - reflexivity.
  - repeat constructor.
Defined.

(** ** [run_code]: classification of the outcome *)

Lemma stream_text_decodable {S} (stream : option string) (s : S) :
  decodable stream = true ->
  stream_text stream s = Ret (Return (text_of stream), s).
Proof.
  destruct stream as [b |]; simpl; [| reflexivity].
  intros Hb. destruct (String.eqb_spec b "") as [-> | _]; [reflexivity |].
  unfold decode_utf8. by rewrite Hb.
Qed.

Lemma stream_text_undecodable {S} (stream : option string) (s : S) :
  decodable stream = false ->
  exists e, exn_cls e = UnicodeDecodeError /\ stream_text stream s = Ret (Raise e, s).
Proof.
  destruct stream as [b |]; simpl; [| discriminate].
  intros Hb. destruct (String.eqb_spec b "") as [-> | _]; [discriminate Hb |].
  unfold decode_utf8. rewrite Hb. eexists. split; [| reflexivity]. reflexivity.
Qed.

(** The claim of C2 as written fails: code that exits 0 after writing bytes
    that are not UTF-8 makes [run_code] raise instead of returning the
    standard output. *)
Lemma run_code_undecodable_raises :
  let r := RefDocker.exec writes_ff ["sh"; "-c"; exec_command (fun c => c) "code" []] in
  exit_code r = 0 /\ out_stream r <> None /\ out_stream r <> Some "" /\
  fst (result_of (run (RefDocker.docker writes_ff)
                      (run_code (fun c => c) "code" None attached)
                      (engine_with "running")))
  = Raise (Exn UnicodeDecodeError "'utf-8' codec can't decode bytes").
Proof. vm_compute. repeat split; discriminate. Qed.

(** C2 (sandbox.py, [run_code] lines 208-254), amended.  When the exec
    call answers and both captured streams are well-formed UTF-8 (or
    absent), [run_code] returns a value and never raises: exit status 0
    with non-empty stdout gives exactly the stdout text; exit status 0 with
    empty stdout and non-empty stderr gives "Error: " followed by stderr;
    exit status 0 with both empty gives "No output"; any other exit status
    gives "Error (exit code N): " followed by stderr. *)
Theorem run_code_classification
    (rt : runtime) (w w' : world rt) (dedent : string -> string) (code : string)
    (env_vars : list (string * string)) (s : AICodeSandbox) (h : Container)
    (r : exec_result) :
  container s = Some h ->
  answer rt (ExecRun h ["sh"; "-c"; exec_command dedent code env_vars]) w = (Return r, w') ->
  decodable (out_stream r) = true ->
  decodable (err_stream r) = true ->
  exists result,
    run rt (run_code dedent code (Some env_vars) s) w =
      ((Return result, s), [ExecRun h ["sh"; "-c"; exec_command dedent code env_vars]], w') /\
    (exit_code r = 0 -> text_of (out_stream r) <> "" -> result = text_of (out_stream r)) /\
    (exit_code r = 0 -> text_of (out_stream r) = "" -> text_of (err_stream r) <> "" ->
       result = "Error: " ++ text_of (err_stream r)) /\
    (exit_code r = 0 -> text_of (out_stream r) = "" -> text_of (err_stream r) = "" ->
       result = "No output") /\
    (exit_code r <> 0 ->
       result = "Error (exit code " ++ pretty (exit_code r) ++ "): " ++ text_of (err_stream r)).
Proof.
  intros Hc Hans Hout Herr.
  exists (classify (exit_code r) (text_of (out_stream r)) (text_of (err_stream r))).
  split.
  - unfold run_code. unfold bind at 1, get. cbn [pbind fst snd]. rewrite Hc.
    unfold bind at 1, exec_run, invoke. cbn [pbind run]. rewrite Hans.
    cbn [fst snd]. unfold bind at 1. rewrite (stream_text_decodable _ _ Hout).
    cbn [pbind fst snd]. unfold bind at 1. rewrite (stream_text_decodable _ _ Herr).
    reflexivity.
  - unfold classify. repeat split.
    + intros -> Hne. simpl. by destruct (String.eqb_spec (text_of (out_stream r)) "").
    + intros -> -> Hne. simpl. by destruct (String.eqb_spec (text_of (err_stream r)) "").
    + by intros -> -> ->.
    + intros Hne. by destruct (Z.eqb_spec (exit_code r) 0).
Qed.

Lemma run_code_classification_witness :
  exists result,
    run (RefDocker.docker fails_with_boom)
        (run_code (fun c => c) "raise SystemExit('boom')" (Some []) attached)
        (engine_with "running") =
      ((Return result, attached),
       [ExecRun persistent_handle
                ["sh"; "-c"; exec_command (fun c => c) "raise SystemExit('boom')" []]],
       engine_with "running") /\
    result = "Error (exit code 1): boom".
Proof.
  destruct (run_code_classification
              (RefDocker.docker fails_with_boom) (engine_with "running")
              (engine_with "running") (fun c => c) "raise SystemExit('boom')" []
              attached persistent_handle (ExecResult 1 None (Some "boom")))
    as (result & Hrun & _ & _ & _ & Hfail).
  - reflexivity.
  - reflexivity.
  - reflexivity.
  - reflexivity.
  - exists result. split; [exact Hrun |]. rewrite Hfail by (simpl; lia). reflexivity.
Defined.

(** An undecodable stream makes [run_code] raise [UnicodeDecodeError],
    whatever the exit status. *)
Lemma run_code_undecodable
    (rt : runtime) (w w' : world rt) (dedent : string -> string) (code : string)
    (env_vars : list (string * string)) (s : AICodeSandbox) (h : Container)
    (r : exec_result) :
  container s = Some h ->
  answer rt (ExecRun h ["sh"; "-c"; exec_command dedent code env_vars]) w = (Return r, w') ->
  decodable (out_stream r) && decodable (err_stream r) = false ->
  exists e, exn_cls e = UnicodeDecodeError /\
    result_of (run rt (run_code dedent code (Some env_vars) s) w) = (Raise e, s).
Proof.
  intros Hc Hans Hbad.
  unfold run_code. unfold bind at 1, get. cbn [pbind fst snd]. rewrite Hc.
  unfold bind at 1, exec_run, invoke. cbn [pbind run]. rewrite Hans.
  cbn [fst snd]. unfold bind at 1.
  destruct (decodable (out_stream r)) eqn:Hout.
  - rewrite (stream_text_decodable _ _ Hout). cbn [pbind fst snd]. unfold bind at 1.
    destruct (stream_text_undecodable (err_stream r) s Hbad) as (e & He & ->).
    exists e. by split.
  - destruct (stream_text_undecodable (out_stream r) s Hout) as (e & He & ->).
    exists e. by split.
Qed.

(** ** [close] *)

Lemma remove_image_attempts_results n id (s : AICodeSandbox) :
  all_results (fun rs => rs = (Return tt, s)) (remove_image_attempts n id s).
Proof.
  induction n as [| n IH]; [by walk |].
  cbn [remove_image_attempts]. unfold bind at 1.
  apply (all_results_pbind (fun rs => snd rs = s /\ exists b, fst rs = Return b)).
  - unfold try_except, bind, images_remove, print, sleep, invoke, perform, ret.
    walk; eauto.
  - intros [r s1] [Hs [b Hb]]. simpl in *. subst. by destruct b.
Qed.

Lemma close_container_results (s : AICodeSandbox) :
  all_results (fun rs => rs = (Return tt, set_container None s)) (close_container s).
Proof.
  unfold close_container, bind, get. cbn [pbind fst snd].
  destruct s as [[c |] img]; cbn [container]; [| reflexivity].
  destruct (String.eqb (cname c) persistent_name); [reflexivity |].
  unfold try_except, bind, container_stop, container_remove, print, invoke, perform,
    modify, ret.
  walk; reflexivity.
Qed.

Lemma close_image_results (s : AICodeSandbox) :
  all_results (fun rs => rs = (Return tt, set_temp_image None s)) (close_image s).
Proof.
  unfold close_image, bind, get. cbn [pbind fst snd].
  destruct s as [c [id |]]; cbn [temp_image]; [| reflexivity].
  unfold try_finally.
  apply (all_results_pbind (fun rs => rs = (Return tt, MkSandbox c (Some id)))).
  - unfold try_except.
    apply (all_results_pbind (fun rs => rs = (Return tt, MkSandbox c (Some id))));
      [apply remove_image_attempts_results |].
    intros rs ->. reflexivity.
  - intros rs ->. reflexivity.
Qed.

Lemma close_results (s : AICodeSandbox) :
  all_results (fun rs => rs = (Return tt, MkSandbox None None)) (close s).
Proof.
  unfold close, bind.
  apply (all_results_pbind _ _ _ _ (close_container_results s)).
  intros rs ->. cbn [fst snd].
  eapply all_results_impl; [| apply close_image_results].
  intros rs ->. reflexivity.
Qed.

(** C9 (sandbox.py, [close] and [__del__]).  Whatever the runtime answers,
    [close] returns normally and leaves both [container] and [temp_image]
    cleared; on a sandbox in that state [close] (and so [__del__]) issues no
    call at all, so calling it again changes neither the fields nor the
    runtime and adds nothing to the trace. *)
Theorem close_idempotent (s : AICodeSandbox) :
  all_results (fun rs => rs = (Return tt, MkSandbox None None)) (close s) /\
  close (MkSandbox None None) = Ret (Return tt, MkSandbox None None) /\
  __del__ (MkSandbox None None) = Ret (Return tt, MkSandbox None None) /\
  (forall (rt : runtime) (w : world rt),
     result_of (run rt (close s) w) = (Return tt, MkSandbox None None) /\
     run rt ((close ;;; close) s) w = run rt (close s) w /\
     run rt ((close ;;; close ;;; __del__) s) w = run rt (close s) w).
Proof.
  split; [apply close_results |]. split; [reflexivity |]. split; [reflexivity |].
  intros rt w.
  pose proof (all_results_run _ rt _ w (close_results s)) as Hres.
  split; [exact Hres |].
  rewrite !run_bind.
  destruct (run rt (close s) w) as [[rs tr] w1]. unfold result_of in Hres.
  simpl in Hres. subst rs. cbn [fst snd].
  rewrite !run_bind. simpl. by rewrite app_nil_r.
Qed.

(** On the reference runtime: a sandbox built for one package is torn down
    by the first [close]; the second finds nothing to do. *)
Example close_twice_on_reference_runtime :
  let rt := RefDocker.docker RefDocker.reliable in
  let built := run rt (__init__ (default_args None (Some ["numpy"])) (MkSandbox None None))
                   RefDocker.empty_engine in
  let once := run rt (close (snd (result_of built))) (world_of built) in
  let twice := run rt (close (snd (result_of once))) (world_of once) in
  map is_teardown (trace_of once) = [true; true; true] /\
  result_of once = (Return tt, MkSandbox None None) /\
  trace_of twice = [] /\
  result_of twice = (Return tt, MkSandbox None None) /\
  world_of twice = world_of once.
Proof. vm_compute. repeat split. Qed.

(** ** The persistent container *)

Lemma wait_running_calls (P : call -> Prop) n c last (s : AICodeSandbox) :
  P (ContainerReload c) -> (forall ms, P (Sleep ms)) ->
  all_calls P (wait_running n c last s).
Proof.
  intros Hreload Hsleep. revert last s.
  induction n as [| n IH]; intros last s; cbn [wait_running]; [exact I |].
  unfold container_reload, sleep. calls; auto.
Qed.

Lemma attach_persistent_calls (P : call -> Prop) (s : AICodeSandbox) :
  P (ContainersGet persistent_name) ->
  (forall c, P (ContainerReload c)) -> (forall c, P (ContainerStart c)) ->
  (forall ms, P (Sleep ms)) ->
  all_calls P (attach_persistent s).
Proof.
  intros Hget Hreload Hstart Hsleep. unfold attach_persistent.
  unfold containers_get, container_reload, container_start, modify, ret, raise.
  calls; auto.
Qed.

Lemma build_and_run_calls (P : call -> Prop) a pk (s : AICodeSandbox) :
  (forall d, P (ImagesBuild d)) -> P Uuid4Hex -> (forall ra, P (ContainersRun ra)) ->
  all_calls P (build_and_run a pk s).
Proof.
  intros Hbuild Huuid Hrun. unfold build_and_run.
  unfold images_build, uuid4_hex, containers_run, modify, ret.
  calls; auto.
Qed.

Lemma remove_image_attempts_calls (P : call -> Prop) n id (s : AICodeSandbox) :
  P (ImagesRemove id true) -> (forall t, P (Stdout (Text t))) -> (forall ms, P (Sleep ms)) ->
  all_calls P (remove_image_attempts n id s).
Proof.
  intros Hrm Hout Hsleep. revert s.
  induction n as [| n IH]; intros s; cbn [remove_image_attempts].
  - unfold print. calls; auto.
  - unfold images_remove, print, sleep, ret. calls; auto.
Qed.










(** ** Setup with an explicit image or package list *)

(** The claim of C8 as written fails: with a custom image and no packages
    no image is built and the sandbox owns none. *)
Lemma custom_image_alone_builds_nothing :
  let out := run (RefDocker.docker RefDocker.reliable)
                 (__init__ (default_args (Some "my-image") None) (MkSandbox None None))
                 RefDocker.empty_engine in
  fst (result_of out) = Return tt /\
  existsb is_build (trace_of out) = false /\
  temp_image (snd (result_of out)) = None.
Proof. vm_compute. repeat split. Qed.

(** Nor is the name always a fresh one: the default package list, passed
    explicitly and in any order, yields the persistent name. *)
Lemma explicit_default_packages_take_persistent_name :
  let out := run (RefDocker.docker RefDocker.reliable)
                 (__init__ (default_args None (Some (rev default_packages)))
                           (MkSandbox None None))
                 RefDocker.empty_engine in
  fst (result_of out) = Return tt /\
  container (snd (result_of out)) = Some (MkContainer "c1" persistent_name).
Proof. vm_compute. repeat split. Qed.

Lemma ephemeral_name_not_persistent (u : string) :
  "python_sandbox_" ++ hex8 u <> persistent_name.
Proof. discriminate. Qed.

Lemma explicit_setup_skips_reuse (a : setup_args) (s : AICodeSandbox) :
  custom_image a <> None \/ packages a <> None ->
  _setup_sandbox a s = build_and_run a (packages a) s.
Proof.
  unfold _setup_sandbox. intros [H | H].
  - by destruct (custom_image a).
  - destruct (custom_image a); [reflexivity |]. by destruct (packages a).
Qed.

(** C8 (sandbox.py, [_setup_sandbox] lines 84-106), amended.  When a custom
    image or a package list is given, setup makes no attempt to reuse the
    persistent container.  If it succeeds, it has issued exactly these
    calls, and holds exactly what they returned: an image build from the
    base image and the packages when the package list is non-empty, whose
    reply is the image the sandbox then holds (no build otherwise, the
    container then runs the base image itself and the image field is left
    as it was); one uuid draw for the name [python_sandbox_] plus eight
    characters, which differs from the persistent name, unless no custom
    image was given and the packages are, as a set, the default packages,
    in which case the name is [sandbox_persistent] and nothing is drawn;
    and the run of a container from that image under that name, whose
    reply is the container the sandbox then holds. *)
Theorem explicit_setup_builds_and_runs
    (rt : runtime) (w w' : world rt) (a : setup_args) (s s' : AICodeSandbox)
    (tr : list call) :
  custom_image a <> None \/ packages a <> None ->
  run rt (_setup_sandbox a s) w = ((Return tt, s'), tr, w') ->
  exists (w1 w2 : world rt) (image_name name : string) (c : Container),
    (if nonempty (packages a)
     then answer rt (ImagesBuild (dockerfile_for (base_image (custom_image a))
                                                 (default [] (packages a)))) w
          = (Return image_name, w1)
     else w1 = w /\ image_name = base_image (custom_image a)) /\
    (if is_default_setup (custom_image a) (packages a)
     then w2 = w1 /\ name = persistent_name
     else exists u, answer rt Uuid4Hex w1 = (u, w2) /\
                    name = "python_sandbox_" ++ hex8 u /\ name <> persistent_name) /\
    answer rt (ContainersRun (sandbox_run_args a image_name name)) w2 = (Return c, w') /\
    s' = MkSandbox (Some c)
                   (if nonempty (packages a) then Some image_name else temp_image s) /\
    tr = ((if nonempty (packages a)
           then [ImagesBuild (dockerfile_for (base_image (custom_image a))
                                             (default [] (packages a)))]
           else []) ++
          (if is_default_setup (custom_image a) (packages a) then [] else [Uuid4Hex]) ++
          [ContainersRun (sandbox_run_args a image_name name)])%list.
Proof.
  intros Hexplicit. rewrite (explicit_setup_skips_reuse a s Hexplicit).
  unfold build_and_run, bind, images_build, uuid4_hex, containers_run, modify,
    invoke, perform, ret.
  destruct (packages a) as [[| p ps] |] eqn:Hpk;
    destruct (is_default_setup (custom_image a) _) eqn:Hdef;
    cbn [pbind run fst snd nonempty default from_option id];
    repeat match goal with
           | |- context [answer rt ?c ?w0] =>
               let x := fresh "x" in let w1 := fresh "w" in
               destruct (answer rt c w0) as [x w1] eqn:?;
               lazymatch eval cbn in (reply c) with
               | res _ => destruct x
               | _ => idtac
               end;
               cbn [pbind run fst snd]
           end;
    intros [= <- <- <-] || (intros ?; discriminate).
  all: eexists _, _, _, _, _;
    (split;
     [ first [ split; reflexivity | reflexivity ]
     | split;
       [ first [ split; reflexivity
               | eexists; split;
                 [eassumption | split; [reflexivity | apply ephemeral_name_not_persistent]] ]
       | split; [eassumption | split; reflexivity] ] ]).
Qed.

Lemma explicit_setup_builds_and_runs_witness :
  let a := default_args None (Some ["numpy"]) in
  let out := run (RefDocker.docker RefDocker.reliable)
                 (_setup_sandbox a (MkSandbox None None)) RefDocker.empty_engine in
  exists image_name name c,
    trace_of out = [ImagesBuild (dockerfile_for "python:3.9-slim" ["numpy"]); Uuid4Hex;
                    ContainersRun (sandbox_run_args a image_name name)] /\
    snd (result_of out) = MkSandbox (Some c) (Some image_name) /\
    name <> persistent_name.
Proof.
  intros a out.
  destruct (explicit_setup_builds_and_runs
              (RefDocker.docker RefDocker.reliable) RefDocker.empty_engine (world_of out)
              a (MkSandbox None None) (snd (result_of out)) (trace_of out))
    as (w1 & w2 & image_name & name & c & _ & Hname & _ & Hstate & Htr).
  - right. discriminate.
  - vm_compute. reflexivity.
  - change (nonempty (packages a)) with true in Hstate, Htr.
    replace (is_default_setup (custom_image a) (packages a)) with false in Hname, Htr
      by (vm_compute; reflexivity).
    destruct Hname as (u & _ & _ & Hne).
    exists image_name, name, c. split; [exact Htr |]. split; [exact Hstate | exact Hne].
Defined.


End SandboxFacts.


(** * Facts about persistent_worker.py *)
Module WorkerFacts.
Import Shell Sandbox SandboxFacts Worker Ghost.

Lemma responses_app (tr1 tr2 : list call) :
  responses (tr1 ++ tr2) = (responses tr1 ++ responses tr2)%list.
Proof.
  induction tr1 as [| c tr1 IH]; [reflexivity |].
  destruct c as [| | | | | | | | | | | | | | | [d | t]]; simpl; by rewrite ?IH.
Qed.

Lemma responses_quiet (tr : list call) :
  existsb is_response tr = false -> responses tr = [].
Proof.
  induction tr as [| c tr IH]; [reflexivity |].
  destruct c as [| | | | | | | | | | | | | | | [d | t]]; simpl; auto; discriminate.
Qed.

(** A method of the sandbox run from the worker never raises into the
    worker and leaves [timings] alone. *)
Lemma on_object_returns {A} (m : M AICodeSandbox A) (o : AICodeSandbox) (tm : timings) :
  all_results (fun rs => snd rs = tm /\ exists x, fst rs = Return x) (on_object m o tm).
Proof.
  unfold on_object. apply (all_results_pbind (fun _ => True)); [apply all_results_True |].
  intros rs _. simpl. eauto.
Qed.

Lemma on_object_calls {A} (P : call -> Prop) (m : M AICodeSandbox A) o (tm : timings) :
  all_calls P (m o) -> all_calls P (on_object m o tm).
Proof. intros Hm. unfold on_object. apply all_calls_pbind; [exact Hm | intros; exact I]. Qed.

Lemma setup_quiet (a : setup_args) (s : AICodeSandbox) : all_calls quiet (_setup_sandbox a s).
Proof.
  assert (Hbuild : forall pk s', all_calls quiet (build_and_run a pk s'))
    by (intros; apply build_and_run_calls; reflexivity || (intros; reflexivity)).
  unfold _setup_sandbox.
  destruct (custom_image a); [apply Hbuild |].
  destruct (packages a); [apply Hbuild |].
  apply all_calls_bind.
  - unfold try_persistent. apply all_calls_try_except.
    + apply all_calls_bind; [| intros; exact I].
      apply attach_persistent_calls; reflexivity || (intros; reflexivity).
    + intros e s1. destruct (is_not_found e); [exact I |].
      unfold remove_broken, containers_get, container_remove, ret. calls.
  - intros [] s1; [exact I | apply Hbuild].
Qed.

Lemma construct_quiet (p : json) (s : AICodeSandbox) : all_calls quiet (construct p s).
Proof.
  unfold construct, from_env, put.
  apply all_calls_bind; [apply all_calls_invoke; reflexivity | intros _ s1].
  apply all_calls_bind; [exact I | intros _ s2].
  destruct (packages_arg p) as [[ps | e] |]; try apply setup_quiet. exact I.
Qed.

Lemma close_quiet (s : AICodeSandbox) : all_calls quiet (close s).
Proof.
  unfold close. apply all_calls_bind.
  - unfold close_container, get. apply all_calls_bind; [exact I |].
    intros s0 s1. destruct (container s0) as [c |]; [| exact I].
    destruct (String.eqb (cname c) persistent_name).
    + unfold modify, ret. calls.
    + unfold container_stop, container_remove, print, modify. calls.
  - intros _ s1. unfold close_image, get. apply all_calls_bind; [exact I |].
    intros s0 s2. destruct (temp_image s0) as [id |]; [| exact I].
    apply all_calls_try_finally; [| intros; exact I].
    apply all_calls_try_except.
    + apply remove_image_attempts_calls; reflexivity || (intros; reflexivity).
    + intros e s3. unfold print. calls.
Qed.

Lemma run_code_quiet dedent code env (s : AICodeSandbox) :
  all_calls quiet (run_code dedent code env s).
Proof.
  unfold run_code, get, exec_run, raise. apply all_calls_bind; [exact I |].
  intros s0 s1. destruct (container s0) as [c |]; [| exact I].
  apply all_calls_bind; [apply all_calls_invoke; reflexivity |].
  intros r s2. unfold stream_text, decode_utf8, ret.
  calls; exact I.
Qed.

(** Unfold the worker's combinators down to calls and returns. *)
Ltac expose :=
  unfold process_request, missing_code, bash_request, python_request, python_attempt,
    report_failure, execute_bash, stamp, perf_counter, subprocess_run, import_module,
    print, try_except, bind, ret, raise, get, put, modify, perform, invoke, __del__;
  cbn [pbind fst snd].

(** Walk the exposed tree; sandbox methods are crossed with
    [on_object_returns]. *)
Ltac crawl :=
  repeat
    match goal with
    | |- all_results _ (pbind (on_object ?m ?o ?tm) _) =>
        apply (all_results_pbind _ _ _ _ (on_object_returns m o tm));
        let r := fresh "r" in
        let t := fresh "tm" in
        let H1 := fresh "H" in
        let x := fresh "x" in
        let H2 := fresh "H" in
        intros [r t] [H1 [x H2]]; cbn [fst snd] in H1, H2; subst; cbn [pbind fst snd]
    | |- forall _, _ => intros ?
    | |- all_results _ (Vis _ _) => cbn [all_results]
    | |- all_results _ (Ret _) => cbn [all_results]
    | |- all_results _ (match ?x with _ => _ end) => destruct x; cbn [pbind fst snd]
    | |- all_results _ (match fst ?x with _ => _ end _) =>
        is_var x; destruct x as [[? | ?] ?]; cbn [pbind fst snd]
    | |- all_results _ (match ?x with _ => _ end _) => destruct x; cbn [pbind fst snd]
    | |- all_results _ (if ?b then _ else _) => destruct b; cbn [pbind fst snd]
    | |- all_results _ ?p =>
        match p with
        | context [match ?x with _ => _ end] => is_var x; destruct x; cbn [pbind fst snd]
        end
    end.

Section WithLib.

Variable lib : pylib.

Lemma python_attempt_quiet rid code pk t0 (tm : timings) :
  all_calls quiet (python_attempt lib rid code pk t0 tm).
Proof.
  unfold python_attempt, report_failure, stamp, perf_counter, import_module, get, modify, ret,
    __del__.
  repeat first
    [ exact I | reflexivity | progress intros
    | apply on_object_calls
    | apply construct_quiet | apply close_quiet | apply run_code_quiet
    | apply all_calls_bind | apply all_calls_try_except
    | apply all_calls_invoke | apply all_calls_perform
    | match goal with
      | |- all_calls _ (match ?x with _ => _ end _) => destruct x
      end ].
Qed.

Lemma process_request_quiet (request : json) (tm : timings) :
  all_calls quiet (process_request lib request tm).
Proof.
  unfold process_request, put, perf_counter.
  apply all_calls_bind; [exact I | intros _ tm1].
  apply all_calls_bind; [apply all_calls_perform; reflexivity | intros t_start tm2].
  assert (Hother : all_calls quiet
            ((stamp "total_ms" t_start ;;; @raise timings json unbound_request_id) tm2)).
  { unfold stamp, perf_counter, modify, raise. calls. }
  assert (Hmissing : forall rid, all_calls quiet (missing_code rid tm2)).
  { intros rid. unfold missing_code, get, ret. calls. }
  assert (Hpython : forall rid c pk, all_calls quiet (python_request lib rid c pk t_start tm2)).
  { intros rid c pk. unfold python_request, perf_counter, import_module, stamp,
      get, modify, ret.
    repeat first
      [ exact I | reflexivity | progress intros
      | apply python_attempt_quiet
      | apply all_calls_bind | apply all_calls_try_except
      | apply all_calls_invoke | apply all_calls_perform
      | match goal with
        | |- all_calls _ (match ?x with _ => _ end _) => destruct x
        end ]. }
  destruct request as [| b | n | f | str | l | d]; try exact Hother.
  destruct (get_or "code" JNull d) as [| b | n | f | c | l | d']; try apply Hmissing.
  destruct (String.eqb (strip lib c) ""); [apply Hmissing |].
  assert (Hbash : forall rid, all_calls quiet (bash_request lib rid c t_start tm2)).
  { intros rid. unfold bash_request, execute_bash, subprocess_run, stamp, perf_counter,
      get, modify, ret.
    repeat first
      [ exact I | reflexivity | progress intros
      | apply all_calls_bind | apply all_calls_perform
      | match goal with
        | |- all_calls _ (match ?x with _ => _ end _) => destruct x
        | |- all_calls _ ((if ?b then _ else _) _) => destruct b
        end ]. }
  destruct (get_or "language" (JStr "python") d) as [| b | n | f | lang | l | d'];
    try apply Hpython.
  destruct (String.eqb lang "bash"); [apply Hbash | apply Hpython].
Qed.

(** A request that decodes to an object is answered by a response that
    carries its [id] (or ["unknown"]) and a boolean [success]. *)
Lemma process_request_object (d : list (string * json)) (tm : timings) :
  all_results (fun rs => exists response,
                 fst rs = Return response /\
                 id_of response = Some (get_or "id" (JStr "unknown") d) /\
                 exists b, success_of response = Some (JBool b))
              (process_request lib (JObj d) tm).
Proof.
  expose. intros t_start.
  destruct (get_or "code" JNull d) as [| b | n | f | c | l | d'];
    try (cbn [all_results]; eexists; split; [reflexivity |]; split; [reflexivity | eauto]).
  destruct (String.eqb (strip lib c) "");
    [cbn [all_results]; eexists; split; [reflexivity |]; split; [reflexivity | eauto] |].
  destruct (get_or "language" (JStr "python") d) as [| b | n | f | lang | l | d'];
    try destruct (String.eqb lang "bash");
    cbn [pbind fst snd]; crawl;
    try (eexists; split; [reflexivity |]; split; [reflexivity | eauto]).
Qed.

(** Any other document makes [process_request] raise. *)
Lemma process_request_other (request : json) (tm : timings) :
  (forall d, request <> JObj d) ->
  all_results (fun rs => fst rs = Raise unbound_request_id) (process_request lib request tm).
Proof.
  intros Hother. expose.
  destruct request as [| b | n | f | s | l | d];
    try (exfalso; eapply Hother; reflexivity);
    intros t0 t1; reflexivity.
Qed.

Lemma handle_line_run (rt : runtime) (w : world rt) (raw : string) :
  let out := run rt (handle_line lib raw tt) w in
  result_of out = (Return tt, tt) /\
  if String.eqb (strip lib raw) "" then responses (trace_of out) = []
  else exists d, responses (trace_of out) = [d] /\ answers lib raw d.
Proof.
  unfold handle_line, answers.
  destruct (String.eqb (strip lib raw) "") eqn:Hblank; [by split |].
  unfold perf_counter, print. rewrite run_bind, run_perform. cbn [fst snd].
  destruct (answer rt PerfCounter w) as [t_recv w1]. cbn [fst snd].
  destruct (loads lib (strip lib raw)) as [request | e].
  - rewrite run_bind, run_perform. cbn [fst snd].
    destruct (answer rt PerfCounter w1) as [t_parse w2]. cbn [fst snd].
    rewrite run_bind, run_pbind.
    pose proof (absent_from_trace is_response rt _ w2 (process_request_quiet request []))
      as Hquiet.
    apply responses_quiet in Hquiet.
    assert (Hres : match request with
                   | JObj d =>
                       exists response,
                         fst (result_of (run rt (process_request lib request []) w2))
                           = Return response /\
                         id_of response = Some (get_or "id" (JStr "unknown") d) /\
                         exists b, success_of response = Some (JBool b)
                   | _ => fst (result_of (run rt (process_request lib request []) w2))
                            = Raise unbound_request_id
                   end).
    { destruct request as [| b | n | f | s | l | d];
        try (apply (all_results_run (fun rs => fst rs = Raise unbound_request_id) rt _ w2),
               process_request_other; discriminate).
      apply (all_results_run _ rt _ w2 (process_request_object d [])). }
    destruct (run rt (process_request lib request []) w2) as [[[r tm'] tr] w3].
    unfold result_of, trace_of in *. cbn [fst snd run] in *.
    destruct r as [response | e]; cbn [fst snd].
    + assert (Hemit : forall w0,
                let out := run rt ((_ <- perform PerfCounter (fun x => x) ;;
                                    _ <- perform PerfCounter (fun x => x) ;;
                                    perform (Stdout (Dumps response)) (fun x => x) ;;;
                                    _ <- perform PerfCounter (fun x => x) ;; ret tt) tt) w0 in
                out.1.1 = (Return tt, tt) /\ responses out.1.2 = [response]).
      { intros w0. simpl.
        repeat match goal with
               | |- context [answer rt ?c ?w'] => destruct (answer rt c w'); simpl
               end.
        by split. }
      specialize (Hemit w3). cbn zeta in Hemit.
      match goal with
      | |- context [run rt ?p w3] =>
          match type of Hemit with
          | context [run rt ?q w3] => change p with q
          end
      end.
      destruct (run rt _ w3) as [[rs tr3] w4]. cbn [fst snd] in *.
      destruct Hemit as [-> Hemit]. split; [reflexivity |]. exists response.
      rewrite !responses_app, Hquiet, Hemit. split; [reflexivity |].
      destruct request as [| b | n | f | s | l | d]; try discriminate Hres.
      destruct Hres as (response' & [= <-] & Hid & Hsucc). auto.
    + rewrite run_perform. destruct (answer rt (Stdout _) w3) as [[] w4]. cbn [fst snd].
      split; [reflexivity |].
      exists (JObj [("success", JBool false); ("error", JStr (exn_msg e))]).
      rewrite !responses_app, Hquiet. split; [reflexivity |].
      destruct request as [| b | n | f | s | l | d]; try reflexivity.
      destruct Hres as (response' & [=] & _).
  - destruct (exn_cls e); rewrite run_perform;
      destruct (answer rt (Stdout _) w1) as [[] w2]; cbn [fst snd];
      (split; [reflexivity |]); eexists; split; reflexivity.
Qed.


(** An exception of the iterator ends the loop: the lines before it have
    been answered, those after it are never read, and it leaves [main]. *)
Lemma main_stops_when_iterator_raises (rt : runtime) (w : world rt)
      (lines : list string) (e : exn) (rest : list (res string)) :
  let before := run rt (main lib (map Return lines) tt) w in
  run rt (main lib (map Return lines ++ Raise e :: rest) tt) w =
    ((Raise e, tt), trace_of before, world_of before).
Proof.
  revert w. induction lines as [| raw lines IH]; intros w; cbn [main map app].
  - reflexivity.
  - cbn zeta. rewrite !run_bind.
    pose proof (handle_line_run rt w raw) as [Hres _].
    destruct (run rt (handle_line lib raw tt) w) as [[rs tr] w1].
    unfold result_of in Hres. cbn [fst snd] in Hres. subst rs. cbn [fst snd].
    rewrite IH.
    by destruct (run rt (main lib (map Return lines) tt) w1) as [[rs2 tr2] w2].
Qed.

End WithLib.



(** A line that is not JSON, a blank line, an object without [code], a
    bash request and a Python request: four responses, in order, the first
    two unsuccessful, the first without an [id]. *)
Example four_lines_answered :
  let out := run (RefDocker.docker echo_hi)
                 (main (example_lib four_lines_decoded) (map Return four_lines) tt)
                 RefDocker.empty_engine in
  map id_of (responses (trace_of out)) =
    [None; Some (JInt 2); Some (JInt 3); Some (JInt 4)] /\
  map success_of (responses (trace_of out)) =
    [Some (JBool false); Some (JBool false); Some (JBool true); Some (JBool true)] /\
  map result_field (responses (trace_of out)) =
    [None; None; Some (JStr ("hi" ++ newline)); Some (JStr "No output")].
Proof. vm_compute. repeat split. Qed.

(** Two behaviours that the statement of C3 below leaves aside.  A line
    that the stream cannot decode ends the loop with the decoder's error:
    the request after it is never answered. *)
Example undecodable_line_ends_the_loop :
  let out := run (RefDocker.docker echo_hi)
                 (main (example_lib four_lines_decoded)
                       [Return line_no_code; Raise undecodable; Return line_bash] tt)
                 RefDocker.empty_engine in
  result_of out = (Raise undecodable, tt) /\
  map id_of (responses (trace_of out)) = [Some (JInt 2)].
Proof. vm_compute. by split. Qed.

(** And when the engine refuses to remove the image that a request built,
    [close] prints its diagnostics on standard output, ahead of the
    response. *)
Example diagnostics_precede_the_response :
  let out := run (RefDocker.docker image_kept)
                 (main (example_lib line_numpy_decoded) [Return line_numpy] tt)
                 RefDocker.empty_engine in
  map (fun l => match l with Text t => Some t | Dumps _ => None end)
      (stdout_lines (trace_of out)) =
    [Some "Attempt to remove image failed: refused";
     Some "Attempt to remove image failed: refused";
     Some "Attempt to remove image failed: refused";
     Some "Failed to remove temporary image after multiple attempts";
     None] /\
  map id_of (responses (trace_of out)) = [Some (JInt 5)].
Proof. vm_compute. by split. Qed.



(** ** The bash path *)

(** What holds of the bash path (persistent_worker.py, [execute_bash]
    lines 14-34 and [process_request] lines 51-77).  For a request whose
    language is bash and whose code is a non-blank string, the worker calls
    [subprocess.run] on the code with a timeout of 30 seconds and nothing
    else but the clock.  When that call ends with [TimeoutExpired],
    [execute_bash] yields return code 124 with the message
    "Bash execution timed out (30s)" as stderr, and the response has
    [success] false and that message as its [error].  When the command
    completes, [success] is true exactly when the return code is 0; the
    response then carries stdout as [result], and otherwise stderr (or
    "Bash exited with code N" when stderr is empty) as [error]. *)
Theorem bash_timeout_reported
    (lib : pylib) (d : list (string * json)) (code : string) (tm : timings)
    (partial : timeout_stdout) :
  get_or "code" JNull d = JStr code ->
  String.eqb (strip lib code) "" = false ->
  get_or "language" (JStr "python") d = JStr "bash" ->
  all_calls (fun c => c = PerfCounter \/ c = SubprocessRun code 30)
            (process_request lib (JObj d) tm) /\
  all_results_when (subprocess_ends (TimeoutExpired partial))
    (fun rs => fst rs = Return (partial_text lib partial, timeout_message, 124))
    (execute_bash lib code tm) /\
  all_results_when (subprocess_ends (TimeoutExpired partial))
    (fun rs => fst rs =
       Return (JObj [("id", get_or "id" (JStr "unknown") d);
                     ("success", JBool false);
                     ("error", JStr timeout_message);
                     ("stdout", JStr (partial_text lib partial));
                     ("stderr", JStr timeout_message);
                     ("timings", timings_json (snd rs))]))
    (process_request lib (JObj d) tm) /\
  (forall stdout stderr returncode,
     all_results_when (subprocess_ends (Completed stdout stderr returncode))
       (fun rs => exists response,
          fst rs = Return response /\
          id_of response = Some (get_or "id" (JStr "unknown") d) /\
          success_of response = Some (JBool (returncode =? 0)) /\
          if returncode =? 0 then result_field response = Some (JStr stdout)
          else error_of response =
                 Some (JStr (if String.eqb stderr ""
                             then "Bash exited with code " ++ pretty returncode
                             else stderr)))
       (process_request lib (JObj d) tm)).
Proof.
  intros Hcode Hblank Hlang.
  split; [| split; [| split]].
  - expose. rewrite Hcode, Hblank, Hlang. cbn [String.eqb Ascii.eqb Bool.eqb pbind fst snd].
    split; [by left |]. intros t0. split; [by left |]. intros t1.
    split; [by right |]. intros [stdout stderr rc | p | e]; cbn [pbind fst snd];
      (split; [by left |]); intros t2; (split; [by left |]); intros t3;
      try destruct (negb (rc =? 0)); exact I.
  - expose. intros x Hx. cbn in Hx. subst x. reflexivity.
  - expose. rewrite Hcode, Hblank, Hlang. cbn [String.eqb Ascii.eqb Bool.eqb pbind fst snd].
    intros t0 _ t1 _ x Hx. cbn in Hx. subst x. cbn [pbind fst snd].
    intros t2 _ t3 _. reflexivity.
  - intros stdout stderr rc.
    expose. rewrite Hcode, Hblank, Hlang. cbn [String.eqb Ascii.eqb Bool.eqb pbind fst snd].
    intros t0 _ t1 _ x Hx. cbn in Hx. subst x. cbn [pbind fst snd].
    intros t2 _ t3 _.
    destruct (rc =? 0); cbn [negb all_results_when];
      eexists; split; [reflexivity | | reflexivity |]; repeat split.
Qed.

Lemma bash_timeout_reported_witness :
  all_results_when (subprocess_ends (TimeoutExpired NoPartial))
    (fun rs => fst rs =
       Return (JObj [("id", JInt 7);
                     ("success", JBool false);
                     ("error", JStr "Bash execution timed out (30s)");
                     ("stdout", JStr "");
                     ("stderr", JStr "Bash execution timed out (30s)");
                     ("timings", timings_json (snd rs))]))
    (process_request (example_lib []) (JObj sleep_request) []).
Proof.
  apply (bash_timeout_reported (example_lib []) sleep_request "sleep 60" [] NoPartial).
  - reflexivity.
  - reflexivity.
  - reflexivity.
Defined.

(** The same request run on the reference runtime. *)
Example bash_timeout_run :
  let out := run (RefDocker.docker never_ends)
                 (process_request (example_lib []) (JObj sleep_request) [])
                 RefDocker.empty_engine in
  fst (result_of out) =
    Return (JObj [("id", JInt 7);
                  ("success", JBool false);
                  ("error", JStr "Bash execution timed out (30s)");
                  ("stdout", JStr "");
                  ("stderr", JStr "Bash execution timed out (30s)");
                  ("timings", JObj [("code_exec_ms", JInt 1); ("total_ms", JInt 3)])]) /\
  trace_of out = [PerfCounter; PerfCounter; SubprocessRun "sleep 60" 30;
                  PerfCounter; PerfCounter].
Proof. vm_compute. split; reflexivity. Qed.


End WorkerFacts.


(** * Facts about counting calls *)
Module MeasureFacts.
Import Measures.

Lemma count_calls_app f (tr1 tr2 : list call) :
  count_calls f (tr1 ++ tr2) = (count_calls f tr1 + count_calls f tr2)%nat.
Proof. unfold count_calls. by rewrite List.filter_app, length_app. Qed.

Lemma at_most_run {R : Type} f n (rt : runtime) (p : prog R) w :
  at_most f n p -> (count_calls f (trace_of (run rt p w)) <= n)%nat.
Proof.
  revert n w. induction p as [r | c k IH]; intros n w Hp.
  - unfold count_calls. simpl. lia.
  - cbn [at_most] in Hp. cbn [run]. destruct (answer rt c w) as [x w1].
    destruct (f c) eqn:Hc.
    + destruct n as [| n]; [done |].
      specialize (IH x n w1 (Hp x)).
      destruct (run rt (k x) w1) as [[r tr] w2].
      unfold trace_of, count_calls in *. simpl in *. rewrite Hc. simpl. lia.
    + specialize (IH x n w1 (Hp x)).
      destruct (run rt (k x) w1) as [[r tr] w2].
      unfold trace_of, count_calls in *. simpl in *. by rewrite Hc.
Qed.

Lemma at_most_mono {R : Type} f n m (p : prog R) :
  (n <= m)%nat -> at_most f n p -> at_most f m p.
Proof.
  revert n m. induction p as [r | c k IH]; intros n m Hle; simpl; [done |].
  destruct (f c).
  - destruct n as [| n]; [done |]. destruct m as [| m]; [lia |].
    intros Hk x. apply (IH x n m); [lia | apply Hk].
  - intros Hk x. apply (IH x n m); [lia | apply Hk].
Qed.

Lemma at_most_pbind {A B : Type} f n m (p : prog A) (g : A -> prog B) :
  at_most f n p -> (forall a, at_most f m (g a)) -> at_most f (n + m) (pbind p g).
Proof.
  intros Hp Hg. revert n Hp. induction p as [a | c k IH]; intros n Hp; simpl in *.
  - apply (at_most_mono f m); [lia | apply Hg].
  - destruct (f c).
    + destruct n as [| n]; [done |]. simpl. intros x. apply IH, Hp.
    + intros x. apply IH, Hp.
Qed.

Lemma at_most_bind {S A B : Type} f n m (p : M S A) (g : A -> M S B) s :
  at_most f n (p s) -> (forall a s', at_most f m (g a s')) ->
  at_most f (n + m) (bind p g s).
Proof.
  intros Hp Hg. unfold bind. apply at_most_pbind; [exact Hp |].
  intros [[a | e] s']; simpl; [apply Hg | exact I].
Qed.

Lemma at_most_none {R : Type} f n (p : prog R) :
  all_calls (fun c => f c = false) p -> at_most f n p.
Proof.
  induction p as [r | c k IH]; simpl; [done |].
  intros [-> Hk] x. apply IH, Hk.
Qed.

Lemma slept_app (tr1 tr2 : list call) : slept (tr1 ++ tr2) = slept tr1 + slept tr2.
Proof.
  induction tr1 as [| c tr1 IH]; [reflexivity |].
  destruct c; simpl; rewrite ?IH; lia.
Qed.

Lemma at_most_try_except {S A : Type} f n m (p : M S A) (h : exn -> M S A) s :
  at_most f n (p s) -> (forall e s', at_most f m (h e s')) ->
  at_most f (n + m) (try_except p h s).
Proof.
  intros Hp Hh. unfold try_except. apply at_most_pbind; [exact Hp |].
  intros [[a | e] s']; simpl; [exact I | apply Hh].
Qed.

Lemma at_most_try_finally {S A : Type} f n m (p : M S A) (g : M S unit) s :
  at_most f n (p s) -> (forall s', at_most f m (g s')) ->
  at_most f (n + m) (try_finally p g s).
Proof.
  intros Hp Hg. unfold try_finally. apply at_most_pbind; [exact Hp |].
  intros [r s']. replace m with (m + 0)%nat by lia.
  apply at_most_pbind; [apply Hg |]. intros [[[] | e] s'']; exact I.
Qed.

(** When every sleep lasts [d], the time slept is [d] per sleep. *)
Lemma slept_bound (d : Z) (tr : list call) :
  Forall (fun c => match c with Sleep ms => ms = d | _ => True end) tr ->
  slept tr = d * Z.of_nat (count_calls is_sleep tr).
Proof.
  unfold count_calls. induction 1 as [| c tr Hc _ IH]; [simpl; lia |].
  destruct c; simpl in *; try exact IH. subst. lia.
Qed.

Lemma all_calls_pbind_with {A B : Type} (P : call -> Prop) (Q : A -> Prop)
      (p : prog A) (f : A -> prog B) :
  all_calls P p -> all_results Q p -> (forall a, Q a -> all_calls P (f a)) ->
  all_calls P (pbind p f).
Proof.
  intros Hp Hq Hf. induction p as [a | c k IH]; simpl in *.
  - by apply Hf.
  - destruct Hp as [Hc Hk]. split; [exact Hc |]. intros x. apply IH; auto.
Qed.

End MeasureFacts.


(** * Further facts about container_pool.py *)
Module PoolExtra.
Import Pool PoolFacts Measures MeasureFacts.

(** X1 (container_pool.py, [acquire] lines 38-48).  With a timeout that is
    zero or negative the loop body never runs: [acquire] raises at once,
    without waiting and without marking anything, even when members are
    free. *)
Theorem acquire_nonpositive_timeout (timeout : Z) (p : ContainerPool) (now : Z) :
  timeout <= 0 ->
  acquire timeout p now = Some (Raise exhausted, p, now).
Proof.
  intros Ht. unfold acquire, rounds. cbn [acquire_loop].
  rewrite decide_False by lia. reflexivity.
Qed.

Lemma acquire_nonpositive_timeout_witness :
  acquire 0 two_members 5 = Some (Raise exhausted, two_members, 5).
Proof. apply acquire_nonpositive_timeout. lia. Defined.

(** X2 (container_pool.py, [acquire] lines 38-48).  With a positive
    timeout, [acquire] hands out a member exactly when one is free, and then
    it is the first free one in list order: every member before it is in
    use, it was not, and afterwards the in-use set is the old one plus its
    id, the member list is untouched and no time has passed.  It raises
    exactly when every member is in use, after the timeout has elapsed. *)
Theorem acquire_first_free (timeout : Z) (p : ContainerPool) (now : Z) :
  0 < timeout ->
  (forall c p' now',
     acquire timeout p now = Some (Return c, p', now') ->
     exists before after,
       containers p = (before ++ c :: after)%list /\
       (forall d, d ∈ before -> cid d ∈ in_use p) /\
       (cid c ∉ in_use p) /\
       in_use p' = {[cid c]} ∪ in_use p /\
       containers p' = containers p /\
       now' = now) /\
  (forall e p' now',
     acquire timeout p now = Some (Raise e, p', now') ->
     e = exhausted /\ p' = p /\ timeout <= now' - now /\
     forall d, d ∈ containers p -> cid d ∈ in_use p) /\
  ((exists d, d ∈ containers p /\ cid d ∉ in_use p) ->
   exists c p', acquire timeout p now = Some (Return c, p', now)).
Proof.
  intros Ht.
  assert (Hsplit : forall cs used c,
            first_free cs used = Some c ->
            exists before after, cs = (before ++ c :: after)%list /\
                                 forall d, d ∈ before -> cid d ∈ used).
  { induction cs as [| c0 cs IH]; intros used c; cbn [first_free]; [discriminate |].
    destruct (decide (cid c0 ∈ used)) as [Hin | Hout].
    - intros H. destruct (IH _ _ H) as (before & after & -> & Hb).
      exists (c0 :: before), after. split; [reflexivity |].
      intros d Hd. apply elem_of_cons in Hd as [-> | Hd]; auto.
    - intros [= <-]. exists [], cs. split; [reflexivity |].
      intros d Hd. inversion Hd. }
  destruct (first_free (containers p) (in_use p)) as [c0 |] eqn:Hff.
  - rewrite (acquire_free _ _ _ _ Ht Hff).
    split; [| split].
    + intros c p' now' [= <- <- <-].
      destruct (Hsplit _ _ _ Hff) as (before & after & Hcs & Hb).
      exists before, after. repeat split; auto.
      by apply first_free_Some in Hff as [_ ?].
    + intros e p' now' [=].
    + intros _. eauto.
  - destruct (acquire_exhausted timeout p now Hff) as (t' & Hrun & Hdead & _).
    rewrite Hrun. split; [| split].
    + intros c p' now' [=].
    + intros e p' now' [= <- <- <-]. repeat split; auto.
      by apply first_free_None.
    + intros (d & Hd & Hfree). exfalso. apply Hfree.
      by apply (proj1 (first_free_None _ _) Hff).
Qed.

Lemma acquire_first_free_witness :
  exists c p', acquire 30000 two_members 0 = Some (Return c, p', 0).
Proof.
  apply (acquire_first_free 30000 two_members 0); [lia |].
  exists (MkContainer "c1" "sandbox_pool_0abcdefa"). split.
  - by left.
  - simpl. apply not_elem_of_empty.
Defined.

(** X3 (container_pool.py, [acquire] lines 38-48 and [release] lines
    50-52).  Releasing the member that [acquire] has just handed out puts
    the pool back exactly as it was. *)
Theorem acquire_then_release (timeout : Z) (p p' : ContainerPool) (now now' : Z)
    (c : Container) :
  acquire timeout p now = Some (Return c, p', now') ->
  release p' c = p.
Proof.
  intros Hacq.
  destruct (Z_lt_le_dec 0 timeout) as [Ht | Ht].
  - destruct (first_free (containers p) (in_use p)) as [c0 |] eqn:Hff.
    + rewrite (acquire_free _ _ _ _ Ht Hff) in Hacq. injection Hacq as <- <- <-.
      apply first_free_Some in Hff as [_ Hfree].
      unfold release, set_in_use. destruct p as [n i cs u]. simpl in *.
      f_equal. set_solver.
    + destruct (acquire_exhausted timeout p now Hff) as (t' & Hrun & _).
      rewrite Hrun in Hacq. discriminate.
  - rewrite (acquire_nonpositive_timeout _ _ _ Ht) in Hacq. discriminate.
Qed.

Lemma acquire_then_release_witness :
  release (handed_out 1 two_members) (MkContainer "c1" "sandbox_pool_0abcdefa")
  = two_members.
Proof.
  apply (acquire_then_release 30000 two_members (handed_out 1 two_members) 0 0).
  vm_compute. reflexivity.
Defined.

Lemma size_ids_le (l : list string) :
  (size (list_to_set l : gset string) <= length l)%nat.
Proof.
  induction l as [| x l IH]; [done |]. cbn [list_to_set length].
  destruct (decide (x ∈@{gset string} list_to_set l)) as [Hin | Hout].
  - replace ({[x]} ∪ list_to_set l : gset string) with (list_to_set l : gset string)
      by set_solver. lia.
  - rewrite size_union by set_solver. rewrite size_singleton. lia.
Qed.

(** X4 (container_pool.py, [acquire] lines 38-48, [release] lines 50-52,
    [get_pool] lines 66-70).  If the in-use set holds only ids of members,
    it still does after any sequence of [get_pool], [acquire] and [release]
    operations on the process-wide pool, also when handles that do not
    belong to the pool are released; so it never holds more ids than there
    are members, and the member list never changes. *)
Theorem in_use_within_members (rt : runtime) (w : world rt) (p : ContainerPool)
    (now : Z) (ops : list op) :
  in_use p ⊆ member_ids p ->
  exists q now' w',
    fold_left (step rt) ops (Some p, now, w) = (Some q, now', w') /\
    containers q = containers p /\
    in_use q ⊆ member_ids q /\
    (size (in_use q) <= length (containers q))%nat.
Proof.
  intros Hinv.
  cut (exists q now' w',
         fold_left (step rt) ops (Some p, now, w) = (Some q, now', w') /\
         containers q = containers p /\ in_use q ⊆ member_ids q).
  { intros (q & now' & w' & Hrun & Hcs & Hq). exists q, now', w'.
    repeat split; auto.
    etrans; [apply subseteq_size, Hq |].
    unfold member_ids. etrans; [apply size_ids_le |].
    by rewrite length_fmap. }
  revert p now w Hinv. induction ops as [| o ops IH]; intros p now w Hinv.
  - exists p, now, w. auto.
  - cbn [fold_left].
    assert (Hstep : exists q t' w',
              step rt (Some p, now, w) o = (Some q, t', w') /\
              containers q = containers p /\ in_use q ⊆ member_ids q).
    { destruct o as [n | t | c]; simpl.
      - exists p, now, w. auto.
      - destruct (acquire t p now) as [[[r p'] t'] |] eqn:Ha; [| exists p, now, w; auto].
        exists p', t', w. split; [reflexivity |].
        destruct (acquire_keeps_fields _ _ _ _ _ _ Ha) as (_ & _ & Hcs).
        split; [exact Hcs |].
        destruct r as [c | e].
        + destruct (Z_lt_le_dec 0 t) as [Ht | Ht];
            [| rewrite (acquire_nonpositive_timeout _ _ _ Ht) in Ha; discriminate].
          destruct (first_free (containers p) (in_use p)) as [c0 |] eqn:Hff.
          * rewrite (acquire_free _ _ _ _ Ht Hff) in Ha. injection Ha as <- <- <-.
            apply first_free_Some in Hff as [Hmem _].
            unfold member_ids in *. simpl.
            assert (cid c0 ∈@{gset string} list_to_set (cid <$> containers p))
              by (apply elem_of_list_to_set; by apply list_elem_of_fmap_2).
            set_solver.
          * destruct (acquire_exhausted t p now Hff) as (t'' & Hrun & _).
            rewrite Hrun in Ha. discriminate.
        + assert (p' = p) as ->; [| exact Hinv].
          destruct (Z_lt_le_dec 0 t) as [Ht | Ht];
            [| rewrite (acquire_nonpositive_timeout _ _ _ Ht) in Ha; congruence].
          destruct (first_free (containers p) (in_use p)) as [c0 |] eqn:Hff.
          * rewrite (acquire_free _ _ _ _ Ht Hff) in Ha. discriminate.
          * destruct (acquire_exhausted t p now Hff) as (t'' & Hrun & _).
            rewrite Hrun in Ha. congruence.
      - exists (release p c), now, w. split; [reflexivity |]. split; [reflexivity |].
        unfold member_ids in *. simpl. set_solver. }
    destruct Hstep as (q & t' & w' & -> & Hcs & Hq).
    destruct (IH q t' w' Hq) as (q' & t'' & w'' & Hrun & Hcs' & Hq').
    exists q', t'', w''. split; [exact Hrun |]. split; [congruence | exact Hq'].
Qed.

Lemma in_use_within_members_witness :
  exists q now' w',
    fold_left (step (RefDocker.docker RefDocker.reliable))
              [OpAcquire 30000; OpRelease (MkContainer "stranger" "x"); OpGetPool 9;
               OpAcquire 30000; OpAcquire 30000]
              (Some two_members, 0, RefDocker.empty_engine) = (Some q, now', w') /\
    containers q = containers two_members /\
    in_use q ⊆ member_ids q /\
    (size (in_use q) <= length (containers q))%nat.
Proof.
  apply (in_use_within_members (RefDocker.docker RefDocker.reliable)).
  simpl. apply empty_subseteq.
Defined.

(** One member of [cleanup]: the stop is always attempted; the removal
    only after the stop came back. *)
Lemma cleanup_member_run (rt : runtime) (w : world rt) (c : Container) (p : ContainerPool) :
  let out := run rt (try_except (container_stop c None ;;; container_remove c false)
                                (fun _ => ret tt) p) w in
  result_of out = (Return tt, p) /\
  (trace_of out = [ContainerStop c None] /\
   (exists e, fst (answer rt (ContainerStop c None) w) = Raise e) \/
   trace_of out = [ContainerStop c None; ContainerRemove c false] /\
   fst (answer rt (ContainerStop c None) w) = Return tt).
Proof.
  unfold try_except, bind, container_stop, container_remove, invoke, ret. simpl.
  destruct (answer rt (ContainerStop c None) w) as [[[] | e] w1]; simpl.
  - destruct (answer rt (ContainerRemove c false) w1) as [[[] | e] w2]; simpl;
      (split; [reflexivity |]); right; by split.
  - split; [reflexivity |]. left. split; [reflexivity | eauto].
Qed.

(** X5 (container_pool.py, [cleanup] lines 54-61).  Whatever the runtime
    answers, [cleanup] never raises and tries to stop every member, in list
    order, also after earlier members failed; it tries to remove a member
    only when stopping it succeeded; and it leaves the pool object as it
    was, member list and in-use set included. *)
Theorem cleanup_stops_every_member (rt : runtime) (w : world rt) (p : ContainerPool) :
  let out := run rt (cleanup p) w in
  result_of out = (Return tt, p) /\
  List.filter Sandbox.is_stop (trace_of out) =
    map (fun c => ContainerStop c None) (containers p) /\
  sublist (List.filter Sandbox.is_remove (trace_of out))
          (map (fun c => ContainerRemove c false) (containers p)) /\
  count_calls is_docker (trace_of out) = length (trace_of out).
Proof.
  unfold cleanup, bind, get. cbn [pbind fst snd].
  generalize (containers p) as cs. intros cs. revert w.
  induction cs as [| c cs IH]; intros w; cbn [cleanup_members].
  - cbn. repeat split. constructor.
  - cbn zeta. rewrite run_bind.
    pose proof (cleanup_member_run rt w c p) as Hone. cbn zeta in Hone.
    destruct (run rt (try_except _ _ p) w) as [[rs tr] w1].
    unfold result_of, trace_of in Hone. cbn [fst snd] in Hone.
    destruct Hone as [-> Htr]. cbn [fst snd].
    specialize (IH w1). cbn zeta in IH.
    destruct (run rt (cleanup_members cs p) w1) as [[rs2 tr2] w2].
    unfold result_of, trace_of in *. cbn [fst snd] in *.
    destruct IH as (-> & Hstops & Hrem & Hcount).
    split; [reflexivity |].
    rewrite !List.filter_app, count_calls_app, length_app, Hstops, Hcount.
    destruct Htr as [[-> _] | [-> _]]; cbn; repeat split; try (f_equal; lia).
    + by apply sublist_cons.
    + by apply sublist_skip.
Qed.

(** X6 (container_pool.py, [get_pool] lines 66-70 and [__init__] lines
    9-15).  The only way a first [get_pool] can fail is that
    [docker.from_env()] raises; nothing else has been called by then, the
    module-level pool stays unset, and so the next call builds a pool with
    its own [pool_size]. *)
Theorem get_pool_failure_leaves_unset
    (rt : runtime) (w w1 : world rt) (n : Z) (e : exn)
    (g : option ContainerPool) (tr : list call) :
  run rt (get_pool n None) w = ((Raise e, g), tr, w1) ->
  g = None /\ tr = [FromEnv] /\ answer rt FromEnv w = (Raise e, w1) /\
  forall m, get_pool m g = get_pool m None.
Proof.
  change (get_pool n None) with
    (pbind (__init__ n "python:3.9-slim") (fun r =>
       match r with
       | Return p => Ret (Return p, Some p)
       | Raise e => Ret (Raise e, @None ContainerPool)
       end)).
  rewrite run_pbind. unfold __init__, from_env, invoke. cbn [pbind run fst snd].
  destruct (answer rt FromEnv w) as [[[] | e0] w0]; cbn [pbind run fst snd].
  - rewrite run_pbind.
    pose proof (all_results_run _ rt _ w0
                  (repeat_create_in_use (Z.to_nat n)
                     (MkPool n "python:3.9-slim" [] ∅))) as Hret.
    unfold _init_pool, bind at 1, get. cbn [pbind fst snd].
    destruct (run rt _ w0) as [[[r p] tr0] w2].
    unfold result_of in Hret. cbn [fst snd] in Hret. destruct Hret as [-> _].
    cbn. discriminate.
  - intros [= <- <- <- <-]. auto.
Qed.

Lemma get_pool_failure_leaves_unset_witness :
  run (RefDocker.docker no_daemon) (get_pool 2 None) RefDocker.empty_engine
  = ((Raise (RefDocker.api_error "refused"), None), [FromEnv], RefDocker.empty_engine).
Proof.
  destruct (get_pool_failure_leaves_unset
              (RefDocker.docker no_daemon) RefDocker.empty_engine RefDocker.empty_engine
              2 (RefDocker.api_error "refused") None [FromEnv]) as (_ & _ & _ & _).
  - vm_compute. reflexivity.
  - vm_compute. reflexivity.
Defined.

Lemma create_member_run (rt : runtime) (w : world rt) (p : ContainerPool) :
  let out := run rt (create_member p) w in
  fst (result_of out) = Return tt /\
  count_calls is_run (trace_of out) = 1%nat /\
  image_name (snd (result_of out)) = image_name p /\
  pool_size (snd (result_of out)) = pool_size p.
Proof.
  unfold create_member, try_except, bind, get, uuid4_hex, containers_run, modify,
    perform, invoke, ret. simpl.
  destruct (answer rt Uuid4Hex w) as [u w1]. simpl.
  destruct (answer rt (ContainersRun _) w1) as [[c | e] w2]; simpl; auto.
Qed.

Lemma repeat_create_run (rt : runtime) (k : nat) (w : world rt) (p : ContainerPool) :
  let out := run rt (repeat_m k create_member p) w in
  fst (result_of out) = Return tt /\
  count_calls is_run (trace_of out) = k /\
  pool_size (snd (result_of out)) = pool_size p.
Proof.
  revert w p. induction k as [| k IH]; intros w p; cbn [repeat_m]; [by cbn |].
  cbn zeta. rewrite run_bind.
  pose proof (create_member_run rt w p) as Hone. cbn zeta in Hone.
  destruct (run rt (create_member p) w) as [[[r p1] tr1] w1].
  unfold result_of, trace_of in Hone. cbn [fst snd] in Hone.
  destruct Hone as (-> & Hc1 & _ & Hs1). cbn [fst snd].
  specialize (IH w1 p1). cbn zeta in IH.
  destruct (run rt (repeat_m k create_member p1) w1) as [[[r2 p2] tr2] w2].
  unfold result_of, trace_of in *. cbn [fst snd] in *.
  destruct IH as (-> & Hc2 & Hs2).
  rewrite count_calls_app, Hc1, Hc2.
  split; [reflexivity |]. split; [lia | congruence].
Qed.

Lemma repeat_create_warm (k : nat) (p : ContainerPool) :
  all_calls (warm_creation (image_name p)) (repeat_m k create_member p).
Proof.
  revert p. induction k as [| k IH]; intros p; cbn [repeat_m]; [exact I |].
  unfold bind at 1.
  apply (all_calls_pbind_with _ (fun rs => image_name (snd rs) = image_name p)).
  - unfold create_member, try_except, bind, get, uuid4_hex, containers_run, modify,
      perform, invoke, ret. simpl.
    split; [exact I |]. intros u. split; [by exists u |]. intros [c | e]; exact I.
  - unfold create_member, try_except, bind, get, uuid4_hex, containers_run, modify,
      perform, invoke, ret. simpl.
    intros u [c | e]; reflexivity.
  - intros [[[] | e] p1] Himg; simpl in *; [| exact I].
    rewrite <- Himg. apply IH.
Qed.

(** X7 (container_pool.py, [__init__] and [_init_pool] lines 9-36).
    Whatever the runtime answers, the constructor issues nothing but
    [docker.from_env()], uuid draws and runs of containers on the pool's
    image, each named [sandbox_pool_] plus eight characters and configured
    with no network, 100m of memory, CPU quota 50000 of 100000 and removal
    on exit.  If [from_env] succeeds the constructor returns a pool, having
    attempted exactly [pool_size] creations (none for a size of zero or
    less); creations that fail are skipped, so the pool may hold fewer
    members than the size it records.  If [from_env] raises, that error is
    the outcome and nothing else was called. *)
Theorem pool_constructor_creates (rt : runtime) (w : world rt) (n : Z) (image : string) :
  let out := run rt (__init__ n image) w in
  all_calls (warm_creation image) (__init__ n image) /\
  match fst (answer rt FromEnv w) with
  | Return _ =>
      exists p, result_of out = Return p /\
                count_calls is_run (trace_of out) = Z.to_nat n /\
                (length (containers p) <= Z.to_nat n)%nat /\
                pool_size p = n /\ in_use p = ∅
  | Raise e => result_of out = Raise e /\ trace_of out = [FromEnv]
  end.
Proof.
  cbn zeta. split.
  - unfold __init__, from_env, invoke. cbn [pbind all_calls fst snd].
    split; [exact I |]. intros [[] | e]; cbn [pbind fst snd]; [| exact I].
    apply all_calls_pbind; [| intros; exact I].
    unfold _init_pool, bind at 1, get. cbn [pbind fst snd].
    apply (repeat_create_warm (Z.to_nat n) (MkPool n image [] ∅)).
  - pose proof (all_results_run _ rt _ w (init_fresh n image)) as Hfresh.
    revert Hfresh.
    unfold __init__, from_env, invoke. cbn [pbind run fst snd].
    change (_init_pool (MkPool n image [] ∅))
      with (repeat_m (Z.to_nat n) create_member (MkPool n image [] ∅)).
    destruct (answer rt FromEnv w) as [[[] | e] w0]; cbn [pbind run fst snd];
      [| by split].
    rewrite run_pbind.
    pose proof (repeat_create_run rt (Z.to_nat n) w0 (MkPool n image [] ∅)) as Hrun.
    cbn zeta in Hrun.
    destruct (run rt (repeat_m _ create_member _) w0) as [[[r p] tr] w1].
    unfold result_of, trace_of in *. cbn [fst snd run] in *.
    destruct Hrun as (-> & Hcount & _). intros (Hu & Hs & _ & Hlen).
    exists p. rewrite app_nil_r. repeat split; auto.
Qed.

End PoolExtra.


(** * Further facts about sandbox.py *)
Module SandboxExtra.
Import Shell Sandbox SandboxFacts Measures MeasureFacts.

(** X8 (sandbox.py, [_setup_sandbox] lines 53-69).  A default setup that
    finds the persistent container running attaches to it with one lookup
    and one status check: nothing is started, built, created or removed, and
    the sandbox owns no image. *)
Theorem reuse_running_persistent
    (rt : runtime) (w w1 w2 : world rt) (a : setup_args) (s : AICodeSandbox)
    (c : Container) :
  custom_image a = None -> packages a = None ->
  answer rt (ContainersGet persistent_name) w = (Return c, w1) ->
  answer rt (ContainerReload c) w1 = (Return "running", w2) ->
  run rt (_setup_sandbox a s) w =
    ((Return tt, MkSandbox (Some c) (temp_image s)),
     [ContainersGet persistent_name; ContainerReload c], w2).
Proof.
  intros Hi Hp Hget Hreload.
  unfold _setup_sandbox. rewrite Hi, Hp.
  unfold try_persistent, attach_persistent, try_except, bind, containers_get,
    container_reload, modify, invoke, ret.
  cbn [pbind run fst snd]. rewrite Hget. cbn [pbind run fst snd].
  rewrite Hreload. reflexivity.
Qed.

Lemma reuse_running_persistent_witness :
  run (RefDocker.docker RefDocker.reliable)
      (_setup_sandbox (default_args None None) (MkSandbox None None))
      (engine_with "running") =
    ((Return tt, MkSandbox (Some persistent_handle) None),
     [ContainersGet persistent_name; ContainerReload persistent_handle],
     engine_with "running").
Proof.
  apply (reuse_running_persistent (RefDocker.docker RefDocker.reliable)
           (engine_with "running") (engine_with "running") (engine_with "running")
           (default_args None None) (MkSandbox None None) persistent_handle);
    reflexivity.
Defined.

(** X9 (sandbox.py, [_setup_sandbox] lines 53-69).  A default setup that
    finds the persistent container in another state starts it; if the next
    status check shows it running, the sandbox is attached to it without any
    waiting and without creating anything. *)
Theorem start_stopped_persistent
    (rt : runtime) (w w1 w2 w3 w4 : world rt) (a : setup_args) (s : AICodeSandbox)
    (c : Container) (status : string) :
  custom_image a = None -> packages a = None ->
  status <> "running" ->
  answer rt (ContainersGet persistent_name) w = (Return c, w1) ->
  answer rt (ContainerReload c) w1 = (Return status, w2) ->
  answer rt (ContainerStart c) w2 = (Return tt, w3) ->
  answer rt (ContainerReload c) w3 = (Return "running", w4) ->
  run rt (_setup_sandbox a s) w =
    ((Return tt, MkSandbox (Some c) (temp_image s)),
     [ContainersGet persistent_name; ContainerReload c; ContainerStart c;
      ContainerReload c], w4).
Proof.
  intros Hi Hp Hst Hget Hreload Hstart Hagain.
  assert (Hnot : is_running status = false).
  { unfold is_running. by apply String.eqb_neq. }
  unfold _setup_sandbox. rewrite Hi, Hp.
  unfold try_persistent, attach_persistent, try_except, bind, containers_get,
    container_reload, container_start, modify, invoke, ret.
  cbn [pbind run fst snd]. rewrite Hget. cbn [pbind run fst snd].
  rewrite Hreload. cbn [pbind run fst snd]. rewrite Hnot.
  cbn [pbind run fst snd]. rewrite Hstart. cbn [pbind run fst snd wait_running].
  unfold bind, container_reload, invoke. cbn [pbind run fst snd].
  rewrite Hagain. reflexivity.
Qed.

Lemma start_stopped_persistent_witness :
  fst (result_of (run (RefDocker.docker RefDocker.reliable)
                      (_setup_sandbox (default_args None None) (MkSandbox None None))
                      (engine_with "exited")))
  = Return tt.
Proof.
  rewrite (start_stopped_persistent (RefDocker.docker RefDocker.reliable)
             (engine_with "exited") (engine_with "exited") (engine_with "exited")
             (engine_with "running") (engine_with "running")
             (default_args None None) (MkSandbox None None) persistent_handle "exited");
    [reflexivity | reflexivity | reflexivity | discriminate
     | reflexivity | reflexivity | reflexivity | reflexivity].
Defined.

Lemma wait_running_reloads n c last (s : AICodeSandbox) :
  at_most is_reload n (wait_running n c last s) /\
  at_most is_sleep n (wait_running n c last s).
Proof.
  revert last s. induction n as [| n IH]; intros last s; cbn [wait_running];
    [by split |].
  unfold bind, container_reload, sleep, invoke, perform, ret.
  cbn [pbind at_most is_reload is_sleep fst snd].
  split; intros [st | e]; cbn [pbind at_most is_reload is_sleep fst snd]; try exact I;
    destruct (is_running st); cbn [pbind at_most is_reload is_sleep fst snd];
    try exact I; try intros []; apply IH.
Qed.

Lemma attach_bounds (s : AICodeSandbox) :
  at_most is_reload 11 (attach_persistent s) /\
  at_most is_sleep 10 (attach_persistent s).
Proof.
  unfold attach_persistent, bind, containers_get, container_reload, container_start,
    modify, invoke, ret, raise.
  cbn [pbind at_most is_reload is_sleep fst snd].
  split; intros [c | e]; cbn [pbind at_most is_reload is_sleep fst snd]; try exact I;
    intros [st | e]; cbn [pbind at_most is_reload is_sleep fst snd]; try exact I;
    destruct (is_running st); cbn [pbind at_most is_reload is_sleep fst snd];
    try exact I;
    intros [[] | e]; cbn [pbind at_most is_reload is_sleep fst snd]; try exact I.
  - replace 10%nat with (10 + 0)%nat by lia.
    apply at_most_pbind; [apply wait_running_reloads |].
    intros [[st' | e] s']; cbn; try exact I. by destruct (is_running st').
  - replace 10%nat with (10 + 0)%nat by lia.
    apply at_most_pbind; [apply wait_running_reloads |].
    intros [[st' | e] s']; cbn; try exact I. by destruct (is_running st').
Qed.

Lemma attach_sleeps_half_second (s : AICodeSandbox) :
  all_calls (fun c => match c with Sleep ms => ms = 500 | _ => True end)
            (attach_persistent s).
Proof.
  unfold attach_persistent.
  unfold containers_get, container_reload, container_start, sleep, modify, ret, raise.
  calls.
Qed.

Lemma setup_rest_quiet f a pk (s : AICodeSandbox) :
  (forall d, f (ImagesBuild d) = false) -> f Uuid4Hex = false ->
  (forall ra, f (ContainersRun ra) = false) ->
  all_calls (fun c => f c = false) (build_and_run a pk s).
Proof. intros. by apply build_and_run_calls. Qed.

Lemma build_and_run_once a pk (s : AICodeSandbox) :
  at_most is_run 1 (build_and_run a pk s) /\ at_most is_build 1 (build_and_run a pk s).
Proof.
  unfold build_and_run, bind, images_build, uuid4_hex, containers_run, modify,
    invoke, perform, ret.
  destruct pk as [[| p ps] |]; destruct (is_default_setup (custom_image a) _);
    cbn [pbind at_most is_run is_build fst snd]; split;
    repeat (intros [? | ?] || intros ?; cbn [pbind at_most is_run is_build fst snd]);
    exact I.
Qed.

(** X10 (sandbox.py, [_setup_sandbox] lines 44-106).  Whatever the runtime
    answers, one setup checks the status of the persistent container at most
    11 times and sleeps at most 10 times, half a second each, so it waits
    at most 5 seconds for the container to start; and it builds at most one
    image and runs at most one container. *)
Theorem setup_bounds (rt : runtime) (w : world rt) (a : setup_args) (s : AICodeSandbox) :
  let tr := trace_of (run rt (_setup_sandbox a s) w) in
  (count_calls is_reload tr <= 11)%nat /\
  (count_calls is_sleep tr <= 10)%nat /\
  slept tr <= 5000 /\
  (count_calls is_build tr <= 1)%nat /\
  (count_calls is_run tr <= 1)%nat.
Proof.
  cbn zeta.
  assert (Hquiet : forall f pk s',
            (forall d, f (ImagesBuild d) = false) -> f Uuid4Hex = false ->
            (forall ra, f (ContainersRun ra) = false) ->
            forall n, at_most f n (build_and_run a pk s')).
  { intros. by apply at_most_none, setup_rest_quiet. }
  assert (Hbroken : forall f s',
            f (ContainersGet persistent_name) = false ->
            (forall c b, f (ContainerRemove c b) = false) ->
            at_most f 0 (remove_broken s')).
  { intros f s' Hg Hr. apply at_most_none.
    unfold remove_broken, containers_get, container_remove, ret. calls; cbn; auto. }
  assert (Hpoll : forall f n,
            at_most f n (attach_persistent s) ->
            (forall d, f (ImagesBuild d) = false) -> f Uuid4Hex = false ->
            (forall ra, f (ContainersRun ra) = false) ->
            f (ContainersGet persistent_name) = false ->
            (forall c b, f (ContainerRemove c b) = false) ->
            at_most f n (_setup_sandbox a s)).
  { intros f n Hattach Hb Hu Hr Hg Hrm. unfold _setup_sandbox.
    destruct (custom_image a); [by apply Hquiet |].
    destruct (packages a); [by apply Hquiet |].
    replace n with ((n + 0 + 0) + 0)%nat by lia.
    apply at_most_bind.
    - unfold try_persistent. apply at_most_try_except.
      + apply at_most_bind; [exact Hattach | intros; exact I].
      + intros e s'. destruct (is_not_found e); [exact I |].
        replace 0%nat with (0 + 0)%nat by lia.
        apply at_most_bind; [by apply Hbroken | intros; exact I].
    - intros [] s'; [exact I | by apply Hquiet]. }
  assert (Hsleep500 : all_calls (fun c => match c with Sleep ms => ms = 500 | _ => True end)
                                (_setup_sandbox a s)).
  { assert (Hb : forall pk s', all_calls
                   (fun c => match c with Sleep ms => ms = 500 | _ => True end)
                   (build_and_run a pk s'))
      by (intros; apply build_and_run_calls; intros; exact I).
    unfold _setup_sandbox.
    destruct (custom_image a); [apply Hb |]. destruct (packages a); [apply Hb |].
    apply all_calls_bind.
    - unfold try_persistent. apply all_calls_try_except.
      + apply all_calls_bind; [apply attach_sleeps_half_second | intros; exact I].
      + intros e s'. destruct (is_not_found e); [exact I |].
        unfold remove_broken, containers_get, container_remove, ret. calls.
    - intros [] s'; [exact I | apply Hb]. }
  assert (Hreload : (count_calls is_reload (trace_of (run rt (_setup_sandbox a s) w)) <= 11)%nat).
  { apply at_most_run, Hpoll; try reflexivity; try (intros; reflexivity).
    apply attach_bounds. }
  assert (Hsleeps : (count_calls is_sleep (trace_of (run rt (_setup_sandbox a s) w)) <= 10)%nat).
  { apply at_most_run, Hpoll; try reflexivity; try (intros; reflexivity).
    apply attach_bounds. }
  split; [exact Hreload |]. split; [exact Hsleeps |]. split.
  - rewrite (slept_bound 500); [lia |]. apply all_calls_run, Hsleep500.
  - assert (Hone : forall f,
              (forall pk s', at_most f 1 (build_and_run a pk s')) ->
              f (ContainersGet persistent_name) = false ->
              (forall c, f (ContainerReload c) = false) ->
              (forall c, f (ContainerStart c) = false) ->
              (forall ms, f (Sleep ms) = false) ->
              (forall c b, f (ContainerRemove c b) = false) ->
              at_most f 1 (_setup_sandbox a s)).
    { intros f Hb Hg Hrl Hst Hsl Hrm. unfold _setup_sandbox.
      destruct (custom_image a); [apply Hb |]. destruct (packages a); [apply Hb |].
      replace 1%nat with (0 + 1)%nat by lia.
      apply at_most_bind.
      - apply at_most_none. unfold try_persistent. apply all_calls_try_except.
        + apply all_calls_bind; [| intros; exact I].
          by apply attach_persistent_calls.
        + intros e s'. destruct (is_not_found e); [exact I |].
          unfold remove_broken, containers_get, container_remove, ret.
          calls; cbn; auto.
      - intros [] s'; [exact I | apply Hb]. }
    split; apply at_most_run, Hone; try reflexivity; try (intros; reflexivity);
      intros; apply build_and_run_once.
Qed.

Lemma default_packages_are_default : is_default_setup None (Some default_packages) = true.
Proof. unfold is_default_setup, same_set. by apply bool_decide_eq_true. Qed.

(** X11 (sandbox.py, [_setup_sandbox] lines 53-106).  When a default setup
    finds no persistent container (the lookup raises not-found), it builds
    an image from [python:3.9-slim] with the ten default packages and runs a
    container from it under the name [sandbox_persistent], with the limits
    the caller passed; on success the sandbox holds that container and that
    image as its temporary image. *)
Theorem first_time_setup
    (rt : runtime) (w w1 w2 w3 : world rt) (a : setup_args) (s : AICodeSandbox)
    (e : exn) (id : string) (c : Container) :
  custom_image a = None -> packages a = None ->
  is_not_found e = true ->
  answer rt (ContainersGet persistent_name) w = (Raise e, w1) ->
  answer rt (ImagesBuild default_dockerfile) w1 = (Return id, w2) ->
  answer rt (ContainersRun (sandbox_run_args a id persistent_name)) w2 = (Return c, w3) ->
  run rt (_setup_sandbox a s) w =
    ((Return tt, MkSandbox (Some c) (Some id)),
     [ContainersGet persistent_name; ImagesBuild default_dockerfile;
      ContainersRun (sandbox_run_args a id persistent_name)], w3).
Proof.
  intros Hi Hp Hnf Hget Hbuild Hrun.
  unfold _setup_sandbox. rewrite Hi, Hp.
  unfold try_persistent, attach_persistent, try_except, bind, containers_get, invoke, ret.
  cbn [pbind run fst snd]. rewrite Hget. cbn [pbind run fst snd]. rewrite Hnf.
  cbn [pbind run fst snd].
  unfold build_and_run. rewrite Hi, default_packages_are_default.
  unfold default_packages at 1, bind, images_build, containers_run, modify, invoke, ret.
  cbn [pbind run fst snd base_image].
  change (dockerfile_for "python:3.9-slim" _) with default_dockerfile.
  rewrite Hbuild. cbn [pbind run fst snd]. rewrite Hrun. reflexivity.
Qed.

Lemma first_time_setup_witness :
  let a := default_args None None in
  let out := run (RefDocker.docker RefDocker.reliable)
                 (_setup_sandbox a (MkSandbox None None)) RefDocker.empty_engine in
  result_of out = (Return tt, MkSandbox (Some (MkContainer "c1" persistent_name))
                                        (Some "sha256:0")).
Proof.
  intros a out. unfold out.
  rewrite (first_time_setup (RefDocker.docker RefDocker.reliable)
             RefDocker.empty_engine RefDocker.empty_engine
             (snd (answer (RefDocker.docker RefDocker.reliable)
                          (ImagesBuild default_dockerfile) RefDocker.empty_engine))
             (world_of out)
             a (MkSandbox None None)
             (RefDocker.not_found ("container: " ++ persistent_name))
             "sha256:0" (MkContainer "c1" persistent_name)).
  - reflexivity.
  - reflexivity.
  - reflexivity.
  - reflexivity.
  - reflexivity.
  - reflexivity.
  - vm_compute. reflexivity.
Defined.

(** X12 (sandbox.py, [close] lines 256-286).  Closing a sandbox that holds
    a container named [sandbox_persistent] together with a temporary image,
    as a first-time setup leaves it, issues no stop and no removal of the
    container, yet still removes the image by force; if that removal
    succeeds it is the only call made. *)
Theorem close_persistent_removes_image
    (rt : runtime) (w w1 : world rt) (c : Container) (id : string) :
  cname c = persistent_name ->
  answer rt (ImagesRemove id true) w = (Return tt, w1) ->
  run rt (close (MkSandbox (Some c) (Some id))) w =
    ((Return tt, MkSandbox None None), [ImagesRemove id true], w1).
Proof.
  intros Hname Hrm.
  unfold close, close_container, close_image, bind, get, modify, ret.
  cbn [pbind run fst snd container temp_image]. rewrite Hname.
  cbn [pbind run fst snd String.eqb]. rewrite String.eqb_refl.
  cbn [pbind run fst snd container temp_image set_container].
  unfold try_finally, try_except, bind, images_remove, invoke, modify, ret.
  cbn [pbind run fst snd remove_image_attempts].
  unfold bind, try_except, images_remove, invoke, ret.
  cbn [pbind run fst snd]. rewrite Hrm. reflexivity.
Qed.

Lemma close_persistent_removes_image_witness :
  let w := RefDocker.Engine [(persistent_handle, "running")] ["sha256:0"] 1 0 [] in
  trace_of (run (RefDocker.docker RefDocker.reliable)
                (close (MkSandbox (Some persistent_handle) (Some "sha256:0"))) w)
  = [ImagesRemove "sha256:0" true].
Proof.
  intros w. unfold w.
  rewrite (close_persistent_removes_image (RefDocker.docker RefDocker.reliable) _
             (RefDocker.Engine [(persistent_handle, "running")] [] 1 0 [])
             persistent_handle "sha256:0"); reflexivity.
Defined.

(** X13 (sandbox.py, [_setup_sandbox] lines 84-106 and [__del__] lines
    288-290).  When the image for an explicit package list has been built
    but the container cannot be run, setup raises the runtime's error with
    the built image already recorded and no container; closing or
    discarding that sandbox then starts by removing the image, so the image
    is not left behind. *)
Theorem failed_run_keeps_image_for_cleanup
    (rt : runtime) (w w1 w2 w3 : world rt) (a : setup_args)
    (p : string) (ps : list string) (id u : string) (e : exn) :
  packages a = Some (p :: ps) ->
  is_default_setup (custom_image a) (packages a) = false ->
  answer rt (ImagesBuild (dockerfile_for (base_image (custom_image a)) (p :: ps))) w
    = (Return id, w1) ->
  answer rt Uuid4Hex w1 = (u, w2) ->
  answer rt (ContainersRun (sandbox_run_args a id ("python_sandbox_" ++ hex8 u))) w2
    = (Raise e, w3) ->
  run rt (_setup_sandbox a (MkSandbox None None)) w =
    ((Raise e, MkSandbox None (Some id)),
     [ImagesBuild (dockerfile_for (base_image (custom_image a)) (p :: ps)); Uuid4Hex;
      ContainersRun (sandbox_run_args a id ("python_sandbox_" ++ hex8 u))], w3) /\
  exists k, __del__ (MkSandbox None (Some id)) = Vis (ImagesRemove id true) k.
Proof.
  intros Hp Hdef Hbuild Huuid Hrun. split.
  - assert (Hexplicit : custom_image a <> None \/ packages a <> None)
      by (right; rewrite Hp; discriminate).
    rewrite (explicit_setup_skips_reuse a _ Hexplicit).
    unfold build_and_run. rewrite Hdef, Hp.
    unfold bind, images_build, uuid4_hex, containers_run, modify, invoke, perform, ret.
    cbn [pbind run fst snd]. rewrite Hbuild. cbn [pbind run fst snd].
    rewrite Huuid. cbn [pbind run fst snd]. rewrite Hrun. reflexivity.
  - unfold __del__, close, close_container, close_image, bind, get, ret.
    cbn [pbind fst snd container temp_image].
    unfold try_finally, try_except, bind, images_remove, invoke, ret.
    cbn [pbind fst snd remove_image_attempts].
    unfold bind, try_except, images_remove, invoke, ret.
    cbn [pbind fst snd]. eauto.
Qed.

Lemma failed_run_keeps_image_for_cleanup_witness :
  let a := default_args None (Some ["numpy"]) in
  result_of (run (RefDocker.docker run_refused) (_setup_sandbox a (MkSandbox None None))
                 RefDocker.empty_engine)
  = (Raise (RefDocker.api_error "refused"), MkSandbox None (Some "sha256:0")).
Proof.
  intros a.
  destruct (failed_run_keeps_image_for_cleanup (RefDocker.docker run_refused)
              RefDocker.empty_engine
              (snd (answer (RefDocker.docker run_refused)
                      (ImagesBuild (dockerfile_for "python:3.9-slim" ["numpy"]))
                      RefDocker.empty_engine))
              (snd (answer (RefDocker.docker run_refused) Uuid4Hex
                      (snd (answer (RefDocker.docker run_refused)
                              (ImagesBuild (dockerfile_for "python:3.9-slim" ["numpy"]))
                              RefDocker.empty_engine))))
              (snd (answer (RefDocker.docker run_refused) Uuid4Hex
                      (snd (answer (RefDocker.docker run_refused)
                              (ImagesBuild (dockerfile_for "python:3.9-slim" ["numpy"]))
                              RefDocker.empty_engine))))
              a "numpy" [] "sha256:0" (RefDocker.uuid_of 1)
              (RefDocker.api_error "refused")) as [Hrun _].
  - reflexivity.
  - vm_compute. reflexivity.
  - reflexivity.
  - reflexivity.
  - reflexivity.
  - rewrite Hrun. reflexivity.
Defined.

(** X14 (sandbox.py, [close] lines 262-270).  When stopping an ephemeral
    container raises, [close] does not attempt to remove it: it prints
    "Error stopping/removing container: ..." to standard output, forgets the
    container all the same and returns normally. *)
Theorem failed_stop_skips_removal
    (rt : runtime) (w w1 w2 : world rt) (c : Container) (e : exn) :
  cname c <> persistent_name ->
  answer rt (ContainerStop c (Some 10)) w = (Raise e, w1) ->
  answer rt (Stdout (Text ("Error stopping/removing container: " ++ exn_msg e))) w1
    = (tt, w2) ->
  run rt (close (MkSandbox (Some c) None)) w =
    ((Return tt, MkSandbox None None),
     [ContainerStop c (Some 10);
      Stdout (Text ("Error stopping/removing container: " ++ exn_msg e))], w2).
Proof.
  intros Hname Hstop Hprint.
  apply String.eqb_neq in Hname.
  unfold close, close_container, close_image, bind, get, modify, ret.
  cbn [pbind run fst snd container temp_image]. rewrite Hname.
  unfold try_except, bind, container_stop, container_remove, print, invoke, perform, ret.
  cbn [pbind run fst snd]. rewrite Hstop. cbn [pbind run fst snd].
  rewrite Hprint. reflexivity.
Qed.

Lemma failed_stop_skips_removal_witness :
  let c := MkContainer "c7" "python_sandbox_0abcdefa" in
  let w := RefDocker.Engine [(c, "running")] [] 8 0 [] in
  existsb is_remove
    (trace_of (run (RefDocker.docker stop_refused) (close (MkSandbox (Some c) None)) w))
  = false.
Proof.
  intros c w. unfold w.
  rewrite (failed_stop_skips_removal (RefDocker.docker stop_refused) _
             (RefDocker.Engine [(c, "running")] [] 8 0 [])
             (RefDocker.Engine [(c, "running")] [] 8 0
                [Text "Error stopping/removing container: refused"])
             c (RefDocker.api_error "refused")).
  - reflexivity.
  - discriminate.
  - reflexivity.
  - reflexivity.
Defined.

Lemma remove_image_attempts_own n id (s s' : AICodeSandbox) :
  temp_image s = Some id ->
  all_calls (own_resources s) (remove_image_attempts n id s').
Proof.
  intros Himg. revert s'.
  induction n as [| n IH]; intros s'; cbn [remove_image_attempts].
  - unfold print. calls.
  - unfold images_remove, print, sleep, ret. calls; cbn; auto.
Qed.

Lemma remove_image_attempts_bound n id (s : AICodeSandbox) :
  at_most is_image_remove n (remove_image_attempts n id s) /\
  at_most is_sleep n (remove_image_attempts n id s).
Proof.
  revert s. induction n as [| n IH]; intros s; cbn [remove_image_attempts].
  - unfold print, perform. cbn. by split.
  - unfold bind, try_except, images_remove, print, sleep, invoke, perform, ret.
    cbn [pbind at_most is_image_remove is_sleep fst snd].
    split.
    + intros [[] | e]; cbn [pbind at_most is_image_remove is_sleep fst snd];
        [exact I |]. intros [] []. apply IH.
    + intros [[] | e]; cbn [pbind at_most is_image_remove is_sleep fst snd];
        [exact I |]. intros [] []. apply IH.
Qed.

Lemma close_own (s : AICodeSandbox) : all_calls (own_resources s) (close s).
Proof.
  unfold close. unfold bind at 1.
  apply (all_calls_pbind_with _ (fun rs => rs = (Return tt, set_container None s))).
  - unfold close_container, bind, get. cbn [pbind fst snd].
    destruct (container s) as [c |] eqn:Hc; [| exact I].
    destruct (String.eqb_spec (cname c) persistent_name) as [Hname | Hname].
    + unfold modify, ret. calls.
    + unfold try_except, bind, container_stop, container_remove, print, modify,
        invoke, perform, ret.
      walk; auto.
  - apply close_container_results.
  - intros rs ->. cbn [fst snd]. unfold close_image, bind, get. cbn [pbind fst snd].
    destruct s as [c [id |]]; cbn [temp_image set_container]; [| exact I].
    apply all_calls_try_finally; [| intros; exact I].
    apply all_calls_try_except.
    + by apply remove_image_attempts_own.
    + intros e s3. unfold print. calls.
Qed.

Lemma close_bounds (s : AICodeSandbox) :
  at_most is_stop 1 (close s) /\ at_most is_remove 1 (close s) /\
  at_most is_image_remove 3 (close s) /\ at_most is_sleep 3 (close s).
Proof.
  assert (Himg : forall f s', (forall id b, f (ImagesRemove id b) = false) ->
             (forall l, f (Stdout l) = false) -> (forall ms, f (Sleep ms) = false) ->
             at_most f 0 (close_image s')).
  { intros f s' H1 H2 H3. apply at_most_none.
    unfold close_image, get. apply all_calls_bind; [exact I |].
    intros s0 s2. destruct (temp_image s0) as [id |]; [| exact I].
    apply all_calls_try_finally; [| intros; exact I].
    apply all_calls_try_except.
    - apply remove_image_attempts_calls; auto.
    - intros e s3. unfold print. calls; auto. }
  assert (Hcont : forall f, (forall h t, f (ContainerStop h t) = false) ->
             (forall h b, f (ContainerRemove h b) = false) ->
             (forall l, f (Stdout l) = false) ->
             at_most f 0 (close_container s)).
  { intros f H1 H2 H3. apply at_most_none.
    unfold close_container, get. apply all_calls_bind; [exact I |].
    intros s0 s2. destruct (container s0) as [c |]; [| exact I].
    destruct (String.eqb (cname c) persistent_name).
    - unfold modify, ret. calls.
    - unfold container_stop, container_remove, print, modify. calls; auto. }
  assert (Hone : at_most is_stop 1 (close_container s) /\
                 at_most is_remove 1 (close_container s)).
  { unfold close_container, bind, get. cbn [pbind fst snd].
    destruct (container s) as [c |]; [| by split].
    destruct (String.eqb (cname c) persistent_name); [by split |].
    unfold try_except, bind, container_stop, container_remove, print, modify,
      invoke, perform, ret.
    cbn [pbind at_most is_stop is_remove fst snd].
    split; intros [[] | e]; cbn [pbind at_most is_stop is_remove fst snd];
      repeat (intros [[] | ?] || intros []; cbn [pbind at_most is_stop is_remove fst snd]);
      exact I. }
  assert (Hthree : forall s', at_most is_image_remove 3 (close_image s') /\
                              at_most is_sleep 3 (close_image s')).
  { intros s'. unfold close_image, bind, get. cbn [pbind fst snd].
    destruct (temp_image s') as [id |]; [| by split].
    split.
    - replace 3%nat with (3 + 0 + 0)%nat by lia.
      apply at_most_try_finally; [| intros; exact I].
      apply at_most_try_except; [apply remove_image_attempts_bound |].
      intros e s3. unfold print, perform. cbn. auto.
    - replace 3%nat with (3 + 0 + 0)%nat by lia.
      apply at_most_try_finally; [| intros; exact I].
      apply at_most_try_except; [apply remove_image_attempts_bound |].
      intros e s3. unfold print, perform. cbn. auto. }
  unfold close. repeat split.
  - replace 1%nat with (1 + 0)%nat by lia.
    apply at_most_bind; [apply Hone | intros; by apply Himg].
  - replace 1%nat with (1 + 0)%nat by lia.
    apply at_most_bind; [apply Hone | intros; by apply Himg].
  - replace 3%nat with (0 + 3)%nat by lia.
    apply at_most_bind; [by apply Hcont | intros; apply Hthree].
  - replace 3%nat with (0 + 3)%nat by lia.
    apply at_most_bind; [by apply Hcont | intros; apply Hthree].
Qed.

(** X15 (sandbox.py, [close] lines 256-286).  Whatever the runtime answers,
    [close] touches only what the sandbox holds: it stops and removes no
    container but its own (and not that one when it is named
    [sandbox_persistent]), removes no image but its own temporary image,
    and otherwise only prints and pauses.  It stops and removes the
    container at most once each, tries the image removal at most three
    times and pauses two seconds after each failure, six seconds at most. *)
Theorem close_touches_own_resources (rt : runtime) (w : world rt) (s : AICodeSandbox) :
  let tr := trace_of (run rt (close s) w) in
  Forall (own_resources s) tr /\
  (count_calls is_stop tr <= 1)%nat /\
  (count_calls is_remove tr <= 1)%nat /\
  (count_calls is_image_remove tr <= 3)%nat /\
  slept tr = 2000 * Z.of_nat (count_calls is_sleep tr) /\
  slept tr <= 6000.
Proof.
  cbn zeta.
  pose proof (all_calls_run _ rt _ w (close_own s)) as Hown.
  destruct (close_bounds s) as (Hstop & Hrm & Himg & Hsleep).
  assert (Hslept : slept (trace_of (run rt (close s) w)) =
                   2000 * Z.of_nat (count_calls is_sleep (trace_of (run rt (close s) w)))).
  { apply slept_bound. eapply Forall_impl; [exact Hown |].
    intros [] Hc; try exact I. exact Hc. }
  pose proof (at_most_run _ _ rt _ w Hsleep).
  repeat split; try (by apply at_most_run); [exact Hown | exact Hslept | lia].
Qed.

(** X16 (sandbox.py, [run_code] line 214 after [close] lines 256-286).
    Running code on a sandbox that has been closed raises [AttributeError]:
    the container field is cleared, so no command reaches the engine beyond
    what [close] itself issued. *)
Theorem run_code_after_close
    (rt : runtime) (w : world rt) (dedent : string -> string) (code : string)
    (env_vars : option (list (string * string))) (s : AICodeSandbox) :
  run rt ((close ;;; run_code dedent code env_vars) s) w =
    ((Raise (Exn AttributeError "'NoneType' object has no attribute 'exec_run'"),
      MkSandbox None None),
     trace_of (run rt (close s) w), world_of (run rt (close s) w)).
Proof.
  rewrite run_bind.
  pose proof (all_results_run _ rt _ w (close_results s)) as Hres.
  destruct (run rt (close s) w) as [[rs tr] w1]. unfold result_of in Hres.
  cbn [fst] in Hres. subst rs. cbn [fst snd trace_of world_of].
  unfold run_code, bind, get, raise. cbn [pbind run fst snd container].
  by rewrite app_nil_r.
Qed.

(** X17 (sandbox.py, [run_code] lines 167-254).  On a sandbox that holds a
    container, [run_code] issues exactly one call, an exec of [sh -c] on
    that container, whatever the outcome; it never changes the sandbox's
    fields; an error of the exec call is raised to the caller unchanged; and
    omitting [env_vars] is the same as passing none. *)
Theorem run_code_single_exec
    (rt : runtime) (w : world rt) (dedent : string -> string) (code : string)
    (env_vars : list (string * string)) (s : AICodeSandbox) (h : Container) :
  container s = Some h ->
  let cmd := ExecRun h ["sh"; "-c"; exec_command dedent code env_vars] in
  let out := run rt (run_code dedent code (Some env_vars) s) w in
  trace_of out = [cmd] /\
  world_of out = snd (answer rt cmd w) /\
  snd (result_of out) = s /\
  (forall e, fst (answer rt cmd w) = Raise e -> fst (result_of out) = Raise e) /\
  run_code dedent code None s = run_code dedent code (Some []) s.
Proof.
  intros Hc. cbn zeta.
  assert (Hrun : run rt (run_code dedent code (Some env_vars) s) w =
            let '(x, w1) := answer rt (ExecRun h ["sh"; "-c"; exec_command dedent code env_vars]) w in
            let '(rs, tr, w2) :=
              run rt (pbind (Ret (x, s))
                        (fun rs => match fst rs with
                                   | Return exec_result =>
                                       (stdout_text <- stream_text (out_stream exec_result) ;;
                                        stderr_text <- stream_text (err_stream exec_result) ;;
                                        ret (classify (exit_code exec_result) stdout_text stderr_text))
                                         (snd rs)
                                   | Raise e => Ret (Raise e, snd rs)
                                   end)) w1 in
            (rs, ExecRun h ["sh"; "-c"; exec_command dedent code env_vars] :: tr, w2)).
  { unfold run_code. unfold bind at 1, get. cbn [pbind fst snd]. rewrite Hc.
    unfold bind at 1, exec_run, invoke. cbn [pbind run]. reflexivity. }
  rewrite Hrun. clear Hrun.
  destruct (answer rt _ w) as [[r | e] w1]; cbn [fst snd pbind run].
  - assert (Hpure : exists rs,
              (stdout_text <- stream_text (out_stream r) ;;
               stderr_text <- stream_text (err_stream r) ;;
               ret (classify (exit_code r) stdout_text stderr_text)) s = Ret (rs, s)).
    { unfold bind, stream_text, ret.
      destruct (out_stream r) as [o |]; [destruct (String.eqb o "") |];
        cbn [pbind fst snd]; try destruct (decode_utf8 _); cbn [pbind fst snd];
        eauto;
        (destruct (err_stream r) as [o' |]; [destruct (String.eqb o' "") |];
         cbn [pbind fst snd]; try destruct (decode_utf8 _); cbn [pbind fst snd]; eauto). }
    destruct Hpure as [rs ->]. cbn [run trace_of world_of result_of fst snd].
    repeat split. intros; discriminate.
  - cbn [run trace_of world_of result_of fst snd]. repeat split. by intros e' [= ->].
Qed.

Lemma run_code_single_exec_witness :
  trace_of (run (RefDocker.docker fails_with_boom)
                (run_code (fun c => c) "raise SystemExit('boom')" (Some []) attached)
                (engine_with "running"))
  = [ExecRun persistent_handle
       ["sh"; "-c"; exec_command (fun c => c) "raise SystemExit('boom')" []]].
Proof.
  apply (run_code_single_exec (RefDocker.docker fails_with_boom) (engine_with "running")
           (fun c => c) "raise SystemExit('boom')" [] attached persistent_handle).
  reflexivity.
Defined.

End SandboxExtra.

(** * Facts about [write_file] and [read_file] *)
Module FilesExtra.
Import Shell Sandbox ShellFacts Files.

#[local] Arguments String.append !_ _ / : simpl nomatch.

(** A quoted word that starts a new word of the command line. *)
Lemma lex_shlex_quote_start (v rest : string) (acc : list string) :
  lex (shlex_quote v ++ rest) Bare None acc = lex rest Bare (Some v) acc.
Proof.
  destruct v as [| c v]; [reflexivity |].
  unfold shlex_quote. destruct (all_safe (String c v)) eqn:Hsafe.
  - by apply lex_safe_start.
  - rewrite append_assoc.
    change (lex (str_replace squote quote_escape (String c v) ++ ("'" ++ rest))
                InSingle (Some "") acc = lex rest Bare (Some (String c v)) acc).
    by rewrite lex_escaped.
Qed.

(** A file name without a slash has no directory part. *)
Lemma after_last_slash_none (p : string) :
  (forall c, In c (list_ascii_of_string p) -> c <> slash) -> after_last_slash p = 0%nat.
Proof.
  induction p as [| c p IH]; [reflexivity |].
  intros Hno. cbn [after_last_slash]. rewrite IH.
  - destruct (Ascii.eqb_spec c slash) as [-> | _]; [| reflexivity].
    exfalso. apply (Hno slash); [by left | reflexivity].
  - intros c' Hin. apply Hno. by right.
Qed.

Lemma dirname_no_slash (p : string) :
  (forall c, In c (list_ascii_of_string p) -> c <> slash) -> dirname p = "".
Proof.
  intros Hno. unfold dirname. rewrite (after_last_slash_none p Hno).
  by destruct p.
Qed.

(** X18 (sandbox.py, [write_file] lines 118-121 and 143-144).  Whatever the
    directory or the file name is (blanks, quotes, dollars, semicolons,
    newlines), the [mkdir -p] and [test -f] command lines that [write_file]
    hands to [sh -c] split into exactly three words, the last one being the
    name character for character; nothing of the name is read as shell
    syntax. *)
Theorem file_commands_quoted (name : string) :
  sh_words (mkdir_command name) = Some ["mkdir"; "-p"; name] /\
  sh_words (check_command name) = Some ["test"; "-f"; name].
Proof.
  unfold sh_words, mkdir_command, check_command. split.
  - change (lex ("mkdir -p " ++ shlex_quote name) Bare None [])
      with (lex (shlex_quote name) Bare None ["-p"; "mkdir"]).
    rewrite <- (append_nil_r (shlex_quote name)), lex_shlex_quote_start. reflexivity.
  - change (lex ("test -f " ++ shlex_quote name) Bare None [])
      with (lex (shlex_quote name) Bare None ["-f"; "test"]).
    rewrite <- (append_nil_r (shlex_quote name)), lex_shlex_quote_start. reflexivity.
Qed.

(** The calls of the directory step. *)
Lemma mkdir_step_ok (rt : fruntime) (w w1 : fworld rt) (s : AICodeSandbox) (h : Container)
    (filename : string) (out : string) (rest : F unit) :
  container s = Some h ->
  (if String.eqb (dirname filename) "" then w1 = w
   else fanswer rt (ExecOutput h ["sh"; "-c"; mkdir_command (dirname filename)]) w
        = (Return (0, out), w1)) ->
  frun rt (fbind
             (if negb (String.eqb (dirname filename) "") then
                fbind (container_exec_run s ["sh"; "-c"; mkdir_command (dirname filename)])
                  (fun mkdir_result =>
                     if negb (fst mkdir_result =? 0)%Z then
                       fbind (decode (snd mkdir_result)) (fun output =>
                         fraise (Exn PlainException ("Failed to create directory: " ++ output)))
                     else fret tt)
              else fret tt) (fun _ => rest)) w =
  let '(r, tr, w2) := frun rt rest w1 in
  (r, ((if String.eqb (dirname filename) "" then []
        else [ExecOutput h ["sh"; "-c"; mkdir_command (dirname filename)]]) ++ tr)%list, w2).
Proof.
  intros Hc Hmk. unfold container_exec_run. rewrite Hc.
  destruct (String.eqb (dirname filename) ""); cbn [negb].
  - subst w1. unfold fbind, fret. cbn [fpbind]. by destruct (frun rt rest w) as [[r tr] w2].
  - unfold fbind, exec_output, fret. cbn [fpbind frun]. rewrite Hmk.
    cbn [fst snd Z.eqb negb fpbind]. by destruct (frun rt rest w1) as [[r tr] w2].
Qed.

(** X19 (sandbox.py, [write_file] lines 107-147).  When the directory
    step succeeds (or the name has no directory part, as with every name
    without a slash), the transfer answers and [test -f] exits 0,
    [write_file] returns normally having issued, in this order, the
    [mkdir -p] on the directory part if there is one, one [put_archive] to
    [/] of an archive holding a single member named after the file with the
    data and its length, and the [test -f] check. *)
Theorem write_file_success
    (rt : fruntime) (w w1 w2 w3 : fworld rt) (s : AICodeSandbox) (h : Container)
    (filename : string) (content : file_content) (b : bool) (out out' : string) :
  container s = Some h ->
  (if String.eqb (dirname filename) "" then w1 = w
   else fanswer rt (ExecOutput h ["sh"; "-c"; mkdir_command (dirname filename)]) w
        = (Return (0, out), w1)) ->
  fanswer rt (PutArchive h "/" (tar_stream filename content)) w1 = (Return b, w2) ->
  fanswer rt (ExecOutput h ["sh"; "-c"; check_command filename]) w2
    = (Return (0, out'), w3) ->
  frun rt (write_file s filename content) w =
    (Return tt,
     ((if String.eqb (dirname filename) "" then []
       else [ExecOutput h ["sh"; "-c"; mkdir_command (dirname filename)]]) ++
      [PutArchive h "/"
         [TarEntry filename (String.length (file_data content)) (file_data content)];
       ExecOutput h ["sh"; "-c"; check_command filename]])%list, w3) /\
  ((forall c, In c (list_ascii_of_string filename) -> c <> slash) ->
   dirname filename = "").
Proof.
  intros Hc Hmk Hput Hcheck. split; [| apply dirname_no_slash].
  unfold write_file. rewrite (mkdir_step_ok rt w w1 s h filename out _ Hc Hmk).
  unfold container_put_archive, container_exec_run. rewrite Hc.
  unfold fbind, ftry_except, put_archive, exec_output, fret, fraise, tar_stream.
  cbn [fpbind frun]. unfold tar_stream in Hput. rewrite Hput. cbn [fpbind frun].
  rewrite Hcheck. reflexivity.
Qed.

Lemma write_file_success_witness :
  frun (scripted obliging (Return true))
       (write_file attached "data/in put.txt" (Str "hello")) tt =
  (Return tt,
   [ExecOutput persistent_handle ["sh"; "-c"; "mkdir -p data"];
    PutArchive persistent_handle "/" [TarEntry "data/in put.txt" 5 "hello"];
    ExecOutput persistent_handle ["sh"; "-c"; "test -f 'data/in put.txt'"]], tt).
Proof.
  apply (write_file_success (scripted obliging (Return true)) tt tt tt tt attached
           persistent_handle "data/in put.txt" (Str "hello") true "" "");
    reflexivity.
Defined.

(** X20 (sandbox.py, [write_file] lines 118-123).  When the file name has
    a directory part and [mkdir -p] does not succeed, [write_file] raises
    after that single call: nothing is transferred and nothing is checked.
    A non-zero exit status gives "Failed to create directory: " followed by
    the command's output; an error of the exec call itself is raised
    unchanged. *)
Theorem write_file_mkdir_failure
    (rt : fruntime) (w w1 : fworld rt) (s : AICodeSandbox) (h : Container)
    (filename : string) (content : file_content) (x : res (Z * string)) :
  container s = Some h ->
  dirname filename <> "" ->
  fanswer rt (ExecOutput h ["sh"; "-c"; mkdir_command (dirname filename)]) w = (x, w1) ->
  (forall out, x <> Return (0, out)) ->
  exists e,
    frun rt (write_file s filename content) w =
      (Raise e, [ExecOutput h ["sh"; "-c"; mkdir_command (dirname filename)]], w1) /\
    match x with
    | Return (code, out) =>
        valid_utf8 out = true ->
        e = Exn PlainException ("Failed to create directory: " ++ out)
    | Raise e' => e = e'
    end.
Proof.
  intros Hc Hdir Hmk Hbad. apply String.eqb_neq in Hdir.
  unfold write_file, container_exec_run. rewrite Hc, Hdir. cbn [negb].
  unfold fbind at 1 2, exec_output. cbn [fpbind frun]. rewrite Hmk.
  destruct x as [[code out] | e'].
  - cbn [fst snd fpbind].
    assert (Hcode : (code =? 0) = false).
    { apply Z.eqb_neq. intros ->. by apply (Hbad out). }
    rewrite Hcode. cbn [negb]. unfold fbind, decode, decode_utf8, fraise.
    destruct (valid_utf8 out) eqn:Hvalid; cbn [fpbind frun]; eexists;
      (split; [reflexivity |]); [done | discriminate].
  - cbn [fpbind frun]. eexists. split; reflexivity.
Qed.

Lemma write_file_mkdir_failure_witness :
  exists e,
    frun (scripted mkdir_denied (Return true))
         (write_file attached "ro/notes.txt" (Str "hello")) tt =
      (Raise e, [ExecOutput persistent_handle ["sh"; "-c"; "mkdir -p ro"]], tt).
Proof.
  destruct (write_file_mkdir_failure (scripted mkdir_denied (Return true)) tt tt attached
              persistent_handle "ro/notes.txt" (Str "hello")
              (Return (1, "mkdir: cannot create directory: Permission denied")))
    as (e & Hrun & _).
  - reflexivity.
  - discriminate.
  - reflexivity.
  - intros out. discriminate.
  - exists e. exact Hrun.
Defined.

(** X21 (sandbox.py, [write_file] lines 138-147).  Past the directory
    step, an error of [put_archive] is raised as "Failed to write file: "
    followed by the error's message, and no check is run; a transfer that
    answers but is followed by a failing [test -f] raises "Failed to write
    file: " followed by the file name. *)
Theorem write_file_transfer_failure
    (rt : fruntime) (w w1 w2 : fworld rt) (s : AICodeSandbox) (h : Container)
    (filename : string) (content : file_content) (out : string) (x : res bool) :
  container s = Some h ->
  (if String.eqb (dirname filename) "" then w1 = w
   else fanswer rt (ExecOutput h ["sh"; "-c"; mkdir_command (dirname filename)]) w
        = (Return (0, out), w1)) ->
  fanswer rt (PutArchive h "/" (tar_stream filename content)) w1 = (x, w2) ->
  let mkdir := if String.eqb (dirname filename) "" then []
               else [ExecOutput h ["sh"; "-c"; mkdir_command (dirname filename)]] in
  match x with
  | Raise e =>
      frun rt (write_file s filename content) w =
        (Raise (Exn PlainException ("Failed to write file: " ++ exn_msg e)),
         (mkdir ++ [PutArchive h "/" (tar_stream filename content)])%list, w2)
  | Return _ =>
      forall code out' w3,
        fanswer rt (ExecOutput h ["sh"; "-c"; check_command filename]) w2
          = (Return (code, out'), w3) ->
        code <> 0 ->
        frun rt (write_file s filename content) w =
          (Raise (Exn PlainException ("Failed to write file: " ++ filename)),
           (mkdir ++ [PutArchive h "/" (tar_stream filename content);
                      ExecOutput h ["sh"; "-c"; check_command filename]])%list, w3)
  end.
Proof.
  intros Hc Hmk Hput. cbn zeta.
  unfold write_file. rewrite (mkdir_step_ok rt w w1 s h filename out _ Hc Hmk).
  unfold container_put_archive, container_exec_run. rewrite Hc.
  unfold fbind, ftry_except, put_archive, exec_output, fret, fraise.
  cbn [fpbind frun]. rewrite Hput. destruct x as [b | e]; cbn [fpbind frun].
  - intros code out' w3 Hcheck Hcode. rewrite Hcheck. cbn [fpbind frun fst].
    apply Z.eqb_neq in Hcode. rewrite Hcode. reflexivity.
  - reflexivity.
Qed.

Lemma write_file_transfer_failure_witness :
  frun (scripted obliging (Raise (RefDocker.api_error "no space left on device")))
       (write_file attached "notes.txt" (Bytes "hello")) tt =
  (Raise (Exn PlainException "Failed to write file: no space left on device"),
   [PutArchive persistent_handle "/" [TarEntry "notes.txt" 5 "hello"]], tt).
Proof.
  apply (write_file_transfer_failure
           (scripted obliging (Raise (RefDocker.api_error "no space left on device")))
           tt tt tt attached persistent_handle "notes.txt" (Bytes "hello") ""
           (Raise (RefDocker.api_error "no space left on device")));
    reflexivity.
Defined.

(** X22 (sandbox.py, [read_file] lines 149-165).  [read_file] issues one
    call, [cat] with the file name as its own argument (no shell reads the
    name), whatever the outcome.  With exit status 0 and well-formed UTF-8
    output it returns the output unchanged; with another exit status it
    raises "Failed to read file: " followed by the output; output that is
    not well-formed UTF-8 makes it raise [UnicodeDecodeError] even when
    [cat] succeeded; an error of the exec call is raised unchanged. *)
Theorem read_file_result
    (rt : fruntime) (w w1 : fworld rt) (s : AICodeSandbox) (h : Container)
    (filename : string) (x : res (Z * string)) :
  container s = Some h ->
  fanswer rt (ExecOutput h ["cat"; filename]) w = (x, w1) ->
  exists r,
    frun rt (read_file s filename) w = (r, [ExecOutput h ["cat"; filename]], w1) /\
    match x with
    | Return (code, out) =>
        (valid_utf8 out = true -> code = 0 -> r = Return out) /\
        (valid_utf8 out = true -> code <> 0 ->
         r = Raise (Exn PlainException ("Failed to read file: " ++ out))) /\
        (valid_utf8 out = false -> exists e, r = Raise e /\ exn_cls e = UnicodeDecodeError)
    | Raise e => r = Raise e
    end.
Proof.
  intros Hc Hcat. unfold read_file, container_exec_run. rewrite Hc.
  unfold fbind at 1, exec_output. cbn [fpbind frun]. rewrite Hcat.
  destruct x as [[code out] | e]; cbn [fpbind fst snd].
  - unfold fbind, decode, decode_utf8, fraise.
    destruct (Z.eqb_spec code 0) as [-> | Hcode]; cbn [negb];
      destruct (valid_utf8 out) eqn:Hvalid; cbn [fpbind frun];
      eexists; (split; [reflexivity |]); repeat split; intros; try done;
      eexists; split; reflexivity.
  - cbn [frun]. eexists. split; reflexivity.
Qed.

Lemma read_file_result_witness :
  exists r,
    frun (scripted cat_fails (Return true)) (read_file attached "notes.txt") tt =
      (r, [ExecOutput persistent_handle ["cat"; "notes.txt"]], tt) /\
    r = Raise (Exn PlainException
                 "Failed to read file: cat: notes.txt: No such file or directory").
Proof.
  destruct (read_file_result (scripted cat_fails (Return true)) tt tt attached
              persistent_handle "notes.txt"
              (Return (1, "cat: notes.txt: No such file or directory")))
    as (r & Hrun & _ & Hfail & _).
  - reflexivity.
  - reflexivity.
  - exists r. split; [exact Hrun |]. apply Hfail; [reflexivity | discriminate].
Defined.

(** X23 (sandbox.py, [write_file] lines 118-141 and [read_file] line 162,
    after [close] line 270).  On a sandbox whose container field is cleared,
    as [close] leaves it, the file methods raise without reaching the
    engine: [read_file] and a [write_file] with a directory part raise
    [AttributeError]; a [write_file] without one fails inside the guarded
    transfer, so the error comes out as "Failed to write file: " followed by
    the attribute error's message. *)
Theorem file_methods_after_close
    (s : AICodeSandbox) (filename : string) (content : file_content) :
  container s = None ->
  read_file s filename =
    FRet (Raise (Exn AttributeError "'NoneType' object has no attribute 'exec_run'")) /\
  write_file s filename content =
    FRet (Raise (if String.eqb (dirname filename) ""
                 then Exn PlainException
                        "Failed to write file: 'NoneType' object has no attribute 'put_archive'"
                 else Exn AttributeError "'NoneType' object has no attribute 'exec_run'")).
Proof.
  intros Hc. unfold read_file, write_file, container_exec_run, container_put_archive.
  rewrite Hc. split; [reflexivity |].
  destruct (String.eqb (dirname filename) ""); reflexivity.
Qed.

Lemma file_methods_after_close_witness :
  write_file (MkSandbox None None) "notes.txt" (Str "hello") =
  FRet (Raise (Exn PlainException
                 "Failed to write file: 'NoneType' object has no attribute 'put_archive'")).
Proof.
  apply (file_methods_after_close (MkSandbox None None) "notes.txt" (Str "hello")).
  reflexivity.
Defined.

End FilesExtra.

(** * Facts about quantities followed along a run *)
Module GhostFacts.
Import Shell Sandbox SandboxFacts Worker Measures Ghost.

(** The calls of the sandbox's methods, for any property that holds of the
    calls they can issue. *)
Lemma sandbox_calls (P : call -> Prop) :
  (forall c, is_docker c = true -> P c) -> P Uuid4Hex -> (forall ms, P (Sleep ms)) ->
  (forall p s, all_calls P (construct p s)) /\
  (forall dedent code env s, all_calls P (run_code dedent code env s)) /\
  ((forall t, P (Stdout (Text t))) -> forall s, all_calls P (close s)).
Proof.
  intros Hdocker Huuid Hsleep.
  assert (Hsetup : forall a s, all_calls P (_setup_sandbox a s)).
  { intros a s.
    assert (Hbuild : forall pk s', all_calls P (build_and_run a pk s'))
      by (intros; apply build_and_run_calls; auto).
    unfold _setup_sandbox.
    destruct (custom_image a); [apply Hbuild |].
    destruct (packages a); [apply Hbuild |].
    apply all_calls_bind.
    - unfold try_persistent. apply all_calls_try_except.
      + apply all_calls_bind; [| intros; exact I].
        apply attach_persistent_calls; auto.
      + intros e s1. destruct (is_not_found e); [exact I |].
        unfold remove_broken, containers_get, container_remove, ret. calls; auto.
    - intros [] s1; [exact I | apply Hbuild]. }
  split; [| split].
  - intros p s. unfold construct, from_env, put.
    apply all_calls_bind; [apply all_calls_invoke; auto | intros _ s1].
    apply all_calls_bind; [exact I | intros _ s2].
    destruct (packages_arg p) as [[ps | e] |]; try apply Hsetup. exact I.
  - intros dedent code env s.
    unfold run_code, get, exec_run, raise. apply all_calls_bind; [exact I |].
    intros s0 s1. destruct (container s0) as [c |]; [| exact I].
    apply all_calls_bind; [apply all_calls_invoke; auto |].
    intros r s2. unfold stream_text, decode_utf8, ret.
    calls; exact I.
  - intros Htext s. unfold close. apply all_calls_bind.
    + unfold close_container, get. apply all_calls_bind; [exact I |].
      intros s0 s1. destruct (container s0) as [c |]; [| exact I].
      destruct (String.eqb (cname c) persistent_name).
      * unfold modify, ret. calls.
      * unfold container_stop, container_remove, print, modify. calls; auto.
    + intros _ s1. unfold close_image, get. apply all_calls_bind; [exact I |].
      intros s0 s2. destruct (temp_image s0) as [id |]; [| exact I].
      apply all_calls_try_finally; [| intros; exact I].
      apply all_calls_try_except.
      * apply remove_image_attempts_calls; auto.
      * intros e s3. unfold print. calls; auto.
Qed.

Section Track.

Context {G : Type} (step : forall c : call, reply c -> G -> G).

(** What holds on every path holds on the path a runtime takes. *)
Lemma tracks_observe {R} (rt : runtime) (p : prog R) (w : world rt) (g : G)
      (Q : R -> G -> Prop) :
  tracks step p g Q -> Q (result_of (run rt p w)) (observe step rt p w g).
Proof.
  revert w g. induction p as [r | c k IH]; intros w g Hp; cbn [tracks run observe] in *.
  - exact Hp.
  - destruct (answer rt c w) as [x w1]. specialize (IH x w1 _ (Hp x)).
    destruct (run rt (k x) w1) as [[r tr] w2]. exact IH.
Qed.

Lemma tracks_impl {R} (p : prog R) (g : G) (Q Q' : R -> G -> Prop) :
  (forall r g', Q r g' -> Q' r g') -> tracks step p g Q -> tracks step p g Q'.
Proof.
  intros HQ. revert g. induction p as [r | c k IH]; intros g; cbn [tracks]; [apply HQ |].
  intros Hk x. apply IH, Hk.
Qed.

Lemma tracks_pbind {A B} (p : prog A) (f : A -> prog B) (g : G)
      (Q1 : A -> G -> Prop) (Q : B -> G -> Prop) :
  tracks step p g Q1 -> (forall a g', Q1 a g' -> tracks step (f a) g' Q) ->
  tracks step (pbind p f) g Q.
Proof.
  intros Hp Hf. revert g Hp. induction p as [a | c k IH]; intros g Hp; cbn [tracks pbind] in *.
  - by apply Hf.
  - intros x. apply IH, Hp.
Qed.

Lemma tracks_bind {S A B} (m : M S A) (f : A -> M S B) (s : S) (g : G)
      (Q1 : res A * S -> G -> Prop) (Q : res B * S -> G -> Prop) :
  tracks step (m s) g Q1 ->
  (forall a s' g', Q1 (Return a, s') g' -> tracks step (f a s') g' Q) ->
  (forall e s' g', Q1 (Raise e, s') g' -> Q (Raise e, s') g') ->
  tracks step (bind m f s) g Q.
Proof.
  intros Hm Hf He. unfold bind. apply (tracks_pbind _ _ _ Q1); [exact Hm |].
  intros [[a | e] s'] g' H1; cbn [fst snd tracks]; auto.
Qed.

Lemma tracks_try_except {S A} (m : M S A) (h : exn -> M S A) (s : S) (g : G)
      (Q1 : res A * S -> G -> Prop) (Q : res A * S -> G -> Prop) :
  tracks step (m s) g Q1 ->
  (forall a s' g', Q1 (Return a, s') g' -> Q (Return a, s') g') ->
  (forall e s' g', Q1 (Raise e, s') g' -> tracks step (h e s') g' Q) ->
  tracks step (try_except m h s) g Q.
Proof.
  intros Hm Hr Hh. unfold try_except. apply (tracks_pbind _ _ _ Q1); [exact Hm |].
  intros [[a | e] s'] g' H1; cbn [fst snd tracks]; auto.
Qed.

(** A program whose calls all leave the quantity alone. *)
Lemma tracks_unchanged {R} (p : prog R) (g : G) (Q : R -> Prop) :
  all_calls (unchanged_by step) p -> all_results Q p ->
  tracks step p g (fun r g' => g' = g /\ Q r).
Proof.
  induction p as [r | c k IH]; cbn [all_calls all_results tracks].
  - by intros _ Hr.
  - intros [Hc Hk] Hr x. rewrite Hc. apply IH; auto.
Qed.

Lemma tracks_unchanged_end {R} (p : prog R) (g : G) (Q : R -> G -> Prop) :
  all_calls (unchanged_by step) p -> (forall r, Q r g) -> tracks step p g Q.
Proof.
  intros Hp HQ. eapply tracks_impl; [| apply (tracks_unchanged p g (fun _ => True) Hp)].
  - intros r g' [-> _]. apply HQ.
  - apply all_results_True.
Qed.

Lemma tracks_bind_unchanged {S A B} (m : M S A) (f : A -> M S B) (s : S) (g : G)
      (Q : res B * S -> G -> Prop) :
  all_calls (unchanged_by step) (m s) ->
  (forall a s', tracks step (f a s') g Q) ->
  (forall e s', Q (Raise e, s') g) ->
  tracks step (bind m f s) g Q.
Proof.
  intros Hm Hf He.
  apply (tracks_bind m f s g (fun _ g' => g' = g)).
  - by apply tracks_unchanged_end.
  - intros a s' g' ->. apply Hf.
  - intros e s' g' ->. apply He.
Qed.

(** The same for a step that cannot raise. *)
Lemma tracks_bind_steady {S A B} (m : M S A) (f : A -> M S B) (s : S) (g : G)
      (Q : res B * S -> G -> Prop) :
  all_calls (unchanged_by step) (m s) ->
  all_results (fun rs => exists a, fst rs = Return a) (m s) ->
  (forall a s', tracks step (f a s') g Q) ->
  tracks step (bind m f s) g Q.
Proof.
  intros Hm Hr Hf.
  apply (tracks_bind m f s g (fun rs g' => g' = g /\ exists a, fst rs = Return a)).
  - by apply tracks_unchanged.
  - intros a s' g' [-> _]. apply Hf.
  - intros e s' g' [_ [a Ha]]. discriminate.
Qed.

End Track.

Lemma observe_lines {R} (rt : runtime) (p : prog R) (w : world rt) (said : list out_line) :
  observe line_step rt p w said = (said ++ stdout_lines (trace_of (run rt p w)))%list.
Proof.
  revert w said. induction p as [r | c k IH]; intros w said; cbn [observe run].
  - cbn. by rewrite app_nil_r.
  - destruct (answer rt c w) as [x w1]. rewrite IH.
    destruct (run rt (k x) w1) as [[r tr] w2]. cbn [trace_of fst snd].
    destruct c; cbn [line_step stdout_lines]; try reflexivity.
    by rewrite <- app_assoc.
Qed.

Lemma clock_returns_any {S} (s : S) :
  all_results (fun rs => exists a, fst rs = Return a) (@perf_counter S s).
Proof. unfold perf_counter, perform. cbn. eauto. Qed.

(** ** Images built and not yet removed *)

Lemma image_unchanged (c : call) :
  is_build c = false -> Measures.is_image_remove c = false ->
  unchanged_by image_step c.
Proof. destruct c; intros Hb Hr x g; try discriminate; reflexivity. Qed.

Lemma image_forgotten (id : string) :
  List.filter (fun i => negb (String.eqb i id)) [id] = [].
Proof. cbn. by rewrite String.eqb_refl. Qed.

(** Walk a finite method body, following the images. *)
Ltac trail :=
  repeat (cbn [tracks pbind fst snd image_step List.filter held temp_image container
               set_container set_temp_image];
          match goal with
          | |- True => exact I
          | |- _ /\ _ => split
          | |- _ = _ => reflexivity
          | |- forall x : ?T, _ =>
              let T' := eval cbn in T in
              lazymatch T' with
              | res _ => intros [? | ?]
              | unit => intros []
              | _ => intros ?
              end
          | |- tracks _ ((if ?b then _ else _) _) _ _ => destruct b
          | |- tracks _ (if ?b then _ else _) _ _ => destruct b
          end).

Lemma wait_running_tracks n c last (s : AICodeSandbox) (g : list string) :
  tracks image_step (wait_running n c last s) g (fun rs g' => g' = g /\ snd rs = s).
Proof.
  revert last. induction n as [| n IH]; intros last; cbn [wait_running].
  - by cbn.
  - unfold bind, container_reload, sleep, invoke, perform, ret.
    cbn [tracks pbind fst snd image_step]. intros [st | e]; cbn [tracks pbind fst snd];
      [| by split].
    destruct (is_running st); cbn [tracks pbind fst snd image_step]; [by split |].
    intros []. apply IH.
Qed.

(** Looking for the persistent container builds and removes no image and
    leaves the image field alone. *)
Lemma attach_tracks (s : AICodeSandbox) (g : list string) :
  tracks image_step (attach_persistent s) g
         (fun rs g' => g' = g /\ temp_image (snd rs) = temp_image s).
Proof.
  unfold attach_persistent, bind, containers_get, container_reload, container_start,
    modify, invoke, ret, raise.
  cbn [tracks pbind fst snd image_step]. intros [c | e]; cbn [tracks pbind fst snd];
    [| by split].
  intros [st | e]; cbn [tracks pbind fst snd]; [| by split].
  destruct (is_running st); cbn [tracks pbind fst snd image_step]; [by split |].
  intros [[] | e]; cbn [tracks pbind fst snd]; [| by split].
  apply (tracks_pbind _ _ _ _ _ _ (wait_running_tracks 10 c st _ g)).
  intros [[st' | e] s'] g' [-> Hs]; cbn [fst snd] in Hs; subst s';
    cbn [tracks pbind fst snd]; [| by split].
  destruct (is_running st'); cbn [tracks pbind fst snd]; by split.
Qed.

Lemma try_persistent_tracks (s : AICodeSandbox) (g : list string) :
  tracks image_step (try_persistent s) g
         (fun rs g' => g' = g /\ temp_image (snd rs) = temp_image s /\
                       exists b, fst rs = Return b).
Proof.
  unfold try_persistent.
  apply (tracks_try_except _ _ _ _ _
           (fun rs g' => g' = g /\ temp_image (snd rs) = temp_image s)).
  - apply (tracks_bind _ _ _ _ _ _ _ (attach_tracks s g)).
    + intros [] s' g' [-> Hs]. cbn. by split.
    + intros e s' g' H. exact H.
  - intros b s' g' [-> Hs]. cbn [fst snd] in *. eauto.
  - intros e s' g' [-> Hs]. cbn [fst snd] in Hs.
    destruct (is_not_found e); [cbn; eauto |].
    unfold remove_broken, try_except, bind, containers_get, container_remove, invoke, ret.
    cbn [tracks pbind fst snd image_step].
    intros [c | e']; cbn [tracks pbind fst snd image_step]; [| eauto].
    intros [[] | e']; cbn [tracks pbind fst snd]; eauto.
Qed.

(** Building and running records the image it built. *)
Lemma build_and_run_tracks a pk (s : AICodeSandbox) :
  temp_image s = None ->
  tracks image_step (build_and_run a pk s) [] (fun rs g' => g' = held (snd rs)).
Proof.
  destruct s as [c img]. cbn [temp_image]. intros ->.
  unfold build_and_run, bind, images_build, uuid4_hex, containers_run, modify,
    invoke, perform, ret.
  destruct pk as [[| p ps] |]; destruct (is_default_setup (custom_image a) _); trail.
Qed.

Lemma setup_tracks a (s : AICodeSandbox) :
  temp_image s = None ->
  tracks image_step (_setup_sandbox a s) [] (fun rs g' => g' = held (snd rs)).
Proof.
  intros Hs. unfold _setup_sandbox.
  destruct (custom_image a); [by apply build_and_run_tracks |].
  destruct (packages a); [by apply build_and_run_tracks |].
  apply (tracks_bind _ _ _ _ _ _ _ (try_persistent_tracks s [])).
  - intros b s' g' (-> & Hs' & _). cbn [fst snd] in Hs'. rewrite Hs in Hs'.
    destruct b; [| by apply build_and_run_tracks].
    cbn. unfold held. by rewrite Hs'.
  - intros e s' g' (_ & _ & b & Hb). discriminate.
Qed.

(** The constructor ends with nothing built, or with the one image built
    held by the object. *)
Lemma construct_tracks (p : json) (s : AICodeSandbox) :
  temp_image s = None ->
  tracks image_step (construct p s) [] (fun rs g' => g' = held (snd rs)).
Proof.
  intros Hs. unfold construct. unfold bind at 1, from_env, invoke.
  cbn [tracks pbind fst snd image_step]. intros [[] | e]; cbn [tracks pbind fst snd].
  - unfold bind at 1, put. cbn [tracks pbind fst snd].
    destruct (packages_arg p) as [[ps | e] |]; try by apply setup_tracks.
    reflexivity.
  - unfold held. by rewrite Hs.
Qed.

(** Running code builds and removes nothing and assigns no field. *)
Lemma run_code_tracks dedent code env (s : AICodeSandbox) (g : list string) :
  tracks image_step (run_code dedent code env s) g (fun rs g' => g' = g /\ snd rs = s).
Proof.
  unfold run_code, bind, get, exec_run, invoke, raise, ret.
  cbn [tracks pbind fst snd]. destruct (container s) as [c |]; [| by cbn].
  cbn [tracks pbind fst snd image_step]. intros [r | e]; cbn [tracks pbind fst snd];
    [| by split].
  unfold stream_text.
  destruct (out_stream r) as [o |]; [destruct (String.eqb o "") |];
    cbn [tracks pbind fst snd]; try destruct (decode_utf8 _); cbn [tracks pbind fst snd];
    try (by split);
    (destruct (err_stream r) as [o' |]; [destruct (String.eqb o' "") |];
     cbn [tracks pbind fst snd]; try destruct (decode_utf8 _); cbn [tracks pbind fst snd];
     by split).
Qed.

(** Once the image has been handed to [images.remove], nothing is left,
    however the remaining attempts go. *)
Lemma remove_image_attempts_tracks n id (s : AICodeSandbox) :
  tracks image_step (remove_image_attempts n id s) [] (fun _ g' => g' = []).
Proof.
  revert s. induction n as [| n IH]; intros s; cbn [remove_image_attempts].
  - unfold print, perform. by cbn.
  - unfold bind, try_except, images_remove, print, sleep, invoke, perform, ret.
    cbn [tracks pbind fst snd image_step List.filter].
    intros [[] | e]; cbn [tracks pbind fst snd image_step]; [reflexivity |].
    intros [] []. apply IH.
Qed.

Lemma remove_image_attempts_first n id (s : AICodeSandbox) :
  tracks image_step (remove_image_attempts (S n) id s) [id] (fun _ g' => g' = []).
Proof.
  cbn [remove_image_attempts].
  unfold bind, try_except, images_remove, print, sleep, invoke, perform, ret.
  cbn [tracks pbind fst snd image_step]. rewrite image_forgotten.
  intros [[] | e]; cbn [tracks pbind fst snd image_step]; [reflexivity |].
  intros [] []. apply remove_image_attempts_tracks.
Qed.

(** [close] hands the image the object holds to [images.remove]. *)
Lemma close_tracks (s : AICodeSandbox) :
  tracks image_step (close s) (held s) (fun _ g' => g' = []).
Proof.
  unfold close. unfold bind at 1.
  apply (tracks_pbind _ _ _ _
           (fun rs g' => g' = held s /\ rs = (Return tt, set_container None s))).
  - apply tracks_unchanged; [| apply close_container_results].
    unfold close_container, get. apply all_calls_bind; [exact I |].
    intros s0 s1. destruct (container s0) as [c |]; [| exact I].
    destruct (String.eqb (cname c) persistent_name).
    + unfold modify, ret. calls.
    + unfold container_stop, container_remove, print, modify.
      calls; by apply image_unchanged.
  - intros rs g' [-> ->]. cbn [fst snd].
    unfold close_image, bind, get. cbn [pbind fst snd].
    destruct s as [c [id |]]; cbn [temp_image set_container held]; [| reflexivity].
    unfold try_finally, try_except, modify.
    apply (tracks_pbind _ _ _ _ (fun _ g' => g' = [])).
    + apply (tracks_pbind _ _ _ _ (fun _ g' => g' = []));
        [apply remove_image_attempts_first |].
      intros [[[] | e'] s'] g' ->; cbn [tracks pbind fst snd image_step]; [reflexivity |].
      unfold print, perform. cbn [tracks image_step]. by intros [].
    + intros rs g' ->. reflexivity.
Qed.

End GhostFacts.

(** * Further facts about persistent_worker.py *)
Module WorkerExtra.
Import Shell Sandbox SandboxFacts Worker WorkerFacts Measures Ghost GhostFacts.

(** Calls that leave the images alone. *)
Ltac still := calls; try (intros ? ?; reflexivity).

Section WithLib.

Variable lib : pylib.

(** A method of the sandbox run from the worker keeps what it does to the
    images. *)
Lemma tracks_on_object {A} (m : M AICodeSandbox A) (o : AICodeSandbox) (tm : timings)
      (g : list string) (Q : res A * AICodeSandbox -> list string -> Prop) :
  tracks image_step (m o) g Q ->
  tracks image_step (on_object m o tm) g
         (fun r g' => exists rs, r = (Return rs, tm) /\ Q rs g').
Proof.
  intros Hm. unfold on_object. apply (tracks_pbind _ _ _ _ Q); [exact Hm |].
  intros rs g' HQ. cbn. eauto.
Qed.

Lemma clock_unchanged {S} (s : S) : all_calls (unchanged_by image_step) (@perf_counter S s).
Proof. unfold perf_counter. still. Qed.

Lemma stamp_unchanged key since (tm : timings) :
  all_calls (unchanged_by image_step) (stamp key since tm).
Proof. unfold stamp, perf_counter, modify. still. Qed.

Lemma report_failure_unchanged rid t0 e (tm : timings) :
  all_calls (unchanged_by image_step) (report_failure lib rid t0 e tm).
Proof. unfold report_failure, stamp, perf_counter, modify, get, ret. still. Qed.

Lemma stamp_returns key since (tm : timings) :
  all_results (fun rs => exists a, fst rs = Return a) (stamp key since tm).
Proof. unfold stamp, perf_counter, modify, bind, perform. cbn. eauto. Qed.

Lemma report_failure_returns rid t0 e (tm : timings) :
  all_results (fun rs => exists a, fst rs = Return a) (report_failure lib rid t0 e tm).
Proof. unfold report_failure, stamp, perf_counter, modify, get, ret, bind, perform. cbn. eauto. Qed.

Lemma python_attempt_tracks rid code pk t0 (tm : timings) :
  tracks image_step (python_attempt lib rid code pk t0 tm) [] (fun _ g => g = []).
Proof.
  unfold python_attempt.
  apply tracks_bind_unchanged; [apply clock_unchanged | | reflexivity].
  intros t_sandbox tm1.
  apply tracks_bind_unchanged; [| | reflexivity].
  { unfold import_module, ret. still. }
  intros [e |] tm2.
  { apply tracks_unchanged_end; [apply report_failure_unchanged | reflexivity]. }
  eapply tracks_bind;
    [apply tracks_on_object, (construct_tracks pk (MkSandbox None None)); reflexivity | |].
  2:{ intros e s' g' (rs & [=] & _). }
  intros built tm3 g' (rs & [= -> ->] & ->).
  destruct rs as [[[] | e] o]; cbn [fst snd].
  - apply tracks_bind_steady; [apply stamp_unchanged | apply stamp_returns |].
    intros [] tm4.
    apply tracks_bind_steady; [apply clock_unchanged | apply clock_returns_any |].
    intros t_exec tm5.
    eapply tracks_bind;
      [apply tracks_on_object, (run_code_tracks (dedent lib) code None o (held o)) | |].
    2:{ intros e s' g' (rs & [=] & _). }
    intros ran tm6 g' (rs & [= -> ->] & -> & Ho).
    destruct rs as [[out | e] o']; cbn [fst snd] in *; subst o'.
    + apply tracks_bind_steady; [apply stamp_unchanged | apply stamp_returns |].
      intros [] tm7.
      apply tracks_bind_steady; [apply stamp_unchanged | apply stamp_returns |].
      intros [] tm8.
      apply tracks_bind_steady; [exact I | cbn; eauto |].
      intros tm9 tm10.
      eapply tracks_bind; [apply tracks_on_object, (close_tracks o) | |].
      * intros a s' g' (rs & _ & ->). reflexivity.
      * intros e s' g' (rs & [=] & _).
    + apply tracks_bind_steady;
        [apply report_failure_unchanged | apply report_failure_returns |].
      intros response tm7.
      eapply tracks_bind; [apply tracks_on_object, (close_tracks o) | |].
      * intros a s' g' (rs & _ & ->). reflexivity.
      * intros e' s' g' (rs & [=] & _).
  - apply tracks_bind_steady;
      [apply report_failure_unchanged | apply report_failure_returns |].
    intros response tm4.
    eapply tracks_bind; [apply tracks_on_object, (close_tracks o) | |].
    + intros a s' g' (rs & _ & ->). reflexivity.
    + intros e' s' g' (rs & [=] & _).
Qed.

Lemma process_request_tracks (request : json) (tm : timings) :
  tracks image_step (process_request lib request tm) [] (fun _ g => g = []).
Proof.
  unfold process_request.
  apply tracks_bind_unchanged; [exact I | | reflexivity]. intros [] tm1.
  apply tracks_bind_unchanged; [apply clock_unchanged | | reflexivity].
  intros t_start tm2.
  assert (Hmissing : forall rid, tracks image_step (missing_code rid tm2) []
                                        (fun _ g => g = [])).
  { intros rid. apply tracks_unchanged_end; [| reflexivity].
    unfold missing_code, get, ret. still. }
  assert (Hpython : forall rid c pk,
            tracks image_step (python_request lib rid c pk t_start tm2) []
                   (fun _ g => g = [])).
  { intros rid c pk. unfold python_request.
    apply tracks_bind_unchanged; [apply clock_unchanged | | reflexivity].
    intros t_import tm3.
    apply tracks_bind_unchanged; [| | reflexivity].
    { unfold import_module, ret. still. }
    intros [e |] tm4.
    - apply tracks_unchanged_end; [| reflexivity]. unfold get, ret. still.
    - apply tracks_bind_unchanged; [apply stamp_unchanged | | reflexivity].
      intros [] tm5. apply python_attempt_tracks. }
  destruct request as [| b | n | f | str | l | d];
    try solve [apply tracks_unchanged_end; [| reflexivity];
               unfold stamp, perf_counter, modify, raise; still].
  destruct (get_or "code" JNull d) as [| b | n | f | c | l | d']; try apply Hmissing.
  destruct (String.eqb (strip lib c) ""); [apply Hmissing |].
  assert (Hbash : forall rid, tracks image_step (bash_request lib rid c t_start tm2) []
                                     (fun _ g => g = [])).
  { intros rid. apply tracks_unchanged_end; [| reflexivity].
    unfold bash_request, execute_bash, subprocess_run, stamp, perf_counter,
      get, modify, ret.
    repeat first
      [ exact I | reflexivity | progress intros
      | apply all_calls_bind | apply all_calls_perform
      | match goal with
        | |- all_calls _ (match ?x with _ => _ end _) => destruct x
        | |- all_calls _ ((if ?b then _ else _) _) => destruct b
        | |- unchanged_by _ _ => intros ? ?; reflexivity
        end ]. }
  destruct (get_or "language" (JStr "python") d) as [| b | n | f | lang | l | d'];
    try apply Hpython.
  destruct (String.eqb lang "bash"); [apply Hbash | apply Hpython].
Qed.

Lemma handle_line_tracks (raw : string) :
  tracks image_step (handle_line lib raw tt) []
         (fun rs g => g = [] /\ exists a, fst rs = Return a).
Proof.
  assert (Hprint : forall l (s : unit),
            tracks image_step (print l s) [] (fun rs g => g = [] /\ exists a, fst rs = Return a)).
  { intros l s. unfold print, perform. cbn. eauto. }
  unfold handle_line. destruct (String.eqb (strip lib raw) ""); [cbn; eauto |].
  apply tracks_bind_steady; [apply clock_unchanged | apply clock_returns_any |].
  intros t_recv [].
  destruct (loads lib (strip lib raw)) as [request | e].
  - apply tracks_bind_steady; [apply clock_unchanged | apply clock_returns_any |].
    intros t_parse [].
    eapply (tracks_bind _ _ _ _ _ (fun rs g => g = [] /\ exists a, fst rs = Return a)).
    + apply (tracks_pbind _ _ _ _ _ _ (process_request_tracks request [])).
      intros rs g ->. cbn [tracks fst]. eauto.
    + intros [response | e] [] g [-> _]; [| apply Hprint].
      apply tracks_bind_steady; [apply clock_unchanged | apply clock_returns_any |].
      intros t_process [].
      apply tracks_bind_steady; [apply clock_unchanged | apply clock_returns_any |].
      intros t_serialize [].
      apply tracks_bind_steady; [unfold print; still | unfold print, perform; cbn; eauto |].
      intros [] [].
      apply tracks_bind_steady; [apply clock_unchanged | apply clock_returns_any |].
      intros t_output []. cbn. eauto.
    + intros e s' g [_ [a Ha]]. discriminate.
  - destruct (exn_cls e); apply Hprint.
Qed.

Lemma main_tracks (input : list (res string)) :
  tracks image_step (main lib input tt) [] (fun _ g => g = []).
Proof.
  induction input as [| [raw | e] rest IH]; cbn [main]; [reflexivity | | reflexivity].
  eapply tracks_bind; [apply handle_line_tracks | |].
  - intros [] [] g [-> _]. apply IH.
  - intros e s' g [_ [a Ha]]. discriminate.
Qed.

Lemma python_request_never_subprocess rid code pk t0 (tm : timings) :
  all_calls (fun c => is_subprocess c = false) (python_request lib rid code pk t0 tm).
Proof.
  destruct (sandbox_calls (fun c => is_subprocess c = false))
    as (Hconstruct & Hrun & Hclose); try (intros; reflexivity).
  { intros c Hc. by destruct c. }
  specialize (Hclose (fun _ => eq_refl)).
  unfold python_request, python_attempt, report_failure, stamp, perf_counter,
    import_module, get, modify, ret, __del__.
  repeat first
    [ exact I | reflexivity | progress intros
    | apply on_object_calls
    | apply Hconstruct | apply Hclose | apply Hrun
    | apply all_calls_bind | apply all_calls_try_except
    | apply all_calls_invoke | apply all_calls_perform
    | match goal with
      | |- all_calls _ (match ?x with _ => _ end _) => destruct x
      end ].
Qed.

End WithLib.

(** X24 (persistent_worker.py, [process_request] lines 36-48).  A request
    object whose [code] is missing, is not a string, or is blank after
    stripping is answered at once: the response carries the request's [id]
    (or ["unknown"]), [success] false, the error "missing or empty code"
    and empty timings, and the only call made is one reading of the clock;
    nothing is imported and neither Docker nor a subprocess is reached. *)
Theorem missing_code_rejected
    (lib : pylib) (rt : runtime) (w : world rt) (d : list (string * json)) (tm : timings) :
  match get_or "code" JNull d with
  | JStr c => strip lib c = ""
  | _ => True
  end ->
  run rt (process_request lib (JObj d) tm) w =
    ((Return (JObj [("id", get_or "id" (JStr "unknown") d); ("success", JBool false);
                    ("error", JStr "missing or empty code"); ("timings", JObj [])]),
      []),
     [PerfCounter], snd (answer rt PerfCounter w)).
Proof.
  intros Hcode. expose. cbn [run]. destruct (answer rt PerfCounter w) as [t0 w1].
  destruct (get_or "code" JNull d) as [| b | n | f | c | l | d']; try reflexivity.
  rewrite Hcode. reflexivity.
Qed.

Lemma missing_code_rejected_witness :
  result_of (run (RefDocker.docker RefDocker.reliable)
                 (process_request (example_lib []) (JObj [("id", JInt 2); ("code", JStr "  ")]) [])
                 RefDocker.empty_engine)
  = (Return (JObj [("id", JInt 2); ("success", JBool false);
                   ("error", JStr "missing or empty code"); ("timings", JObj [])]), []).
Proof.
  rewrite (missing_code_rejected (example_lib []) (RefDocker.docker RefDocker.reliable)
             RefDocker.empty_engine [("id", JInt 2); ("code", JStr "  ")] []).
  - reflexivity.
  - reflexivity.
Defined.

(** X25 (persistent_worker.py, [process_request] lines 43-51 and 79-129).
    Only the exact string "bash" selects the shell: with any other
    [language] (another string such as "Bash" or "sh", or a value that is
    not a string) the request takes the Python path and the worker never
    calls [subprocess.run], whatever the runtime answers. *)
Theorem other_languages_never_subprocess
    (lib : pylib) (d : list (string * json)) (tm : timings) :
  get_or "language" (JStr "python") d <> JStr "bash" ->
  all_calls (fun c => is_subprocess c = false) (process_request lib (JObj d) tm).
Proof.
  intros Hlang. unfold process_request, put, perf_counter.
  apply all_calls_bind; [exact I | intros _ tm1].
  apply all_calls_bind; [apply all_calls_perform; reflexivity | intros t_start tm2].
  assert (Hmissing : forall rid, all_calls (fun c => is_subprocess c = false)
                                           (missing_code rid tm2)).
  { intros rid. unfold missing_code, get, ret. calls. }
  destruct (get_or "code" JNull d) as [| b | n | f | c | l | d']; try apply Hmissing.
  destruct (String.eqb (strip lib c) ""); [apply Hmissing |].
  destruct (get_or "language" (JStr "python") d) as [| b | n | f | lang | l | d'];
    try apply python_request_never_subprocess.
  destruct (String.eqb_spec lang "bash") as [-> | _]; [done |].
  apply python_request_never_subprocess.
Qed.

Lemma other_languages_never_subprocess_witness :
  all_calls (fun c => is_subprocess c = false)
            (process_request (example_lib [])
               (JObj [("code", JStr "echo hi"); ("language", JStr "Bash")]) []).
Proof.
  apply (other_languages_never_subprocess (example_lib [])
           [("code", JStr "echo hi"); ("language", JStr "Bash")] []).
  vm_compute. discriminate.
Defined.

(** X26 (persistent_worker.py, [process_request] lines 79-89).  When the
    import of [ai_code_sandbox] fails on the Python path, the response
    carries the request's [id], [success] false, the error "failed to
    import: " followed by the exception's message, and timings without any
    entry; the worker has read the clock twice and attempted the import,
    and nothing else. *)
Theorem import_failure_reported
    (lib : pylib) (rt : runtime) (w w1 w2 w3 : world rt) (d : list (string * json))
    (code : string) (tm : timings) (t0 t1 : Z) (e : exn) :
  get_or "code" JNull d = JStr code ->
  String.eqb (strip lib code) "" = false ->
  get_or "language" (JStr "python") d <> JStr "bash" ->
  answer rt PerfCounter w = (t0, w1) ->
  answer rt PerfCounter w1 = (t1, w2) ->
  answer rt (ImportModule "ai_code_sandbox") w2 = (Raise e, w3) ->
  run rt (process_request lib (JObj d) tm) w =
    ((Return (JObj [("id", get_or "id" (JStr "unknown") d); ("success", JBool false);
                    ("error", JStr ("failed to import: " ++ exn_msg e));
                    ("timings", JObj [])]),
      []),
     [PerfCounter; PerfCounter; ImportModule "ai_code_sandbox"], w3).
Proof.
  intros Hcode Hblank Hlang H0 H1 Himport.
  assert (Hpython : forall rid pk,
            run rt (pbind (Ret (Return t0, @nil (string * Z)))
                          (fun rs => python_request lib rid code pk t0 (snd rs))) w1 =
            ((Return (JObj [("id", rid); ("success", JBool false);
                            ("error", JStr ("failed to import: " ++ exn_msg e));
                            ("timings", JObj [])]), []),
             [PerfCounter; ImportModule "ai_code_sandbox"], w3)).
  { intros rid pk. expose. cbn [run]. rewrite H1. cbn [run]. rewrite Himport. reflexivity. }
  unfold process_request. unfold bind at 1, put. cbn [pbind fst snd].
  unfold bind at 1, perf_counter at 1, perform. cbn [pbind run fst snd]. rewrite H0.
  rewrite Hcode, Hblank.
  destruct (get_or "language" (JStr "python") d) as [| b | n | f | lang | l | d'];
    try (cbn [pbind] in Hpython; rewrite Hpython; reflexivity).
  destruct (String.eqb_spec lang "bash") as [-> | _]; [done |].
  cbn [pbind] in Hpython. rewrite Hpython. reflexivity.
Qed.

Lemma import_failure_reported_witness :
  exists w3,
    run (RefDocker.docker not_installed)
        (process_request (example_lib []) (JObj [("id", JInt 4); ("code", JStr "x = 1")]) [])
        RefDocker.empty_engine =
    ((Return (JObj [("id", JInt 4); ("success", JBool false);
                    ("error", JStr "failed to import: No module named 'ai_code_sandbox'");
                    ("timings", JObj [])]), []),
     [PerfCounter; PerfCounter; ImportModule "ai_code_sandbox"], w3).
Proof.
  eexists.
  apply (import_failure_reported (example_lib []) (RefDocker.docker not_installed)
           RefDocker.empty_engine
           (RefDocker.Engine [] [] 0 1 []) (RefDocker.Engine [] [] 0 2 [])
           (RefDocker.Engine [] [] 0 2 [])
           [("id", JInt 4); ("code", JStr "x = 1")] "x = 1" [] 0 1
           (Exn ImportError "No module named 'ai_code_sandbox'")).
  - reflexivity.
  - reflexivity.
  - vm_compute. discriminate.
  - reflexivity.
  - reflexivity.
  - reflexivity.
Defined.

(** X27 (persistent_worker.py, [process_request] lines 91-129 and [main]
    lines 140-176, with sandbox.py [__init__], [close] and [__del__]).
    The worker leaves no image behind without trying: along any run, for
    any request and any input (also one on which the input stream raises),
    every image that a build returned has been handed to [images.remove] by
    the time the request is answered, also when the constructor or the code
    execution raised. *)
Theorem worker_removes_built_images
    (lib : pylib) (rt : runtime) (w : world rt) (request : json) (tm : timings)
    (input : list (res string)) :
  unremoved rt (process_request lib request tm) w = [] /\
  unremoved rt (main lib input tt) w = [].
Proof.
  unfold unremoved. split.
  - apply (tracks_observe image_step rt _ w [] (fun _ g => g = [])).
    apply process_request_tracks.
  - apply (tracks_observe image_step rt _ w [] (fun _ g => g = [])).
    apply main_tracks.
Qed.

End WorkerExtra.

(** * Facts about run_in_sandbox.py *)
Module RunnerExtra.
Import Shell Sandbox SandboxFacts Worker WorkerFacts Measures Ghost GhostFacts Runner.

(** Calls that leave the followed quantity alone. *)
Ltac steady := calls; try (intros ? ?; reflexivity).

Lemma runner_on_object_calls {A} (P : call -> Prop) (m : M AICodeSandbox A) o (tm : Runner.timings) :
  all_calls P (m o) -> all_calls P (Runner.on_object m o tm).
Proof.
  intros Hm. unfold Runner.on_object. apply all_calls_pbind; [exact Hm | intros; exact I].
Qed.

Lemma runner_on_object_returns {A} (m : M AICodeSandbox A) o (tm : Runner.timings) :
  all_results (fun r => exists rs, fst r = Return rs) (Runner.on_object m o tm).
Proof.
  unfold Runner.on_object. apply (all_results_pbind (fun _ => True)); [apply all_results_True |].
  intros rs _. cbn. eauto.
Qed.

Section Track.

Context {G : Type} (step : forall c : call, reply c -> G -> G).

Lemma runner_tracks_on_object {A} (m : M AICodeSandbox A) (o : AICodeSandbox) (tm : Runner.timings)
      (g : G) (Q : res A * AICodeSandbox -> G -> Prop) :
  tracks step (m o) g Q ->
  tracks step (Runner.on_object m o tm) g
         (fun r g' => exists rs, r = (Return rs, tm) /\ Q rs g').
Proof.
  intros Hm. unfold Runner.on_object. apply (tracks_pbind _ _ _ _ Q); [exact Hm |].
  intros rs g' HQ. cbn. eauto.
Qed.

End Track.

(** Text lines only add text to what standard output holds. *)
Lemma tracks_quiet_lines {R} (p : prog R) (said : list out_line) (Q : R -> Prop) :
  all_calls quiet p -> all_results Q p ->
  tracks line_step p said
         (fun r said' => Q r /\ exists texts, said' = (said ++ map Text texts)%list).
Proof.
  revert said. induction p as [r | c k IH]; intros said; cbn [all_calls all_results tracks].
  - intros _ Hr. split; [exact Hr |]. exists []. cbn. by rewrite app_nil_r.
  - intros [Hc Hk] Hr x.
    destruct c; cbn [line_step]; try (apply IH; auto).
    destruct l as [d | t]; [discriminate Hc |].
    eapply tracks_impl; [| apply IH; auto].
    intros r said' [HQ [texts ->]]. split; [exact HQ |].
    exists (t :: texts). cbn. by rewrite <- app_assoc.
Qed.

Lemma lines_unchanged (c : call) :
  match c with Stdout _ => False | _ => True end -> unchanged_by line_step c.
Proof. destruct c; intros H x g; try reflexivity. destruct H. Qed.

Section WithLib.

Variable lib : pylib.

Lemma log_time_calls (P : call -> Prop) key since (tm : Runner.timings) :
  P PerfCounter -> all_calls P (log_time key since tm).
Proof. intros HP. unfold log_time, perf_counter, modify. calls. Qed.

Lemma log_time_returns key since (tm : Runner.timings) :
  all_results (fun rs => exists a, fst rs = Return a) (log_time key since tm).
Proof. unfold log_time, perf_counter, modify, bind, perform. cbn. eauto. Qed.

Lemma runner_failure_returns e t0 (tm : Runner.timings) :
  all_results (fun rs => exists a, fst rs = Return a) (Runner.report_failure lib e t0 tm).
Proof.
  unfold Runner.report_failure, log_time, perf_counter, print, modify, get, ret, bind, perform.
  cbn. eauto.
Qed.

(** ** Images *)

Lemma attempt_images code pk t0 (tm : Runner.timings) :
  tracks image_step (attempt lib code pk t0 tm) [] (fun _ g => g = []).
Proof.
  assert (Hclock : forall tm', all_calls (unchanged_by image_step) (@perf_counter Runner.timings tm'))
    by (intros; unfold perf_counter; steady).
  assert (Hlog : forall key since tm',
            all_calls (unchanged_by image_step) (log_time key since tm'))
    by (intros; apply log_time_calls; intros ? ?; reflexivity).
  assert (Hfail : forall e tm',
            all_calls (unchanged_by image_step) (Runner.report_failure lib e t0 tm')).
  { intros. unfold Runner.report_failure, log_time, perf_counter, print, modify, get, ret.
    steady. }
  assert (Hclose : forall o tm', tracks image_step
            ((t_close <- perf_counter ;;
              Runner.on_object close o ;;;
              log_time "sandbox_close_ms" t_close) tm') (held o) (fun _ g => g = [])).
  { intros o tm'.
    apply tracks_bind_steady; [apply Hclock | apply clock_returns_any |].
    intros t_close tm1.
    eapply tracks_bind; [apply runner_tracks_on_object, (close_tracks o) | |].
    - intros a s' g' (rs & _ & ->).
      apply tracks_unchanged_end; [apply Hlog | reflexivity].
    - intros e s' g' (rs & [=] & _). }
  unfold attempt.
  apply tracks_bind_steady; [apply Hclock | apply clock_returns_any |].
  intros t_sandbox tm1.
  eapply tracks_bind;
    [apply runner_tracks_on_object, (construct_tracks pk (MkSandbox None None)); reflexivity | |].
  2:{ intros e s' g' (rs & [=] & _). }
  intros built tm2 g' (rs & [= -> ->] & ->).
  destruct rs as [[[] | e] o]; cbn [fst snd].
  - apply tracks_bind_steady; [apply Hlog | apply log_time_returns |].
    intros [] tm3.
    apply tracks_bind_steady; [apply Hclock | apply clock_returns_any |].
    intros t_exec tm4.
    eapply tracks_bind;
      [apply runner_tracks_on_object, (run_code_tracks (dedent lib) code None o (held o)) | |].
    2:{ intros e s' g' (rs & [=] & _). }
    intros ran tm5 g' (rs & [= -> ->] & -> & Ho).
    destruct rs as [[out | e] o']; cbn [fst snd] in *; subst o'.
    + apply tracks_bind_steady; [| | intros; apply Hclose].
      * unfold print, get, ret. steady; apply Hlog || apply Hclock.
      * unfold log_time, perf_counter, print, modify, get, ret, bind, perform. cbn. eauto.
    + apply tracks_bind_steady; [apply Hfail | apply runner_failure_returns |].
      intros; apply Hclose.
  - apply tracks_bind_steady; [apply Hfail | apply runner_failure_returns |].
    intros [] tm3.
    eapply tracks_bind; [apply runner_tracks_on_object, (close_tracks o) | |].
    + intros a s' g' (rs & _ & ->). reflexivity.
    + intros e' s' g' (rs & [=] & _).
Qed.

Lemma main_images (raw : string) (tm : Runner.timings) :
  tracks image_step (Runner.main lib raw tm) [] (fun _ g => g = []).
Proof.
  assert (Hclock : forall tm', all_calls (unchanged_by image_step) (@perf_counter Runner.timings tm'))
    by (intros; unfold perf_counter; steady).
  assert (Hlog : forall key since tm',
            all_calls (unchanged_by image_step) (log_time key since tm'))
    by (intros; apply log_time_calls; intros ? ?; reflexivity).
  assert (Hprint : forall l tm', all_calls (unchanged_by image_step) (@print Runner.timings l tm'))
    by (intros; unfold print; steady).
  assert (Hfail : forall e t0 tm',
            tracks image_step (Runner.report_failure lib e t0 tm') [] (fun _ g => g = [])).
  { intros. apply tracks_unchanged_end; [| reflexivity].
    unfold Runner.report_failure, log_time, perf_counter, print, modify, get, ret. steady. }
  unfold Runner.main.
  apply tracks_bind_steady; [exact I | cbn; eauto |]. intros [] tm1.
  apply tracks_bind_steady; [apply Hclock | apply clock_returns_any |].
  intros t_main_start tm2.
  apply (tracks_try_except _ _ _ _ _ (fun _ g => g = [])); [| auto | intros; subst; apply Hfail].
  apply tracks_bind_steady; [apply Hclock | apply clock_returns_any |].
  intros t_read_start tm3.
  apply tracks_bind_steady; [apply Hlog | apply log_time_returns |].
  intros [] tm4.
  destruct (String.eqb raw ""); [apply tracks_unchanged_end; [apply Hprint | reflexivity] |].
  apply tracks_bind_steady; [apply Hclock | apply clock_returns_any |].
  intros t_parse_start tm5.
  destruct (loads lib raw) as [data | e]; [| reflexivity].
  apply tracks_bind_steady; [apply Hlog | apply log_time_returns |].
  intros [] tm6.
  destruct data as [| b | n | f | str | l | d]; try reflexivity.
  destruct (get_or "code" JNull d) as [| b | n | f | c | l | d'];
    try (apply tracks_unchanged_end; [apply Hprint | reflexivity]).
  destruct (String.eqb (strip lib c) "");
    [apply tracks_unchanged_end; [apply Hprint | reflexivity] |].
  apply tracks_bind_steady; [apply Hclock | apply clock_returns_any |].
  intros t_import_start tm7.
  apply tracks_bind_unchanged; [| | reflexivity].
  { unfold import_module, ret. steady. }
  intros [e |] tm8; [apply tracks_unchanged_end; [apply Hprint | reflexivity] |].
  apply attempt_images.
Qed.

(** ** Standard output *)

Lemma failure_document e t0 (tm : Runner.timings) :
  tracks line_step (Runner.report_failure lib e t0 tm) []
         (fun rs said => (exists a, fst rs = Return a) /\ exists d,
                           said = [Dumps d] /\ exists b, success_of d = Some (JBool b)).
Proof.
  unfold Runner.report_failure, log_time, perf_counter, print, modify, get, ret, bind, perform.
  cbn [tracks pbind fst snd line_step]. intros t []. cbn.
  split; [eauto |]. eexists. split; [reflexivity |]. cbn. eauto.
Qed.

Lemma rejection_document message (tm : Runner.timings) :
  tracks line_step (print (rejection message) tm) []
         (fun rs said => (exists a, fst rs = Return a) /\ one_document said).
Proof.
  unfold print, perform, rejection. cbn [tracks line_step]. intros []. cbn.
  split; [eauto |]. exists (JObj [("success", JBool false); ("error", JStr message)]), [].
  split; [reflexivity |]. cbn. eauto.
Qed.

(** What follows the document: the clock and [close]. *)
Lemma closing_lines (o : AICodeSandbox) (d : json) (tm : Runner.timings) :
  (exists b, success_of d = Some (JBool b)) ->
  tracks line_step
    ((t_close <- perf_counter ;;
      Runner.on_object close o ;;;
      log_time "sandbox_close_ms" t_close) tm) [Dumps d]
    (fun rs said => (exists a, fst rs = Return a) /\ one_document said).
Proof.
  intros Hd.
  eapply tracks_impl;
    [| apply (tracks_quiet_lines _ [Dumps d] (fun rs => exists a, fst rs = Return a))].
  - intros rs said [Hr [texts ->]]. split; [exact Hr |]. exists d, texts. by split.
  - unfold perf_counter. apply all_calls_bind; [apply all_calls_perform; reflexivity |].
    intros t tm1. apply all_calls_bind; [apply runner_on_object_calls, close_quiet |].
    intros _ tm2. apply log_time_calls. reflexivity.
  - eapply all_results_bind; [apply clock_returns_any | | intros e s' [a Ha]; discriminate].
    intros t tm1 _.
    eapply all_results_bind; [apply runner_on_object_returns | | intros e s' [a Ha]; discriminate].
    intros rs tm2 _. apply log_time_returns.
Qed.

Lemma attempt_lines code pk t0 (tm : Runner.timings) :
  tracks line_step (attempt lib code pk t0 tm) []
         (fun rs said => (exists a, fst rs = Return a) /\ one_document said).
Proof.
  destruct (sandbox_calls (unchanged_by line_step)) as (Hconstruct & Hrun & _);
    try (intros; by apply lines_unchanged).
  { intros c Hc. apply lines_unchanged. by destruct c. }
  assert (Hclock : forall tm', all_calls (unchanged_by line_step) (@perf_counter Runner.timings tm'))
    by (intros; unfold perf_counter; steady).
  assert (Hlog : forall key since tm',
            all_calls (unchanged_by line_step) (log_time key since tm'))
    by (intros; apply log_time_calls; intros ? ?; reflexivity).
  unfold attempt.
  apply tracks_bind_steady; [apply Hclock | apply clock_returns_any |].
  intros t_sandbox tm1.
  apply tracks_bind_steady; [apply runner_on_object_calls, Hconstruct | apply runner_on_object_returns |].
  intros [[[] | e] o] tm2; cbn [fst snd].
  - apply tracks_bind_steady; [apply Hlog | apply log_time_returns |].
    intros [] tm3.
    apply tracks_bind_steady; [apply Hclock | apply clock_returns_any |].
    intros t_exec tm4.
    apply tracks_bind_steady; [apply runner_on_object_calls, Hrun | apply runner_on_object_returns |].
    intros [[out | e] o'] tm5; cbn [fst snd].
    + eapply (tracks_bind _ _ _ _ _
                (fun rs said => (exists a, fst rs = Return a) /\ exists d,
                                  said = [Dumps d] /\ exists b, success_of d = Some (JBool b))).
      * apply tracks_bind_steady; [apply Hlog | apply log_time_returns |]. intros [] tm6.
        apply tracks_bind_steady; [apply Hclock | apply clock_returns_any |].
        intros t_serialize tm7.
        apply tracks_bind_steady; [apply Hlog | apply log_time_returns |]. intros [] tm8.
        apply tracks_bind_steady; [apply Hlog | apply log_time_returns |]. intros [] tm9.
        apply tracks_bind_steady; [exact I | cbn; eauto |]. intros tm10 tm11.
        unfold print, perform. cbn [tracks line_step]. intros [].
        cbn [tracks app fst].
        split; [eauto |]. eexists. split; [reflexivity |]. cbn. eauto.
      * intros [] tm6 said (_ & d & -> & Hd). by apply closing_lines.
      * intros e s' said ([a Ha] & _). discriminate.
    + eapply tracks_bind; [apply failure_document | |].
      * intros [] tm6 said (_ & d & -> & Hd). by apply closing_lines.
      * intros e' s' said ([a Ha] & _). discriminate.
  - eapply tracks_bind; [apply failure_document | |].
    + intros [] tm3 said (_ & d & -> & Hd).
      eapply tracks_bind.
      * apply (tracks_quiet_lines _ [Dumps d] (fun rs => exists a, fst rs = Return a)).
        -- apply runner_on_object_calls. apply close_quiet.
        -- apply runner_on_object_returns.
      * intros rs tm4 said (_ & texts & ->). cbn. split; [eauto |].
        exists d, texts. by split.
      * intros e' s' said ([a Ha] & _). discriminate.
    + intros e' s' said ([a Ha] & _). discriminate.
Qed.

Lemma main_lines (raw : string) (tm : Runner.timings) :
  tracks line_step (Runner.main lib raw tm) []
         (fun rs said => (exists a, fst rs = Return a) /\ one_document said).
Proof.
  assert (Hclock : forall tm', all_calls (unchanged_by line_step) (@perf_counter Runner.timings tm'))
    by (intros; unfold perf_counter; steady).
  assert (Hlog : forall key since tm',
            all_calls (unchanged_by line_step) (log_time key since tm'))
    by (intros; apply log_time_calls; intros ? ?; reflexivity).
  assert (Hfail : forall e t0 tm',
            tracks line_step (Runner.report_failure lib e t0 tm') []
                   (fun rs said => (exists a, fst rs = Return a) /\ one_document said)).
  { intros. eapply tracks_impl; [| apply failure_document].
    intros rs said (Hr & d & -> & Hd). split; [exact Hr |]. exists d, []. by split. }
  unfold Runner.main.
  apply tracks_bind_steady; [exact I | cbn; eauto |]. intros [] tm1.
  apply tracks_bind_steady; [apply Hclock | apply clock_returns_any |].
  intros t_main_start tm2.
  apply (tracks_try_except _ _ _ _ _
           (fun rs said => match fst rs with
                           | Return _ => one_document said
                           | Raise _ => said = []
                           end)).
  2:{ intros a s' said Hdoc. cbn [fst] in *. split; [eauto | exact Hdoc]. }
  2:{ intros e s' said Hsaid. cbn [fst] in Hsaid. subst said. apply Hfail. }
  assert (Hweaken : forall (p : prog (res unit * Runner.timings)),
            tracks line_step p []
                   (fun rs said => (exists a, fst rs = Return a) /\ one_document said) ->
            tracks line_step p []
                   (fun rs said => match fst rs with
                                   | Return _ => one_document said
                                   | Raise _ => said = []
                                   end)).
  { intros p. apply tracks_impl. intros [[a | e] s'] said [[a' Ha] Hdoc]; cbn [fst] in *;
      [exact Hdoc | discriminate]. }
  apply tracks_bind_steady; [apply Hclock | apply clock_returns_any |].
  intros t_read_start tm3.
  apply tracks_bind_steady; [apply Hlog | apply log_time_returns |].
  intros [] tm4.
  destruct (String.eqb raw ""); [apply Hweaken, rejection_document |].
  apply tracks_bind_steady; [apply Hclock | apply clock_returns_any |].
  intros t_parse_start tm5.
  destruct (loads lib raw) as [data | e]; [| reflexivity].
  apply tracks_bind_steady; [apply Hlog | apply log_time_returns |].
  intros [] tm6.
  destruct data as [| b | n | f | str | l | d]; try reflexivity.
  destruct (get_or "code" JNull d) as [| b | n | f | c | l | d'];
    try apply Hweaken, rejection_document.
  destruct (String.eqb (strip lib c) ""); [apply Hweaken, rejection_document |].
  apply tracks_bind_steady; [apply Hclock | apply clock_returns_any |].
  intros t_import_start tm7.
  apply tracks_bind_steady.
  { unfold import_module, ret. steady. }
  { unfold try_except, bind, import_module, log_time, perf_counter, modify, invoke,
      perform, ret. cbn. intros [[] | e]; cbn; eauto. }
  intros [e |] tm8; [apply Hweaken, rejection_document |].
  apply Hweaken, attempt_lines.
Qed.

(** ** Requests turned down *)

Lemma main_turned_down (raw msg : string) (tm : Runner.timings) :
  turned_down lib raw = Some msg ->
  all_calls (clock_or_rejection msg) (Runner.main lib raw tm).
Proof.
  intros Hdown. unfold turned_down in Hdown.
  assert (Hdone : forall (p : prog (res unit * Runner.timings)),
            p = Runner.main lib raw tm -> all_calls (clock_or_rejection msg) p ->
            all_calls (clock_or_rejection msg) (Runner.main lib raw tm))
    by (intros p ->; auto).
  destruct (String.eqb raw "") eqn:Hraw.
  { injection Hdown as <-. eapply Hdone.
    - unfold Runner.main, try_except, Runner.report_failure, log_time, bind, perf_counter,
        print, put, modify, get, raise, ret, perform. cbn [pbind fst snd].
      rewrite Hraw. reflexivity.
    - cbn [pbind fst snd all_calls]. unfold clock_or_rejection, rejection.
      repeat (split || intros); try (by left); try exact I.
      right. eexists. split; [reflexivity |]. by split. }
  destruct (loads lib raw) as [data | e] eqn:Hloads.
  2:{ injection Hdown as <-. eapply Hdone.
      - unfold Runner.main, try_except, Runner.report_failure, log_time, bind, perf_counter,
          print, put, modify, get, raise, ret, perform. cbn [pbind fst snd].
        rewrite Hraw, Hloads. reflexivity.
      - cbn [pbind fst snd all_calls]. unfold clock_or_rejection.
        repeat (split || intros); try (by left); try exact I.
        right. eexists. split; [reflexivity |]. by split. }
  assert (Hother : (forall d, data <> JObj d) -> msg = exn_msg (no_get data) ->
                   all_calls (clock_or_rejection msg) (Runner.main lib raw tm)).
  { intros Hnot ->. eapply Hdone.
    - unfold Runner.main, try_except, Runner.report_failure, log_time, bind, perf_counter,
        print, put, modify, get, raise, ret, perform. cbn [pbind fst snd].
      rewrite Hraw, Hloads. reflexivity.
    - destruct data as [| b | n | f | str | l | d];
        try (exfalso; eapply Hnot; reflexivity);
        cbn [pbind fst snd all_calls]; unfold clock_or_rejection;
        repeat (split || intros); try (by left); try exact I;
        right; eexists; (split; [reflexivity |]); by split. }
  assert (Hmissing : (forall d, data = JObj d ->
                        match get_or "code" JNull d with
                        | JStr c => String.eqb (strip lib c) "" = true
                        | _ => True
                        end) ->
                     (exists d, data = JObj d) -> msg = "missing or empty 'code'" ->
                     all_calls (clock_or_rejection msg) (Runner.main lib raw tm)).
  { intros Hcode [d ->] ->. specialize (Hcode d eq_refl). eapply Hdone.
    - unfold Runner.main, try_except, Runner.report_failure, log_time, bind, perf_counter,
        print, put, modify, get, raise, ret, perform. cbn [pbind fst snd].
      rewrite Hraw, Hloads. reflexivity.
    - destruct (get_or "code" JNull d) as [| b | n | f | c | l | d'];
        try rewrite Hcode;
        cbn [pbind fst snd all_calls]; unfold clock_or_rejection, rejection;
        repeat (split || intros); try (by left); try exact I;
        right; eexists; (split; [reflexivity |]); by split. }
  destruct data as [| b | n | f | str | l | d];
    try (apply Hother; [discriminate | by injection Hdown]).
  apply Hmissing; [| eauto |].
  - intros d0 [= <-]. destruct (get_or "code" JNull d) as [| b | n | f | c | l | d']; auto.
    by destruct (String.eqb (strip lib c) "").
  - destruct (get_or "code" JNull d) as [| b | n | f | c | l | d'];
      try (by injection Hdown).
    destruct (String.eqb (strip lib c) ""); [by injection Hdown | discriminate].
Qed.

End WithLib.


Lemma rejections_only (msg : string) (tr : list call) :
  Forall (clock_or_rejection msg) tr ->
  Forall (fun l => exists d, l = Dumps d /\ success_of d = Some (JBool false) /\
                             error_of d = Some (JStr msg))
         (stdout_lines tr).
Proof.
  induction 1 as [| c tr Hc _ IH]; [constructor |].
  destruct Hc as [-> | (d & -> & Hd)]; cbn [stdout_lines]; [exact IH |].
  constructor; eauto.
Qed.

(** X28 (run_in_sandbox.py, [main] lines 34-110, with sandbox.py [close]).
    Whatever the input, the library functions and the runtime do, [main]
    returns normally and standard output begins with exactly one JSON
    document, an object with a boolean [success]; the only lines that can
    follow it are the plain-text messages that [close] prints while
    cleaning up. *)
Theorem runner_one_document
    (lib : pylib) (rt : runtime) (w : world rt) (raw : string) (tm : Runner.timings) :
  let out := run rt (Runner.main lib raw tm) w in
  fst (result_of out) = Return tt /\
  one_document (stdout_lines (trace_of out)).
Proof.
  cbn zeta.
  pose proof (tracks_observe line_step rt _ w [] _ (main_lines lib raw tm)) as [[[] Hr] Hdoc].
  rewrite observe_lines in Hdoc. cbn [app] in Hdoc. by split.
Qed.

(** X29 (run_in_sandbox.py, [main] lines 38-56 and 106-110).  An input
    that is empty, fails to decode, decodes to something that is not an
    object, or has no non-blank string as [code] is turned down before
    anything is imported: the run consists of readings of the clock and one
    line on standard output, a JSON document with [success] false and the
    reason as [error] ("no input", the decoder's message, the attribute
    error of [data.get], or "missing or empty 'code'"); Docker is never
    reached. *)
Theorem runner_turns_down_early
    (lib : pylib) (rt : runtime) (w : world rt) (raw msg : string) (tm : Runner.timings) :
  turned_down lib raw = Some msg ->
  let tr := trace_of (run rt (Runner.main lib raw tm) w) in
  Forall (clock_or_rejection msg) tr /\
  exists d, stdout_lines tr = [Dumps d] /\
            success_of d = Some (JBool false) /\ error_of d = Some (JStr msg).
Proof.
  intros Hdown. cbn zeta.
  pose proof (all_calls_run _ rt _ w (main_turned_down lib raw msg tm Hdown)) as Hall.
  split; [exact Hall |].
  pose proof (tracks_observe line_step rt _ w [] _ (main_lines lib raw tm))
    as [_ (d & texts & Hsaid & _)].
  rewrite observe_lines in Hsaid. cbn [app] in Hsaid.
  pose proof (rejections_only msg _ Hall) as Hrej. rewrite Hsaid in Hrej.
  inversion Hrej as [| l ls Hhead Hrest]; subst.
  destruct Hhead as (d0 & Heq & Hd). injection Heq as <-.
  destruct texts as [| t texts].
  - exists d. by split.
  - cbn [map] in Hrest. inversion Hrest as [| l' ls' Habs _]; subst.
    destruct Habs as (d1 & Habs & _). discriminate.
Qed.

Lemma runner_turns_down_early_witness :
  exists d,
    stdout_lines (trace_of (run (RefDocker.docker RefDocker.reliable)
                                (Runner.main (example_lib request_decoded) "[1]" [])
                                RefDocker.empty_engine)) = [Dumps d] /\
    success_of d = Some (JBool false) /\
    error_of d = Some (JStr "'list' object has no attribute 'get'").
Proof.
  apply (runner_turns_down_early (example_lib request_decoded)
           (RefDocker.docker RefDocker.reliable) RefDocker.empty_engine "[1]"
           "'list' object has no attribute 'get'" []).
  reflexivity.
Defined.

(** X30 (run_in_sandbox.py, [main] lines 67-104, with sandbox.py
    [__init__], [close] and [__del__]).  Along any run of [main], every
    image that a build returned has been handed to [images.remove] by the
    end, also when the constructor or the code execution raised. *)
Theorem runner_removes_built_images
    (lib : pylib) (rt : runtime) (w : world rt) (raw : string) (tm : Runner.timings) :
  unremoved rt (Runner.main lib raw tm) w = [].
Proof.
  unfold unremoved.
  apply (tracks_observe image_step rt _ w [] (fun _ g => g = [])).
  apply main_images.
Qed.

End RunnerExtra.

